(** * College metrics explorer: the metrics aggregator and its formatters

    A shallow embedding of [src/app.py]: the two formatters
    [format_currency] and [format_percentage], the aggregator
    [get_school_metrics], and the total-enrollment derivation performed by
    [main] on the aggregator's report.

    The records the aggregator reads are JSON documents decoded by Python
    ([response.json()]), so the embedding starts with the Python values such
    a document can hold and with the part of Python's behaviour the source
    relies on: [dict.get], [==] against an integer, [*] by an integer,
    truthiness, [str()], [int()] and the format specifications [".1f"],
    [",.2f"] and [","]. Floats are IEEE-754 binary64 numbers, taken from
    [SpecFloat] with precision 53 and maximal exponent 1024. *)

(** The rest of [src/app.py] follows the aggregator: the chart builder
    [create_demographic_chart] and the page [main], with the calls it makes
    to Streamlit kept as a log; then [fetch_school_data] of
    [src/data_loader.py], whose collaborators (the secrets, the HTTP
    client, the clock) are parameters. *)

From Stdlib Require Import ZArith Lia List Ascii String.
From Stdlib Require Import Floats.SpecFloat.
From stdpp Require Import gmap strings pretty.

#[local] Open Scope Z_scope.
#[local] Set Warnings "-register-all".

(** ** Exceptions and results *)

(** The built-in exceptions the modelled code can raise. *)
Inductive exn : Type :=
| AttributeError   (* a method looked up on an object that lacks it *)
| TypeError
| ValueError
| OverflowError
| KeyError.

Inductive res (A : Type) : Type :=
| Ok (a : A)
| Raise (e : exn).
Arguments Ok {A} a.
Arguments Raise {A} e.

Definition res_bind {A B : Type} (r : res A) (k : A -> res B) : res B :=
  match r with
  | Ok a => k a
  | Raise e => Raise e
  end.

(** ** Python values *)

(** What [json.loads] can produce.  A dictionary is read by key only, so it
    is a finite map; text is a string of bytes, ASCII in everything below. *)
Inductive value : Type :=
| VNone
| VBool (b : bool)
| VInt (n : Z)
| VFloat (f : spec_float)
| VStr (s : string)
| VList (l : list value)
| VDict (d : gmap string value).

(** The metrics report: a dictionary literal whose values are again
    dictionary literals or leaves.  Insertion order is part of a Python
    dictionary and the presentation layer iterates over it, so the items are
    kept as a list. *)
Inductive report : Type :=
| Leaf (v : value)
| Node (items : list (string * report)).

(** ** binary64 arithmetic *)

Module Float.

Definition prec : Z := 53.
Definition emax : Z := 1024.

(** Nearest binary64 number to an integer (ties to even); an infinity
    when the integer is out of range. *)
Definition of_Z (n : Z) : spec_float := binary_normalize prec emax n 0 false.

(** Nearest binary64 number to the decimal literal [num / den], as
    the reader of float literals produces it: both operands are exact
    and IEEE division rounds the exact quotient correctly. *)
Definition of_ratio (num den : Z) : spec_float :=
  SFdiv prec emax (of_Z num) (of_Z den).

Definition mul (x y : spec_float) : spec_float := SFmul prec emax x y.

Definition is_finite (x : spec_float) : bool :=
  match x with
  | S754_zero _ | S754_finite _ _ _ => true
  | _ => false
  end.

Definition is_zero (x : spec_float) : bool :=
  match x with
  | S754_zero _ => true
  | _ => false
  end.

(** [x == n] for an integer [n]: Python compares the two numbers exactly. *)
Definition eq_Z (x : spec_float) (n : Z) : bool :=
  match x with
  | S754_zero _ => n =? 0
  | S754_finite s m e =>
      let sm := if s then Z.neg m else Z.pos m in
      if 0 <=? e then sm * 2 ^ e =? n else sm =? n * 2 ^ (- e)
  | _ => false
  end.

(** [num / den] rounded to the nearest integer, ties to the even one
    ([0 <= num], [0 < den]). *)
Definition round_half_even (num den : Z) : Z :=
  let q := num / den in
  match 2 * (num mod den) ?= den with
  | Lt => q
  | Gt => q + 1
  | Eq => if Z.even q then q else q + 1
  end.

(** [m * 2^e * 10^nd] rounded to the nearest integer, ties to even: the
    digits a fixed-point conversion with [nd] decimals prints. *)
Definition scaled (nd : nat) (m : positive) (e : Z) : Z :=
  if 0 <=? e then Z.pos m * 2 ^ e * 10 ^ Z.of_nat nd
  else round_half_even (Z.pos m * 10 ^ Z.of_nat nd) (2 ^ (- e)).

(** Truncation toward zero of a finite float, as [int(x)] does. *)
Definition trunc (s : bool) (m : positive) (e : Z) : Z :=
  let a := if 0 <=? e then Z.pos m * 2 ^ e else Z.pos m / 2 ^ (- e) in
  if s then - a else a.

End Float.

(** ** Decimal text *)

Module Text.

Definition digits (n : Z) : string := pretty (Z.to_N n).

(** [s] padded with zeros on the left up to [width] characters. *)
Definition zero_pad (width : nat) (s : string) : string :=
  String.concat "" (replicate (width - String.length s) "0") +:+ s.

(** A comma before every group of three digits, counted from the right:
    [rev_digits] holds the digits from the least significant one and
    [acc] the text built so far. *)
Fixpoint group_from_right (rev_digits : list ascii) (acc : string) : string :=
  match rev_digits with
  | a :: b :: c :: ((_ :: _) as rest) =>
      group_from_right rest (String "," (String c (String b (String a acc))))
  | a :: rest => group_from_right rest (String a acc)
  | [] => acc
  end.

Definition with_commas (s : string) : string :=
  group_from_right (rev (list_ascii_of_string s)) "".

(** The fixed-point text of [n / 10^nd] for [0 <= n]. *)
Definition fixed (comma : bool) (nd : nat) (n : Z) : string :=
  let unit := 10 ^ Z.of_nat nd in
  let ip := digits (n / unit) in
  let ip := if comma then with_commas ip else ip in
  match nd with
  | O => ip
  | _ => ip +:+ "." +:+ zero_pad nd (digits (n mod unit))
  end.

Definition minus (neg : bool) : string := if neg then "-" else "".

(** [format(x, ".<nd>f")] and [format(x, ",.<nd>f")] for a float [x]. *)
Definition float_f (comma : bool) (nd : nat) (x : spec_float) : string :=
  match x with
  | S754_nan => "nan"
  | S754_infinity s => minus s +:+ "inf"
  | S754_zero s => minus s +:+ fixed comma nd 0
  | S754_finite s m e => minus s +:+ fixed comma nd (Float.scaled nd m e)
  end.

(** [format(n, ",")] for an integer [n]. *)
Definition int_commas (n : Z) : string :=
  minus (n <? 0) +:+ with_commas (digits (Z.abs n)).

Definition is_digit (a : ascii) : bool :=
  let n := nat_of_ascii a in (48 <=? n)%nat && (n <=? 57)%nat.

(** The white space [int()] strips from both ends of a string. *)
Definition is_space (a : ascii) : bool :=
  let n := nat_of_ascii a in
  ((9 <=? n)%nat && (n <=? 13)%nat) || ((28 <=? n)%nat && (n <=? 32)%nat).

Fixpoint drop_spaces (l : list ascii) : list ascii :=
  match l with
  | a :: rest => if is_space a then drop_spaces rest else l
  | [] => []
  end.

Definition strip (l : list ascii) : list ascii :=
  rev (drop_spaces (rev (drop_spaces l))).

End Text.


(** ** Python built-ins on values *)

Module Py.

Definition b2z (b : bool) : Z := if b then 1 else 0.

(** [v == n] for an integer literal [n].  [bool] is a subclass of [int];
    strings, containers and [None] never equal a number. *)
Definition eq_int (v : value) (n : Z) : bool :=
  match v with
  | VBool b => b2z b =? n
  | VInt m => m =? n
  | VFloat f => Float.eq_Z f n
  | _ => false
  end.

(** Truth value of [v] in a condition. *)
Definition truthy (v : value) : bool :=
  match v with
  | VNone => false
  | VBool b => b
  | VInt n => negb (n =? 0)
  | VFloat f => negb (Float.is_zero f)
  | VStr s => negb (String.eqb s "")
  | VList l => match l with [] => false | _ => true end
  | VDict d => match map_to_list d with [] => false | _ => true end
  end.

(** [float(n)]: too large an integer raises instead of giving infinity. *)
Definition float_of_int (n : Z) : res spec_float :=
  let f := Float.of_Z n in
  if Float.is_finite f then Ok f else Raise OverflowError.

(** [v * k] for an integer literal [k]. *)
Definition mul_int (v : value) (k : Z) : res value :=
  match v with
  | VBool b => Ok (VInt (b2z b * k))
  | VInt n => Ok (VInt (n * k))
  | VFloat f => res_bind (float_of_int k) (fun y => Ok (VFloat (Float.mul f y)))
  | VStr s => Ok (VStr (String.concat "" (replicate (Z.to_nat k) s)))
  | VList l => Ok (VList (concat (replicate (Z.to_nat k) l)))
  | VNone | VDict _ => Raise TypeError
  end.

(** [format(v, ".<nd>f")], or [format(v, ",.<nd>f")] when [comma] is set.
    An integer is converted to a float first; a string does not know the
    presentation type [f]; [None] and containers accept no format
    specification at all. *)
Definition format_f (comma : bool) (nd : nat) (v : value) : res string :=
  match v with
  | VBool b =>
      res_bind (float_of_int (b2z b)) (fun x => Ok (Text.float_f comma nd x))
  | VInt n =>
      res_bind (float_of_int n) (fun x => Ok (Text.float_f comma nd x))
  | VFloat f => Ok (Text.float_f comma nd f)
  | VStr _ => Raise ValueError
  | VNone | VList _ | VDict _ => Raise TypeError
  end.

(** Digits with single underscores allowed between them. *)
Fixpoint parse_digits (l : list ascii) (acc : Z) (after_digit : bool)
  : option Z :=
  match l with
  | [] => if after_digit then Some acc else None
  | a :: rest =>
      if Text.is_digit a
      then parse_digits rest (10 * acc + (Z.of_nat (nat_of_ascii a) - 48)) true
      else if Ascii.eqb a "_"
      then if after_digit then parse_digits rest acc false else None
      else None
  end.

(** [int(s)] for a string of ASCII characters: surrounding white space, an
    optional sign, decimal digits ([None] where Python raises [ValueError];
    the interpreter's limit on the number of digits is left out). *)
Definition int_of_string (s : string) : option Z :=
  match Text.strip (list_ascii_of_string s) with
  | "+"%char :: l => parse_digits l 0 false
  | "-"%char :: l => Z.opp <$> parse_digits l 0 false
  | l => parse_digits l 0 false
  end.

(** [int(v)]. *)
Definition int (v : value) : res Z :=
  match v with
  | VBool b => Ok (b2z b)
  | VInt n => Ok n
  | VFloat (S754_zero _) => Ok 0
  | VFloat (S754_finite s m e) => Ok (Float.trunc s m e)
  | VFloat (S754_infinity _) => Raise OverflowError
  | VFloat S754_nan => Raise ValueError
  | VStr s =>
      match int_of_string s with
      | Some n => Ok n
      | None => Raise ValueError
      end
  | VNone | VList _ | VDict _ => Raise TypeError
  end.

(** [r[key]] on a report built by the aggregator: a missing key raises
    [KeyError]; a leaf that is not a dictionary cannot be indexed by a
    string. *)
Definition getitem (r : report) (key : string) : res report :=
  match r with
  | Node items =>
      match list_find (fun kv => bool_decide (kv.1 = key)) items with
      | Some (_, (_, sub)) => Ok sub
      | None => Raise KeyError
      end
  | Leaf (VDict d) =>
      match d !! key with
      | Some v => Ok (Leaf v)
      | None => Raise KeyError
      end
  | Leaf _ => Raise TypeError
  end.

(** [int(r)] on an entry of the report. *)
Definition int_of_entry (r : report) : res Z :=
  match r with
  | Leaf v => int v
  | Node _ => Raise TypeError
  end.

End Py.

(** ** Computations over the caller's record *)

(** The record handed to the aggregator is an object owned by the caller
    (an entry of the fetch cache).  A computation reads that object and may
    raise; it returns the object as it leaves it. *)
Definition M (A : Type) : Type := value -> res A * value.

#[global] Instance M_ret : MRet M := fun A a σ => (Ok a, σ).

#[global] Instance M_bind : MBind M := fun A B k m σ =>
  match m σ with
  | (Ok a, σ') => k a σ'
  | (Raise e, σ') => (Raise e, σ')
  end.

(** A pure computation that may raise. *)
Definition lift {A : Type} (r : res A) : M A := fun σ => (r, σ).

(** The argument of the function: a reference to the caller's record. *)
Definition load : M value := fun σ => (Ok σ, σ).

(** [obj.get(key, dflt)].  Only a dictionary has the method; it reads the
    dictionary and changes nothing. *)
Definition py_get (obj : value) (key : string) (dflt : value) : M value :=
  match obj with
  | VDict d => mret (default dflt (d !! key))
  | _ => lift (Raise AttributeError)
  end.

#[global] Instance res_ret : MRet res := fun A a => Ok a.
#[global] Instance res_bind_inst : MBind res := fun A B k r => res_bind r k.

(** [obj.get(k1, {}).get(k2, {}) ... .get(kn, {})]: the chains of lookups
    with an empty dictionary as the default, as the aggregator writes them. *)
Fixpoint get_chain (obj : value) (keys : list string) : M value :=
  match keys with
  | [] => mret obj
  | k :: rest => o ← py_get obj k (VDict ∅); get_chain o rest
  end.

(** [obj.get(k1, {}) ... .get(kn, {}).get(last, dflt)]. *)
Definition get_path (obj : value) (keys : list string) (last : string)
    (dflt : value) : M value :=
  o ← get_chain obj keys; py_get o last dflt.

(** ** Dictionary displays *)

(** A dictionary display [{k1: e1, ..., kn: en}] whose value expressions are
    dictionary displays again or any other expression. *)
Inductive display : Type :=
| Expr (m : M report)
| Display (items : list (string * display)).

Section DisplayItems.

Variable eval : display -> M report.

(** The value expressions are evaluated from left to right and the first
    exception ends the display. *)
Fixpoint display_items (items : list (string * display))
  : M (list (string * report)) :=
  match items with
  | [] => mret []
  | (k, e) :: rest =>
      r ← eval e;
      l ← display_items rest;
      mret ((k, r) :: l)
  end.

End DisplayItems.

Fixpoint dict_display (d : display) : M report :=
  match d with
  | Expr m => m
  | Display items => l ← display_items dict_display items; mret (Node l)
  end.

(** The expressions of a display, in evaluation order. *)
Fixpoint display_exprs (d : display) : list (M report) :=
  match d with
  | Expr m => [m]
  | Display items => flat_map (fun kd => display_exprs kd.2) items
  end.

(** The expression of a display under a path of keys. *)
Fixpoint display_at (path : list string) (d : display) : option display :=
  match path with
  | [] => Some d
  | k :: rest =>
      match d with
      | Display items =>
          kd ← list_find (fun kd => bool_decide (kd.1 = k)) items;
          display_at rest kd.2.2
      | Expr _ => None
      end
  end.

(** A report entry holding the value of an expression as it is. *)
Definition entry (m : M value) : display := Expr (v ← m; mret (Leaf v)).

(** A report entry holding a string. *)
Definition text (m : M string) : display :=
  Expr (s ← m; mret (Leaf (VStr s))).

(** A formatter applied to the value of an expression. *)
Definition call (f : value -> res string) (m : M value) : M string :=
  v ← m; lift (f v).

(** ** The application: [src/app.py] *)

Section App.

(** Python's [repr] of a float (shortest digits that read back as the same
    float) and of a list or dictionary (its items' [repr], quoted strings
    included).  It belongs to the interpreter, not to this repository, and
    no property below depends on what it prints. *)
Variable py_repr : value -> string.

(** [str(v)], which is also what an f-string field without a format
    specification inserts. *)
Definition py_str (v : value) : string :=
  match v with
  | VNone => "None"
  | VBool true => "True"
  | VBool false => "False"
  | VInt n => pretty n
  | VStr s => s
  | VFloat _ | VList _ | VDict _ => py_repr v
  end.

(** [format_currency], lines 7-10. *)
Definition format_currency (amount : value) : res string :=
  match amount with
  | VNone => Ok "N/A"
  | _ =>
      if Py.eq_int amount 0 then Ok "N/A"
      else s ← Py.format_f true 2 amount; Ok ("$" +:+ s)
  end.

(** [format_percentage], lines 12-15. *)
Definition format_percentage (decimal : value) : res string :=
  match decimal with
  | VNone => Ok "N/A"
  | _ =>
      p ← Py.mul_int decimal 100;
      s ← Py.format_f false 1 p;
      Ok (s +:+ "%")
  end.

(** The dictionary display [get_school_metrics] returns, lines 40-123. *)
Definition metrics_display (latest school : value) : display :=
  Display [
    ("Institution Overview", Display [
      ("Name", entry (py_get school "name" VNone));
      ("Location", text (
         city ← py_get school "city" (VStr "N/A");
         state ← py_get school "state" (VStr "N/A");
         mret (py_str city +:+ ", " +:+ py_str state)));
      ("Address", entry (py_get school "address" (VStr "N/A")));
      ("Website", text (
         url ← py_get school "school_url" VNone;
         if Py.truthy url
         then url' ← py_get school "school_url" VNone;
              mret ("https://" +:+ py_str url')
         else mret "N/A"));
      ("Type", text (
         ownership ← py_get school "ownership" VNone;
         mret (if Py.eq_int ownership 1 then "Public" else "Private")));
      ("Carnegie Classification", entry (py_get school "carnegie_basic" VNone));
      ("Accreditor", entry (py_get school "accreditor" VNone));
      ("Religious Affiliation",
         entry (py_get school "religious_affiliation" (VStr "None")))
    ]);
    ("Enrollment & Faculty", Display [
      ("Student Body", Display [
        ("Undergraduate Enrollment", entry (
           get_path latest ["student"; "enrollment"] "undergrad_12_month" (VStr "N/A")));
        ("Graduate Enrollment", entry (
           get_path latest ["student"; "enrollment"] "grad_12_month" (VStr "N/A")));
        ("Part-time Share", text (call format_percentage (
           get_path latest ["student"] "part_time_share" VNone)))
      ]);
      ("Faculty", Display [
        ("Student-Faculty Ratio", text (
           ratio ← get_path latest ["student"; "demographics"] "student_faculty_ratio" VNone;
           mret (py_str ratio +:+ ":1")));
        ("Full-time Faculty Rate", text (call format_percentage (
           py_get school "ft_faculty_rate" VNone)));
        ("Faculty Salary", text (call format_currency (
           py_get school "faculty_salary" VNone)))
      ])
    ]);
    ("Demographics", Display [
      ("Gender", Display [
        ("Men", text (call format_percentage (
           get_path latest ["student"; "demographics"] "men" VNone)));
        ("Women", text (call format_percentage (
           get_path latest ["student"; "demographics"] "women" VNone)))
      ]);
      ("Student Background", Display [
        ("First Generation", text (call format_percentage (
           get_path latest ["student"] "share_firstgeneration" VNone)));
        ("Age 25 or Older", text (call format_percentage (
           get_path latest ["student"] "share_25_older" VNone)));
        ("Average Age at Entry", entry (
           get_path latest ["student"; "demographics"] "age_entry" VNone));
        ("Median Family Income", text (call format_currency (
           get_path latest ["student"; "demographics"] "median_family_income" VNone)))
      ])
    ]);
    ("Cost & Financial Aid", Display [
      ("Direct Costs", Display [
        ("In-State Tuition", text (call format_currency (
           get_path latest ["cost"; "tuition"] "in_state" VNone)));
        ("Out-of-State Tuition", text (call format_currency (
           get_path latest ["cost"; "tuition"] "out_of_state" VNone)));
        ("Room and Board", text (call format_currency (
           get_path latest ["cost"; "roomboard"] "oncampus" VNone)));
        ("Books and Supplies", text (call format_currency (
           get_path latest ["cost"] "booksupply" VNone)))
      ]);
      ("Net Price", Display [
        ("Average", text (call format_currency (
           get_path latest ["cost"; "avg_net_price"] "overall" VNone)));
        ("Low Income (0-30k)", text (call format_currency (
           get_path latest ["cost"; "net_price"; "public"; "by_income_level"]
             "0-30000" VNone)));
        ("High Income (75k+)", text (call format_currency (
           get_path latest ["cost"; "net_price"; "public"; "by_income_level"]
             "75000-plus" VNone)))
      ]);
      ("Aid & Debt", Display [
        ("Pell Grant Recipients", text (call format_percentage (
           get_path latest ["student"] "students_with_pell_grant" VNone)));
        ("Federal Loan Recipients", text (call format_percentage (
           get_path latest ["aid"] "federal_loan_rate" VNone)));
        ("Median Debt", text (call format_currency (
           get_path latest ["aid"; "median_debt"; "completers"] "overall" VNone)))
      ])
    ]);
    ("Student Success", Display [
      ("Retention", Display [
        ("First-year Full-time", text (call format_percentage (
           get_path latest ["student"; "retention_rate"; "overall"] "full_time" VNone)));
        ("First-year Part-time", text (call format_percentage (
           get_path latest ["student"; "retention_rate"; "overall"] "part_time" VNone)))
      ]);
      ("Graduation", Display [
        ("4-year rate", text (call format_percentage (
           get_path latest ["completion"] "completion_rate_4yr_150nt" VNone)));
        ("6-year rate", text (call format_percentage (
           get_path latest ["completion"] "completion_rate_4yr_150nt" VNone)));
        ("Transfer-out rate", text (call format_percentage (
           get_path latest ["completion"; "transfer_rate"; "4yr"] "full_time" VNone)))
      ])
    ]);
    ("Career Outcomes", Display [
      ("Median Earnings", Display [
        ("6 years after entry", text (call format_currency (
           get_path latest ["earnings"; "6_yrs_after_entry"] "median" VNone)));
        ("8 years after entry", text (call format_currency (
           get_path latest ["earnings"; "8_yrs_after_entry"] "median_earnings" VNone)));
        ("10 years after entry", text (call format_currency (
           get_path latest ["earnings"; "10_yrs_after_entry"] "median" VNone)))
      ]);
      ("Employment", Display [
        ("Earning over $25k/year", text (call format_percentage (
           get_path latest ["earnings"; "6_yrs_after_entry"]
             "percent_greater_than_25000" VNone)))
      ]);
      ("Loan Repayment", Display [
        ("1-year rate", text (call format_percentage (
           get_path latest ["repayment"; "1_yr"; "rate_suppressed"] "overall" VNone)));
        ("3-year rate", text (call format_percentage (
           get_path latest ["repayment"; "3_yr"; "rate_suppressed"] "overall" VNone)))
      ])
    ])
  ].

(** [get_school_metrics], lines 36-123. *)
Definition get_school_metrics : M report :=
  school_data ← load;
  latest ← py_get school_data "latest" (VDict ∅);
  school ← py_get school_data "school" (VDict ∅);
  dict_display (metrics_display latest school).

(** The total enrollment [main] derives from the report, lines 172-174:
    [int(enroll['Undergraduate Enrollment']) + int(enroll['Graduate Enrollment'])]
    with [enroll = metrics["Enrollment & Faculty"]["Student Body"]]. *)
Definition total_enrollment (metrics : report) : res Z :=
  section ← Py.getitem metrics "Enrollment & Faculty";
  enroll ← Py.getitem section "Student Body";
  u ← Py.getitem enroll "Undergraduate Enrollment";
  undergraduate ← Py.int_of_entry u;
  g ← Py.getitem enroll "Graduate Enrollment";
  graduate ← Py.int_of_entry g;
  Ok (undergraduate + graduate).

(** The text [main] shows for it: the total with thousands separators. *)
Definition total_enrollment_text (metrics : report) : res string :=
  total ← total_enrollment metrics; Ok (Text.int_commas total).

End App.


(** ** Reading records and reports *)

(** The outcome of a computation started on the record [σ]. *)
Definition run {A : Type} (m : M A) (σ : value) : res A := (m σ).1.

(** The value a record holds at a path of keys, if every key on the way is
    present in a dictionary. *)
Fixpoint value_at (path : list string) (obj : value) : option value :=
  match path with
  | [] => Some obj
  | k :: rest =>
      match obj with
      | VDict d => o ← d !! k; value_at rest o
      | _ => None
      end
  end.

(** [obj] is a dictionary, and so is what it holds under [keys], as far as
    the keys are present. *)
Fixpoint mappings_along (keys : list string) (obj : value) : bool :=
  match obj with
  | VDict d =>
      match keys with
      | [] => true
      | k :: rest =>
          match d !! k with
          | Some o => mappings_along rest o
          | None => true
          end
      end
  | _ => false
  end.

(** The entry of a report under a path of section and field names. *)
Fixpoint report_at (path : list string) (r : report) : option report :=
  match path with
  | [] => Some r
  | k :: rest =>
      match r with
      | Node items =>
          kv ← list_find (fun kv => bool_decide (kv.1 = k)) items;
          report_at rest kv.2.2
      | Leaf _ => None
      end
  end.

(** The leaves of a report, each with the path that leads to it, in order. *)
Fixpoint leaves (r : report) : list (list string * value) :=
  match r with
  | Leaf v => [([], v)]
  | Node items =>
      flat_map (fun kv => map (fun pv => (kv.1 :: pv.1, pv.2)) (leaves kv.2))
        items
  end.

Definition is_sentinel (v : value) : bool :=
  match v with
  | VStr s => String.eqb s "N/A"
  | _ => false
  end.

(** The lookups [get_school_metrics] performs, in source order: the keys of
    the [.get(k, {})] chain from the record itself, the last key and its
    default. *)
Definition lookup_table : list (list string * string * value) :=
  let root k := ([], k, VDict ∅) in
  let school k dflt := (["school"], k, dflt) in
  let latest keys k dflt := ("latest" :: keys, k, dflt) in
  [ root "latest"; root "school";
    school "name" VNone;
    school "city" (VStr "N/A"); school "state" (VStr "N/A");
    school "address" (VStr "N/A");
    school "school_url" VNone; school "school_url" VNone;
    school "ownership" VNone;
    school "carnegie_basic" VNone;
    school "accreditor" VNone;
    school "religious_affiliation" (VStr "None");
    latest ["student"; "enrollment"] "undergrad_12_month" (VStr "N/A");
    latest ["student"; "enrollment"] "grad_12_month" (VStr "N/A");
    latest ["student"] "part_time_share" VNone;
    latest ["student"; "demographics"] "student_faculty_ratio" VNone;
    school "ft_faculty_rate" VNone;
    school "faculty_salary" VNone;
    latest ["student"; "demographics"] "men" VNone;
    latest ["student"; "demographics"] "women" VNone;
    latest ["student"] "share_firstgeneration" VNone;
    latest ["student"] "share_25_older" VNone;
    latest ["student"; "demographics"] "age_entry" VNone;
    latest ["student"; "demographics"] "median_family_income" VNone;
    latest ["cost"; "tuition"] "in_state" VNone;
    latest ["cost"; "tuition"] "out_of_state" VNone;
    latest ["cost"; "roomboard"] "oncampus" VNone;
    latest ["cost"] "booksupply" VNone;
    latest ["cost"; "avg_net_price"] "overall" VNone;
    latest ["cost"; "net_price"; "public"; "by_income_level"] "0-30000" VNone;
    latest ["cost"; "net_price"; "public"; "by_income_level"] "75000-plus" VNone;
    latest ["student"] "students_with_pell_grant" VNone;
    latest ["aid"] "federal_loan_rate" VNone;
    latest ["aid"; "median_debt"; "completers"] "overall" VNone;
    latest ["student"; "retention_rate"; "overall"] "full_time" VNone;
    latest ["student"; "retention_rate"; "overall"] "part_time" VNone;
    latest ["completion"] "completion_rate_4yr_150nt" VNone;
    latest ["completion"] "completion_rate_4yr_150nt" VNone;
    latest ["completion"; "transfer_rate"; "4yr"] "full_time" VNone;
    latest ["earnings"; "6_yrs_after_entry"] "median" VNone;
    latest ["earnings"; "8_yrs_after_entry"] "median_earnings" VNone;
    latest ["earnings"; "10_yrs_after_entry"] "median" VNone;
    latest ["earnings"; "6_yrs_after_entry"] "percent_greater_than_25000" VNone;
    latest ["repayment"; "1_yr"; "rate_suppressed"] "overall" VNone;
    latest ["repayment"; "3_yr"; "rate_suppressed"] "overall" VNone ].

(** Every dictionary a lookup of the table calls [.get] on is indeed a
    dictionary: the record, and what it holds along each chain as far as the
    keys are present. *)
Definition well_shaped (record : value) : bool :=
  forallb (fun p => mappings_along p.1.1 record) lookup_table.

(** [n] is an integer nearest to [k * m * 2^e]. *)
Definition nearest_to (n k : Z) (m : positive) (e : Z) : Prop :=
  if 0 <=? e then n = k * (Z.pos m * 2 ^ e)
  else Z.abs (2 * (k * Z.pos m) - 2 * n * 2 ^ (- e)) <= 2 ^ (- e).

(** [x] is the binary64 number nearest to the positive fraction
    [num / den] below [2^53]: a normalised mantissa, at most half a unit in
    the last place away. *)
Definition is_nearest_double (x : spec_float) (num den : Z) : bool :=
  match x with
  | S754_finite false m e =>
      (2 ^ 52 <=? Z.pos m) && (Z.pos m <? 2 ^ 53) && (e <? 0)
      && (2 * Z.abs (den * Z.pos m - num * 2 ^ (- e)) <=? den)
  | _ => false
  end.

(** ** Sample records *)

Definition dict (items : list (string * value)) : value :=
  VDict (list_to_map items).

(** The empty record [{}]. *)
Definition empty_record : value := dict [].

(** A record whose ["latest"] entry is JSON [null]. *)
Definition null_latest_record : value := dict [("latest", VNone)].

(** A record with every field the aggregator reads. *)
Definition sample_record : value :=
  let pct n := VFloat (Float.of_ratio n 1000) in
  dict [
    ("school", dict [
      ("name", VStr "Example State University");
      ("city", VStr "Springfield"); ("state", VStr "IL");
      ("address", VStr "1 University Plaza");
      ("school_url", VStr "www.example.edu");
      ("ownership", VInt 1);
      ("carnegie_basic", VInt 15);
      ("accreditor", VStr "Higher Learning Commission");
      ("religious_affiliation", VNone);
      ("ft_faculty_rate", pct 812);
      ("faculty_salary", VInt 9876) ]);
    ("latest", dict [
      ("student", dict [
        ("enrollment", dict [
          ("undergrad_12_month", VInt 21000);
          ("grad_12_month", VInt 14000) ]);
        ("part_time_share", pct 153);
        ("demographics", dict [
          ("student_faculty_ratio", VInt 17);
          ("men", pct 480); ("women", pct 520);
          ("age_entry", VInt 20);
          ("median_family_income", VFloat (Float.of_ratio 123456 10)) ]);
        ("share_firstgeneration", pct 250);
        ("share_25_older", pct 75);
        ("students_with_pell_grant", pct 301);
        ("retention_rate", dict [
          ("overall", dict [
            ("full_time", pct 901); ("part_time", pct 655) ]) ]) ]);
      ("cost", dict [
        ("tuition", dict [
          ("in_state", VInt 11500); ("out_of_state", VInt 32750) ]);
        ("roomboard", dict [("oncampus", VInt 12400)]);
        ("booksupply", VInt 1200);
        ("avg_net_price", dict [("overall", VInt 15820)]);
        ("net_price", dict [
          ("public", dict [
            ("by_income_level", dict [
              ("0-30000", VInt 7350); ("75000-plus", VInt 22140) ]) ]) ]) ]);
      ("aid", dict [
        ("federal_loan_rate", pct 412);
        ("median_debt", dict [
          ("completers", dict [("overall", VInt 19500)]) ]) ]);
      ("completion", dict [
        ("completion_rate_4yr_150nt", pct 846);
        ("transfer_rate", dict [
          ("4yr", dict [("full_time", pct 120)]) ]) ]);
      ("earnings", dict [
        ("6_yrs_after_entry", dict [
          ("median", VInt 48200);
          ("percent_greater_than_25000", pct 790) ]);
        ("8_yrs_after_entry", dict [("median_earnings", VInt 55100)]);
        ("10_yrs_after_entry", dict [("median", VInt 61300)]) ]);
      ("repayment", dict [
        ("1_yr", dict [
          ("rate_suppressed", dict [("overall", pct 610)]) ]);
        ("3_yr", dict [
          ("rate_suppressed", dict [("overall", pct 745)]) ]) ]) ])
  ].

(** The sample holds strings and integers wherever [str()] is applied, so
    the interpreter's [repr] is never consulted on it. *)
Definition unused_repr (v : value) : string := "".

Definition sample_report : report :=
  Eval vm_compute in
    match run (get_school_metrics unused_repr) sample_record with
    | Ok r => r
    | Raise _ => Node []
    end.

(** What the source computes on [{}], written out: the leaves that are not
    ["N/A"] come from lookups without a default (the absent marker [None]),
    from the pieces of text put around a lookup, from the ["None"] default
    and from the [else] branch of the institution type. *)
Definition empty_report : report :=
  let na := Leaf (VStr "N/A") in
  Node [
    ("Institution Overview", Node [
      ("Name", Leaf VNone);
      ("Location", Leaf (VStr "N/A, N/A"));
      ("Address", na);
      ("Website", na);
      ("Type", Leaf (VStr "Private"));
      ("Carnegie Classification", Leaf VNone);
      ("Accreditor", Leaf VNone);
      ("Religious Affiliation", Leaf (VStr "None")) ]);
    ("Enrollment & Faculty", Node [
      ("Student Body", Node [
        ("Undergraduate Enrollment", na);
        ("Graduate Enrollment", na);
        ("Part-time Share", na) ]);
      ("Faculty", Node [
        ("Student-Faculty Ratio", Leaf (VStr "None:1"));
        ("Full-time Faculty Rate", na);
        ("Faculty Salary", na) ]) ]);
    ("Demographics", Node [
      ("Gender", Node [("Men", na); ("Women", na)]);
      ("Student Background", Node [
        ("First Generation", na);
        ("Age 25 or Older", na);
        ("Average Age at Entry", Leaf VNone);
        ("Median Family Income", na) ]) ]);
    ("Cost & Financial Aid", Node [
      ("Direct Costs", Node [
        ("In-State Tuition", na);
        ("Out-of-State Tuition", na);
        ("Room and Board", na);
        ("Books and Supplies", na) ]);
      ("Net Price", Node [
        ("Average", na);
        ("Low Income (0-30k)", na);
        ("High Income (75k+)", na) ]);
      ("Aid & Debt", Node [
        ("Pell Grant Recipients", na);
        ("Federal Loan Recipients", na);
        ("Median Debt", na) ]) ]);
    ("Student Success", Node [
      ("Retention", Node [
        ("First-year Full-time", na);
        ("First-year Part-time", na) ]);
      ("Graduation", Node [
        ("4-year rate", na);
        ("6-year rate", na);
        ("Transfer-out rate", na) ]) ]);
    ("Career Outcomes", Node [
      ("Median Earnings", Node [
        ("6 years after entry", na);
        ("8 years after entry", na);
        ("10 years after entry", na) ]);
      ("Employment", Node [("Earning over $25k/year", na)]);
      ("Loan Repayment", Node [("1-year rate", na); ("3-year rate", na)]) ])
  ].

(** The six section names, in the order of the source. *)
Definition section_names : list string :=
  [ "Institution Overview"; "Enrollment & Faculty"; "Demographics";
    "Cost & Financial Aid"; "Student Success"; "Career Outcomes" ].

(** A computation that leaves the caller's record as it found it. *)
Definition readonly {A : Type} (m : M A) : Prop := ∀ σ, (m σ).2 = σ.

(** ** The aggregator as a table *)

(** Where a field of the report comes from: the keys of the [.get(k, {})]
    chain from the record, the last key, and what is done with the value. *)
Inductive source : Type :=
| Raw (keys : list string) (last : string) (dflt : value)
| Percentage (keys : list string) (last : string)
| Currency (keys : list string) (last : string)
| Ratio (keys : list string) (last : string)
| InstitutionType (keys : list string) (last : string)
| Location (keys : list string) (city state : string)
| Website (keys : list string) (last : string).

(** The sections, groups and fields of a report. *)
Inductive layout : Type :=
| Field (src : source)
| Group (items : list (string * layout)).

(** A lookup from the record itself: the value at the path or the default,
    and [AttributeError] when a value on the way is not a dictionary. *)
Definition lookup_or (r : value) (keys : list string) (last : string)
    (dflt : value) : res value :=
  if mappings_along keys r
  then Ok (default dflt (value_at (keys ++ [last]) r))
  else Raise AttributeError.

Section Table.

Variable py_repr : value -> string.

Definition field_value (src : source) (r : value) : res value :=
  match src with
  | Raw keys last dflt => lookup_or r keys last dflt
  | Percentage keys last =>
      v ← lookup_or r keys last VNone;
      s ← format_percentage v;
      Ok (VStr s)
  | Currency keys last =>
      v ← lookup_or r keys last VNone;
      s ← format_currency v;
      Ok (VStr s)
  | Ratio keys last =>
      v ← lookup_or r keys last VNone;
      Ok (VStr (py_str py_repr v +:+ ":1"))
  | InstitutionType keys last =>
      v ← lookup_or r keys last VNone;
      Ok (VStr (if Py.eq_int v 1 then "Public" else "Private"))
  | Location keys city state =>
      c ← lookup_or r keys city (VStr "N/A");
      s ← lookup_or r keys state (VStr "N/A");
      Ok (VStr (py_str py_repr c +:+ ", " +:+ py_str py_repr s))
  | Website keys last =>
      u ← lookup_or r keys last VNone;
      Ok (VStr (if Py.truthy u then "https://" +:+ py_str py_repr u else "N/A"))
  end.

Section LayoutItems.

Variable build : layout -> res report.

Fixpoint layout_items (items : list (string * layout))
  : res (list (string * report)) :=
  match items with
  | [] => Ok []
  | (k, l) :: rest =>
      x ← build l;
      xs ← layout_items rest;
      Ok ((k, x) :: xs)
  end.

End LayoutItems.

(** The report a layout describes for a record: the fields in order, the
    first exception ending the construction. *)
Fixpoint layout_report (r : value) (l : layout) : res report :=
  match l with
  | Field src => v ← field_value src r; Ok (Leaf v)
  | Group items => xs ← layout_items (layout_report r) items; Ok (Node xs)
  end.

End Table.

(** The fields of a layout with the paths that lead to them, in order. *)
Fixpoint layout_fields (l : layout) : list (list string * source) :=
  match l with
  | Field src => [([], src)]
  | Group items =>
      flat_map (fun kl => map (fun ps => (kl.1 :: ps.1, ps.2)) (layout_fields kl.2))
        items
  end.

(** The table of the 41 fields of the metrics report. *)
Definition metrics_layout : layout :=
  let school := ["school"] in
  let latest keys := "latest" :: keys in
  Group [
    ("Institution Overview", Group [
      ("Name", Field (Raw school "name" VNone));
      ("Location", Field (Location school "city" "state"));
      ("Address", Field (Raw school "address" (VStr "N/A")));
      ("Website", Field (Website school "school_url"));
      ("Type", Field (InstitutionType school "ownership"));
      ("Carnegie Classification", Field (Raw school "carnegie_basic" VNone));
      ("Accreditor", Field (Raw school "accreditor" VNone));
      ("Religious Affiliation",
         Field (Raw school "religious_affiliation" (VStr "None"))) ]);
    ("Enrollment & Faculty", Group [
      ("Student Body", Group [
        ("Undergraduate Enrollment",
           Field (Raw (latest ["student"; "enrollment"]) "undergrad_12_month"
                    (VStr "N/A")));
        ("Graduate Enrollment",
           Field (Raw (latest ["student"; "enrollment"]) "grad_12_month"
                    (VStr "N/A")));
        ("Part-time Share",
           Field (Percentage (latest ["student"]) "part_time_share")) ]);
      ("Faculty", Group [
        ("Student-Faculty Ratio",
           Field (Ratio (latest ["student"; "demographics"])
                    "student_faculty_ratio"));
        ("Full-time Faculty Rate", Field (Percentage school "ft_faculty_rate"));
        ("Faculty Salary", Field (Currency school "faculty_salary")) ]) ]);
    ("Demographics", Group [
      ("Gender", Group [
        ("Men", Field (Percentage (latest ["student"; "demographics"]) "men"));
        ("Women",
           Field (Percentage (latest ["student"; "demographics"]) "women")) ]);
      ("Student Background", Group [
        ("First Generation",
           Field (Percentage (latest ["student"]) "share_firstgeneration"));
        ("Age 25 or Older",
           Field (Percentage (latest ["student"]) "share_25_older"));
        ("Average Age at Entry",
           Field (Raw (latest ["student"; "demographics"]) "age_entry" VNone));
        ("Median Family Income",
           Field (Currency (latest ["student"; "demographics"])
                    "median_family_income")) ]) ]);
    ("Cost & Financial Aid", Group [
      ("Direct Costs", Group [
        ("In-State Tuition",
           Field (Currency (latest ["cost"; "tuition"]) "in_state"));
        ("Out-of-State Tuition",
           Field (Currency (latest ["cost"; "tuition"]) "out_of_state"));
        ("Room and Board",
           Field (Currency (latest ["cost"; "roomboard"]) "oncampus"));
        ("Books and Supplies", Field (Currency (latest ["cost"]) "booksupply")) ]);
      ("Net Price", Group [
        ("Average",
           Field (Currency (latest ["cost"; "avg_net_price"]) "overall"));
        ("Low Income (0-30k)",
           Field (Currency
                    (latest ["cost"; "net_price"; "public"; "by_income_level"])
                    "0-30000"));
        ("High Income (75k+)",
           Field (Currency
                    (latest ["cost"; "net_price"; "public"; "by_income_level"])
                    "75000-plus")) ]);
      ("Aid & Debt", Group [
        ("Pell Grant Recipients",
           Field (Percentage (latest ["student"]) "students_with_pell_grant"));
        ("Federal Loan Recipients",
           Field (Percentage (latest ["aid"]) "federal_loan_rate"));
        ("Median Debt",
           Field (Currency (latest ["aid"; "median_debt"; "completers"])
                    "overall")) ]) ]);
    ("Student Success", Group [
      ("Retention", Group [
        ("First-year Full-time",
           Field (Percentage (latest ["student"; "retention_rate"; "overall"])
                    "full_time"));
        ("First-year Part-time",
           Field (Percentage (latest ["student"; "retention_rate"; "overall"])
                    "part_time")) ]);
      ("Graduation", Group [
        ("4-year rate",
           Field (Percentage (latest ["completion"]) "completion_rate_4yr_150nt"));
        ("6-year rate",
           Field (Percentage (latest ["completion"]) "completion_rate_4yr_150nt"));
        ("Transfer-out rate",
           Field (Percentage (latest ["completion"; "transfer_rate"; "4yr"])
                    "full_time")) ]) ]);
    ("Career Outcomes", Group [
      ("Median Earnings", Group [
        ("6 years after entry",
           Field (Currency (latest ["earnings"; "6_yrs_after_entry"]) "median"));
        ("8 years after entry",
           Field (Currency (latest ["earnings"; "8_yrs_after_entry"])
                    "median_earnings"));
        ("10 years after entry",
           Field (Currency (latest ["earnings"; "10_yrs_after_entry"]) "median")) ]);
      ("Employment", Group [
        ("Earning over $25k/year",
           Field (Percentage (latest ["earnings"; "6_yrs_after_entry"])
                    "percent_greater_than_25000")) ]);
      ("Loan Repayment", Group [
        ("1-year rate",
           Field (Percentage (latest ["repayment"; "1_yr"; "rate_suppressed"])
                    "overall"));
        ("3-year rate",
           Field (Percentage (latest ["repayment"; "3_yr"; "rate_suppressed"])
                    "overall")) ]) ])
  ].

(** The table read on a record: the record has to be a dictionary for the
    first two lookups of the source, then the fields follow in order. *)
Definition table_report (py_repr : value -> string) (r : value) : res report :=
  match r with
  | VDict _ => layout_report py_repr r metrics_layout
  | _ => Raise AttributeError
  end.

(** A display and a layout with the same keys in the same order, each
    expression of the display computing the field the layout names. *)
Fixpoint matches (py_repr : value -> string) (r : value) (d : display)
    (l : layout) : Prop :=
  match d, l with
  | Expr m, Field src =>
      readonly m ∧ run m r = (v ← field_value py_repr src r; Ok (Leaf v))
  | Display items, Group fields =>
      (fix each (items : list (string * display))
           (fields : list (string * layout)) : Prop :=
         match items, fields with
         | [], [] => True
         | (k, d') :: items', (k', l') :: fields' =>
             k = k' ∧ matches py_repr r d' l' ∧ each items' fields'
         | _, _ => False
         end) items fields
  | _, _ => False
  end.

(** ** Reading a layout *)

(** A field of the table has a value on the record. *)
Definition field_ok (py_repr : value -> string) (r : value)
    (ps : list string * source) : Prop :=
  ∃ v, field_value py_repr ps.2 r = Ok v.

(** A leaf of a report is a field of the table: the same path, and the
    value the table gives for the record. *)
Definition holds_field (py_repr : value -> string) (r : value)
    (ps : list string * source) (pv : list string * value) : Prop :=
  ps.1 = pv.1 ∧ field_value py_repr ps.2 r = Ok pv.2.

(** The outcome of a layout: leaves that are the fields of the layout, in
    order and with their values, or the exception of the first field that
    raises. *)
Definition outcome_of (py_repr : value -> string) (r : value)
    (fields : list (list string * source))
    (out : res (list (list string * value))) : Prop :=
  match out with
  | Ok lvs => Forall2 (holds_field py_repr r) fields lvs
  | Raise e =>
      ∃ before ps after,
        fields = before ++ ps :: after
        ∧ Forall (field_ok py_repr r) before
        ∧ field_value py_repr ps.2 r = Raise e
  end.

(** The lookups a field performs. *)
Definition source_lookups (src : source) : list (list string * string * value) :=
  match src with
  | Raw keys last dflt => [(keys, last, dflt)]
  | Percentage keys last | Currency keys last | Ratio keys last
  | InstitutionType keys last | Website keys last => [(keys, last, VNone)]
  | Location keys city state =>
      [(keys, city, VStr "N/A"); (keys, state, VStr "N/A")]
  end.

(** Two records on which every lookup of the table has the same outcome. *)
Definition same_lookups (r1 r2 : value) : Prop :=
  Forall (λ ps,
    Forall (λ lk, lookup_or r1 lk.1.1 lk.1.2 lk.2 = lookup_or r2 lk.1.1 lk.1.2 lk.2)
      (source_lookups ps.2))
    (layout_fields metrics_layout).

(** ** The demographic chart: [create_demographic_chart] *)

(** [x > n] for a float and an integer, compared exactly; a nan is greater
    than nothing. *)
Definition float_gt_Z (x : spec_float) (n : Z) : bool :=
  match x with
  | S754_zero _ => 0 >? n
  | S754_infinity s => negb s
  | S754_nan => false
  | S754_finite s m e =>
      let sm := if s then Z.neg m else Z.pos m in
      if 0 <=? e then sm * 2 ^ e >? n else sm >? n * 2 ^ (- e)
  end.

(** [v > n] for an integer literal [n]: only numbers are ordered with an
    integer. *)
Definition py_gt_int (v : value) (n : Z) : res bool :=
  match v with
  | VBool b => Ok (Py.b2z b >? n)
  | VInt m => Ok (m >? n)
  | VFloat x => Ok (float_gt_Z x n)
  | VNone | VStr _ | VList _ | VDict _ => Raise TypeError
  end.

(** The figure [px.pie(values=..., names=..., title=...)] describes. *)
Record pie_chart : Type := {
  pie_values : list value;
  pie_names : list string;
  pie_title : string
}.

(** The loop of lines 22-25 over [demographics.items()], with the two lists
    it appends to. *)
Fixpoint demographic_series (items : list (string * value))
    (labels : list string) (values : list value)
  : res (list string * list value) :=
  match items with
  | [] => Ok (labels, values)
  | (category, value) :: rest =>
      keep ← match value with
             | VNone => Ok false
             | _ => py_gt_int value 0
             end;
      if keep : bool
      then percent ← Py.mul_int value 100;
           demographic_series rest (labels ++ [category]) (values ++ [percent])
      else demographic_series rest labels values
  end.

(** [create_demographic_chart], lines 17-34, on the items of the dictionary
    it is given, in insertion order. *)
Definition create_demographic_chart (demographics : list (string * value))
  : res (option pie_chart) :=
  series ← demographic_series demographics [] [];
  match series.2 with
  | [] => Ok None
  | _ => Ok (Some {| pie_values := series.2;
                     pie_names := series.1;
                     pie_title := "Student Demographics" |})
  end.

(** The slice of the chart a value gives: a hundred times the value when it
    is a number above 0. *)
Definition slice_of (v : value) : option value :=
  match v with
  | VBool b => if Py.b2z b >? 0 then Some (VInt (Py.b2z b * 100)) else None
  | VInt n => if n >? 0 then Some (VInt (n * 100)) else None
  | VFloat x =>
      if float_gt_Z x 0 then Some (VFloat (Float.mul x (Float.of_Z 100)))
      else None
  | _ => None
  end.

Definition slices (items : list (string * value)) : list (string * value) :=
  omap (λ kv, pair kv.1 <$> slice_of kv.2) items.

(** [None] or a number. *)
Definition number_or_none (v : value) : bool :=
  match v with
  | VNone | VBool _ | VInt _ | VFloat _ => true
  | VStr _ | VList _ | VDict _ => false
  end.

(** ** More of Python: subscripts, text methods, [float()] *)

(** [v[key]] for a string [key]: a dictionary without the key raises
    [KeyError]; nothing else is indexed by a string. *)
Definition py_subscript (v : value) (key : string) : res value :=
  match v with
  | VDict d =>
      match d !! key with
      | Some x => Ok x
      | None => Raise KeyError
      end
  | _ => Raise TypeError
  end.

Module Str.

Fixpoint drop_char (c : ascii) (l : list ascii) : list ascii :=
  match l with
  | a :: rest => if Ascii.eqb a c then drop_char c rest else l
  | [] => []
  end.

(** [s.rstrip(c)] for a single character [c]. *)
Definition rstrip (c : ascii) (s : string) : string :=
  string_of_list_ascii (rev (drop_char c (rev (list_ascii_of_string s)))).

(** [s.replace(c, '')] for a single character [c]. *)
Definition remove (c : ascii) (s : string) : string :=
  string_of_list_ascii
    (List.filter (fun a => negb (Ascii.eqb a c)) (list_ascii_of_string s)).

Definition lower (a : ascii) : ascii :=
  let n := nat_of_ascii a in
  if ((65 <=? n)%nat && (n <=? 90)%nat)%bool then ascii_of_nat (n + 32) else a.

(** The digits at the front of a text, and what follows them. *)
Fixpoint span_digits (l : list ascii) : list ascii * list ascii :=
  match l with
  | a :: rest =>
      if Text.is_digit a
      then let (ds, tl) := span_digits rest in (a :: ds, tl)
      else ([], l)
  | [] => ([], [])
  end.

Fixpoint digits_value (l : list ascii) (acc : Z) : Z :=
  match l with
  | a :: rest => digits_value rest (10 * acc + (Z.of_nat (nat_of_ascii a) - 48))
  | [] => acc
  end.

(** Underscores are allowed between two digits only; they are dropped.
    [prev] is the character before [l]. *)
Fixpoint drop_underscores (prev : option ascii) (l : list ascii)
  : option (list ascii) :=
  match l with
  | [] =>
      match prev with
      | Some p => if Ascii.eqb p "_" then None else Some []
      | None => Some []
      end
  | a :: rest =>
      if Ascii.eqb a "_"
      then match prev with
           | Some p =>
               if Text.is_digit p then drop_underscores (Some a) rest else None
           | None => None
           end
      else match prev with
           | Some p =>
               if (Ascii.eqb p "_" && negb (Text.is_digit a))%bool then None
               else cons a <$> drop_underscores (Some a) rest
           | None => cons a <$> drop_underscores (Some a) rest
           end
  end.

(** An optional sign in front of a text. *)
Definition split_sign (l : list ascii) : bool * list ascii :=
  match l with
  | "+"%char :: rest => (false, rest)
  | "-"%char :: rest => (true, rest)
  | _ => (false, l)
  end.

(** The exponent of a decimal number: nothing, or [e] or [E], an optional
    sign and at least one digit, up to the end of the text. *)
Definition exponent (l : list ascii) : option Z :=
  match l with
  | [] => Some 0
  | a :: rest =>
      if Ascii.eqb (lower a) "e"
      then let (neg, rest) := split_sign rest in
           match span_digits rest with
           | (_ :: _ as ds, []) =>
               Some (if neg then - digits_value ds 0 else digits_value ds 0)
           | _ => None
           end
      else None
  end.

(** An unsigned decimal number [digits [. digits] [exponent]] with at least
    one digit before the exponent: its digits as an integer and the power
    of ten that scales them. *)
Definition decimal (l : list ascii) : option (Z * Z) :=
  let (ip, rest) := span_digits l in
  let (fp, rest) :=
    match rest with
    | "."%char :: rest' => span_digits rest'
    | _ => ([], rest)
    end in
  match ip ++ fp with
  | [] => None
  | ds => e ← exponent rest; Some (digits_value ds 0, e - Z.of_nat (length fp))
  end.

End Str.

(** ** The page: [main] *)

(** [SAMPLE_SCHOOLS], [src/data_loader.py] lines 7-32. *)
Definition SAMPLE_SCHOOLS : list string :=
  [ "Harvard University";
    "Yale University";
    "Princeton University";
    "Columbia University in the City of New York";
    "University of Pennsylvania";
    "Brown University";
    "Dartmouth College";
    "Cornell University";
    "University of California-Berkeley";
    "University of California-Los Angeles";
    "University of Michigan-Ann Arbor";
    "University of Virginia-Main Campus";
    "Georgia Institute of Technology-Main Campus";
    "University of North Carolina at Chapel Hill";
    "Williams College";
    "Amherst College";
    "Pomona College";
    "Swarthmore College";
    "Ohio State University-Main Campus";
    "Pennsylvania State University-Main Campus";
    "University of Texas at Austin";
    "University of Wisconsin-Madison";
    "University of Florida";
    "Arizona State University-Tempe" ].

(** The calls [main] makes on the page, in order.  The containers the calls
    are made in (sidebar, tabs, columns) are left out. *)
Module St.

Inductive figure : Type :=
| pie (names : list string) (values : list spec_float) (title : string)
| scatter (x : list Z) (y : list spec_float)
    (mode title xaxis_title yaxis_title : string).

Inductive call : Type :=
| set_page_config (page_title layout : string)
| title (body : report)
| selectbox (label : string) (options : list string)
| divider
| markdown (body : string)
| metric (label : string) (v : report)
| write (body : string)
| tabs (names : list string)
| columns (spec : Z)
| header (body : string)
| subheader (body : string)
| plotly_chart (fig : figure).

End St.

(** A computation of the page: it adds to the calls made so far and may
    raise, which ends the run with the calls made until then. *)
Definition UI (A : Type) : Type := list St.call -> res A * list St.call.

#[global] Instance UI_ret : MRet UI := fun A a log => (Ok a, log).

#[global] Instance UI_bind : MBind UI := fun A B k m log =>
  match m log with
  | (Ok a, log') => k a log'
  | (Raise e, log') => (Raise e, log')
  end.

Definition emit (c : St.call) : UI unit := fun log => (Ok tt, log ++ [c]).

(** A computation that makes no call. *)
Definition eval {A : Type} (x : res A) : UI A := fun log => (x, log).

(** The methods [main] calls on the entries of the report. *)
Definition entry_text (r : report) : res string :=
  match r with
  | Leaf (VStr s) => Ok s
  | _ => Raise AttributeError
  end.

(** [r.items()]; the reports of the aggregator are built from displays, so
    only those keep an order. *)
Definition entry_items (r : report) : res (list (string * report)) :=
  match r with
  | Node items => Ok items
  | Leaf (VDict d) => Ok (prod_map id Leaf <$> map_to_list d)
  | Leaf _ => Raise AttributeError
  end.

Section Page.

Variable py_repr : value -> string.

(** [format(x, ",")] for a float [x]: the interpreter's shortest digits with
    thousands separators. *)
Variable float_commas : spec_float -> string.

(** The interpreter's conversion of a decimal number to the nearest float:
    the sign, the digits as an integer, the power of ten. *)
Variable strtod : bool -> Z -> Z -> spec_float.

(** [str()] of a dictionary of the report. *)
Variable report_repr : report -> string.

(** [format(v, ",")]. *)
Definition format_commas (v : value) : res string :=
  match v with
  | VBool b => Ok (Text.int_commas (Py.b2z b))
  | VInt n => Ok (Text.int_commas n)
  | VFloat x => Ok (float_commas x)
  | VStr _ => Raise ValueError
  | VNone | VList _ | VDict _ => Raise TypeError
  end.

(** [float(s)] for a string [s] of ASCII characters. *)
Definition float_of_string (s : string) : res spec_float :=
  match Str.drop_underscores None (Text.strip (list_ascii_of_string s)) with
  | None => Raise ValueError
  | Some l =>
      let (neg, body) := Str.split_sign l in
      let name := string_of_list_ascii (map Str.lower body) in
      if (String.eqb name "inf" || String.eqb name "infinity")%bool
      then Ok (S754_infinity neg)
      else if String.eqb name "nan" then Ok S754_nan
      else match Str.decimal body with
           | Some (digits, exp) => Ok (strtod neg digits exp)
           | None => Raise ValueError
           end
  end.

(** [str(r)] for an entry of the report. *)
Definition entry_str (r : report) : string :=
  match r with
  | Leaf v => py_str py_repr v
  | Node _ => report_repr r
  end.

(** [float(r.rstrip('%'))]. *)
Definition percent_number (r : report) : res spec_float :=
  s ← entry_text r; float_of_string (Str.rstrip "%" s).

(** [float(r.replace('$','').replace(',',''))]. *)
Definition dollar_number (r : report) : res spec_float :=
  s ← entry_text r; float_of_string (Str.remove "," (Str.remove "$" s)).

(** The loop of lines 167-169. *)
Fixpoint write_profile (items : list (string * report)) : UI unit :=
  match items with
  | [] => mret tt
  | (key, value) :: rest =>
      (if String.eqb key "Name" then mret tt
       else emit (St.write ("**" +:+ key +:+ ":** " +:+ entry_str value)));;
      write_profile rest
  end.

(** The loop of lines 206-207. *)
Fixpoint metric_each (items : list (string * report)) : UI unit :=
  match items with
  | [] => mret tt
  | (category, amount) :: rest =>
      emit (St.metric category amount);; metric_each rest
  end.

(** [main], lines 125-248, once [fetch_school_data()] has returned
    [schools_data] and the select box has returned [selected_school]. *)
Definition main (schools_data : value) (selected_school : string) : UI unit :=
  emit (St.set_page_config "College Metrics Explorer" "wide");;
  emit (St.title (Leaf (VStr "College Explorer")));;
  emit (St.selectbox "Select a School" SAMPLE_SCHOOLS);;
  emit St.divider;;
  cached ← eval (py_subscript schools_data selected_school);
  school_data ← eval (py_subscript cached "raw_data");
  latest ← eval (run (py_get school_data "latest" (VDict ∅)) school_data);
  emit (St.markdown "### Quick Stats");;
  rate ← eval (run (get_path latest ["admissions"; "admission_rate"] "overall" VNone)
                 school_data);
  rate ← eval (format_percentage rate);
  emit (St.metric "Acceptance Rate" (Leaf (VStr rate)));;
  size ← eval (run (get_path latest ["student"] "size" VNone) school_data);
  size ← eval (format_commas size);
  emit (St.metric "Total Enrollment" (Leaf (VStr size)));;
  median ← eval (run (get_path latest ["earnings"; "10_yrs_after_entry"] "median" VNone)
                   school_data);
  median ← eval (format_currency median);
  emit (St.metric "Median Earnings (10yr)" (Leaf (VStr median)));;
  completion ← eval (run (get_path latest ["completion"] "completion_rate_4yr_150nt" VNone)
                       school_data);
  completion ← eval (format_percentage completion);
  emit (St.metric "Graduation Rate" (Leaf (VStr completion)));;
  metrics ← eval (run (get_school_metrics py_repr) school_data);
  overview ← eval (Py.getitem metrics "Institution Overview");
  name ← eval (Py.getitem overview "Name");
  emit (St.title name);;
  overview ← eval (Py.getitem metrics "Institution Overview");
  location ← eval (Py.getitem overview "Location");
  overview ← eval (Py.getitem metrics "Institution Overview");
  type ← eval (Py.getitem overview "Type");
  emit (St.write ("_" +:+ entry_str location +:+ " • " +:+ entry_str type +:+ "_"));;
  emit (St.tabs ["Overview"; "Costs & Aid"; "Outcomes"]);;
  (* overview tab *)
  emit (St.columns 2);;
  emit (St.header "Institution Profile");;
  overview ← eval (Py.getitem metrics "Institution Overview");
  items ← eval (entry_items overview);
  write_profile items;;
  emit (St.header "Enrollment");;
  section ← eval (Py.getitem metrics "Enrollment & Faculty");
  enroll ← eval (Py.getitem section "Student Body");
  total ← eval (u ← Py.getitem enroll "Undergraduate Enrollment";
                undergraduate ← Py.int_of_entry u;
                g ← Py.getitem enroll "Graduate Enrollment";
                graduate ← Py.int_of_entry g;
                Ok (undergraduate + graduate));
  emit (St.metric "Total Enrollment" (Leaf (VStr (Text.int_commas total))));;
  undergraduate ← eval (u ← Py.getitem enroll "Undergraduate Enrollment";
                        Py.int_of_entry u);
  emit (St.write ("**Undergraduate:** " +:+ Text.int_commas undergraduate));;
  graduate ← eval (g ← Py.getitem enroll "Graduate Enrollment";
                   Py.int_of_entry g);
  emit (St.write ("**Graduate:** " +:+ Text.int_commas graduate));;
  share ← eval (Py.getitem enroll "Part-time Share");
  emit (St.write ("**Part-time Share:** " +:+ entry_str share));;
  emit (St.header "Student Demographics");;
  demo ← eval (Py.getitem metrics "Demographics");
  men ← eval (gender ← Py.getitem demo "Gender";
              text ← Py.getitem gender "Men";
              percent_number text);
  women ← eval (gender ← Py.getitem demo "Gender";
                text ← Py.getitem gender "Women";
                percent_number text);
  emit (St.plotly_chart (St.pie ["Men"; "Women"] [men; women] "Gender Distribution"));;
  emit (St.write "**Student Background**");;
  bg ← eval (Py.getitem demo "Student Background");
  first ← eval (Py.getitem bg "First Generation");
  emit (St.write ("First Generation: " +:+ entry_str first));;
  older ← eval (Py.getitem bg "Age 25 or Older");
  emit (St.write ("Age 25 or Older: " +:+ entry_str older));;
  age ← eval (Py.getitem bg "Average Age at Entry");
  emit (St.write ("Average Age at Entry: " +:+ entry_str age));;
  income ← eval (Py.getitem bg "Median Family Income");
  emit (St.write ("Median Family Income: " +:+ entry_str income));;
  (* costs tab *)
  emit (St.columns 2);;
  emit (St.header "Annual Costs");;
  costs ← eval (section ← Py.getitem metrics "Cost & Financial Aid";
                direct ← Py.getitem section "Direct Costs";
                entry_items direct);
  metric_each costs;;
  emit (St.header "Financial Aid");;
  aid ← eval (section ← Py.getitem metrics "Cost & Financial Aid";
              Py.getitem section "Aid & Debt");
  pell ← eval (Py.getitem aid "Pell Grant Recipients");
  emit (St.metric "Pell Grant Recipients" pell);;
  loans ← eval (Py.getitem aid "Federal Loan Recipients");
  emit (St.metric "Federal Loan Recipients" loans);;
  emit (St.subheader "Net Price by Income");;
  net ← eval (section ← Py.getitem metrics "Cost & Financial Aid";
              Py.getitem section "Net Price");
  low ← eval (Py.getitem net "Low Income (0-30k)");
  emit (St.write ("**Low Income (0-30k):** " +:+ entry_str low));;
  high ← eval (Py.getitem net "High Income (75k+)");
  emit (St.write ("**High Income (75k+):** " +:+ entry_str high));;
  (* outcomes tab *)
  emit (St.columns 2);;
  emit (St.header "Student Success");;
  success ← eval (Py.getitem metrics "Student Success");
  retention ← eval (group ← Py.getitem success "Retention";
                    Py.getitem group "First-year Full-time");
  emit (St.metric "Retention Rate" retention);;
  four ← eval (group ← Py.getitem success "Graduation";
               Py.getitem group "4-year rate");
  emit (St.metric "4-year Graduation Rate" four);;
  six ← eval (group ← Py.getitem success "Graduation";
              Py.getitem group "6-year rate");
  emit (St.metric "6-year Graduation Rate" six);;
  emit (St.header "Career Outcomes");;
  earnings ← eval (section ← Py.getitem metrics "Career Outcomes";
                   Py.getitem section "Median Earnings");
  y6 ← eval (text ← Py.getitem earnings "6 years after entry"; dollar_number text);
  y8 ← eval (text ← Py.getitem earnings "8 years after entry"; dollar_number text);
  y10 ← eval (text ← Py.getitem earnings "10 years after entry"; dollar_number text);
  emit (St.plotly_chart
          (St.scatter [6; 8; 10] [y6; y8; y10] "lines+markers"
             "Earnings Progression" "Years after entry" "Median Earnings ($)")).

End Page.

(** A record the page renders: the sample with the size and the admission
    rate the sidebar reads. *)
Definition page_record : value :=
  match sample_record with
  | VDict top =>
      match top !! "latest" with
      | Some (VDict latest) =>
          match latest !! "student" with
          | Some (VDict student) =>
              VDict (<["latest" :=
                VDict (<["admissions" :=
                         dict [("admission_rate",
                                dict [("overall",
                                       VFloat (Float.of_ratio 345 1000))])]]>
                       (<["student" := VDict (<["size" := VInt 35000]> student)]>
                        latest))]> top)
          | _ => sample_record
          end
      | _ => sample_record
      end
  | _ => sample_record
  end.

(** What [fetch_school_data] returned: one school, with its record. *)
Definition page_schools : value :=
  dict [("Harvard University",
         dict [("id", VInt 166027);
               ("school_name", VStr "Harvard University");
               ("collected_at", VStr "2024-01-01T00:00:00");
               ("raw_data", page_record)])].

(** Stand-ins for the interpreter's conversions, for running the page on the
    sample: the page never formats a float with [","] there, and the charts
    only carry the converted numbers. *)
Definition unused_float_commas (x : spec_float) : string := "".
Definition unused_report_repr (r : report) : string := "".
Definition ratio_strtod (neg : bool) (digits exp : Z) : spec_float :=
  let x := if 0 <=? exp then Float.of_Z (digits * 10 ^ exp)
           else Float.of_ratio digits (10 ^ (- exp)) in
  if neg then SFopp x else x.

(** The part of a layout under a path of keys. *)
Fixpoint layout_at (path : list string) (l : layout) : option layout :=
  match path with
  | [] => Some l
  | k :: rest =>
      match l with
      | Group items =>
          kl ← list_find (fun kl => bool_decide (kl.1 = k)) items;
          layout_at rest kl.2.2
      | Field _ => None
      end
  end.

(** The lines the loop of lines 167-169 writes for the items of a
    dictionary: every item but "Name". *)
Definition profile_lines (py_repr : value -> string)
    (report_repr : report -> string) (items : list (string * report))
  : list St.call :=
  map (fun kv => St.write ("**" +:+ kv.1 +:+ ":** "
                           +:+ entry_str py_repr report_repr kv.2))
    (List.filter (fun kv => negb (String.eqb kv.1 "Name")) items).

(** The paths of a record the page cannot do without. *)
Definition required_paths : list (list string) :=
  [ ["latest"; "student"; "size"];
    ["latest"; "student"; "enrollment"; "undergrad_12_month"];
    ["latest"; "student"; "enrollment"; "grad_12_month"];
    ["latest"; "student"; "demographics"; "men"];
    ["latest"; "student"; "demographics"; "women"] ].

Definition earnings_paths : list (list string) :=
  [ ["latest"; "earnings"; "6_yrs_after_entry"; "median"];
    ["latest"; "earnings"; "8_yrs_after_entry"; "median_earnings"];
    ["latest"; "earnings"; "10_yrs_after_entry"; "median"] ].

(** The record holds a value that is not [null] at the path. *)
Definition present (r : value) (path : list string) : Prop :=
  ∃ v, value_at path r = Some v ∧ v ≠ VNone.

(** The record holds a value that is neither [null] nor equal to 0. *)
Definition present_nonzero (r : value) (path : list string) : Prop :=
  ∃ v, value_at path r = Some v ∧ v ≠ VNone ∧ Py.eq_int v 0 = false.

(** ** Reading the formatted text back *)

(** A sign, digits, a point and digits. *)
Definition plain_decimal (neg : bool) (ip fp : list ascii) : list ascii :=
  (if neg then ["-"%char] else []) ++ ip ++ "."%char :: fp.

(** The float a number is formatted as with the presentation type [f]. *)
Definition number_float (v : value) : res spec_float :=
  match v with
  | VBool b => Py.float_of_int (Py.b2z b)
  | VInt n => Py.float_of_int n
  | VFloat f => Ok f
  | VStr _ => Raise ValueError
  | VNone | VList _ | VDict _ => Raise TypeError
  end.

(** The float of the text of [x] with [nd] decimals: an infinity or a nan
    is itself, a finite number is converted from the digits printed. *)
Definition read_back (strtod : bool -> Z -> Z -> spec_float) (nd : nat)
    (x : spec_float) : spec_float :=
  match x with
  | S754_nan => S754_nan
  | S754_infinity s => S754_infinity s
  | S754_zero s => strtod s 0 (- Z.of_nat nd)
  | S754_finite s m e => strtod s (Float.scaled nd m e) (- Z.of_nat nd)
  end.

(** ** The collaborator: [fetch_school_data] *)

Module Fetch.

(** What [fetch_school_data] may raise: an exception of the interpreter as
    above, an [IndexError], or an exception of a library it calls, by its
    name. *)
Inductive raised : Type :=
| Interpreter (e : exn)
| IndexError
| Library (name : string).

Inductive outcome (A : Type) : Type :=
| Returned (a : A)
| Failed (r : raised).

Arguments Returned {A} a.
Arguments Failed {A} r.

#[global] Instance outcome_ret : MRet outcome := fun A a => Returned a.

#[global] Instance outcome_bind : MBind outcome := fun A B k m =>
  match m with
  | Returned a => k a
  | Failed r => Failed r
  end.

Definition of_res {A : Type} (x : res A) : outcome A :=
  match x with
  | Ok a => Returned a
  | Raise e => Failed (Interpreter e)
  end.

(** The response of [requests.get]: its status and what [response.json()]
    gives. *)
Record response : Type := {
  status_code : Z;
  json : outcome value
}.

(** [v[0]]. *)
Definition first_item (v : value) : outcome value :=
  match v with
  | VList (x :: _) => Returned x
  | VList [] => Failed IndexError
  | VStr (String a _) => Returned (VStr (String a ""))
  | VStr EmptyString => Failed IndexError
  | VDict _ => Failed (Interpreter KeyError)
  | VNone | VBool _ | VInt _ | VFloat _ => Failed (Interpreter TypeError)
  end.

Definition url : string := "https://api.data.gov/ed/collegescorecard/v1/schools".

(** The [params] of lines 42-46. *)
Definition params (API_KEY : value) (school : string) : list (string * value) :=
  [("api_key", API_KEY); ("school.name", VStr school); ("per_page", VInt 1)].

(** The line printed at line 41. *)
Definition progress (school : string) : string :=
  "Collecting data for " +:+ school +:+ "...".

Section Collaborators.

(** [st.secrets["API_KEY"]]. *)
Variable secret : outcome value.

(** [requests.get(url, params=params)]. *)
Variable requests_get : string -> list (string * value) -> outcome response.

(** [datetime.now().isoformat()] at the time the entry of a school is
    built. *)
Variable now_isoformat : string -> string.

(** Lines 42-60 for one school: the entry stored for it, if any.  The
    display of lines 55-60 evaluates [data['results'][0]] twice, with the
    same outcome. *)
Definition collect_one (API_KEY : value) (school : string)
  : outcome (option value) :=
  response ← requests_get url (params API_KEY school);
  if status_code response =? 200
  then
    data ← json response;
    results ← of_res (py_subscript data "results");
    if Py.truthy results
    then
      first ← first_item results;
      id ← of_res (py_subscript first "id");
      mret (Some (dict [("id", id);
                        ("school_name", VStr school);
                        ("collected_at", VStr (now_isoformat school));
                        ("raw_data", first)]))
    else mret None
  else mret None.

(** The loop of lines 40-60, with the dictionary built and the lines
    printed so far. *)
Fixpoint collect (API_KEY : value) (schools : list string)
    (school_data : gmap string value) (printed : list string)
  : outcome (gmap string value) * list string :=
  match schools with
  | [] => (Returned school_data, printed)
  | school :: rest =>
      let printed := printed ++ [progress school] in
      match collect_one API_KEY school with
      | Returned (Some entry) =>
          collect API_KEY rest (<[school := entry]> school_data) printed
      | Returned None => collect API_KEY rest school_data printed
      | Failed r => (Failed r, printed)
      end
  end.

(** [fetch_school_data], [src/data_loader.py] lines 35-62, the first time
    it is called: what it returns or raises, and the lines it prints. *)
Definition fetch_school_data : outcome value * list string :=
  match secret with
  | Returned API_KEY =>
      match collect API_KEY SAMPLE_SCHOOLS ∅ [] with
      | (Returned school_data, printed) => (Returned (VDict school_data), printed)
      | (Failed r, printed) => (Failed r, printed)
      end
  | Failed r => (Failed r, [])
  end.

(** The catalog answers the request for a school with status 200 and a
    first result. *)
Definition found (API_KEY : value) (school : string) (first : value) : Prop :=
  ∃ response data results,
    requests_get url (params API_KEY school) = Returned response
    ∧ status_code response = 200
    ∧ json response = Returned data
    ∧ py_subscript data "results" = Ok results
    ∧ Py.truthy results = true
    ∧ first_item results = Returned first.

(** The catalog answers the request for a school, but with another status
    than 200 or with no result. *)
Definition not_found (API_KEY : value) (school : string) : Prop :=
  ∃ response,
    requests_get url (params API_KEY school) = Returned response
    ∧ (status_code response ≠ 200
       ∨ ∃ data results,
           json response = Returned data
           ∧ py_subscript data "results" = Ok results
           ∧ Py.truthy results = false).

(** The entry of lines 55-60. *)
Definition entry_of (school : string) (first id : value) : value :=
  dict [("id", id);
        ("school_name", VStr school);
        ("collected_at", VStr (now_isoformat school));
        ("raw_data", first)].

End Collaborators.

End Fetch.

(** ** A catalog for running [fetch_school_data] *)

(** A first result of the catalog, with its identifier. *)
Definition catalog_record : value :=
  dict [("id", VInt 166027);
        ("school", dict [("name", VStr "Harvard University");
                         ("ownership", VInt 2)])].

Definition sample_secret : Fetch.outcome value :=
  Fetch.Returned (VStr "DEMO_KEY").

(** A catalog that knows Harvard University only: every other name is
    answered with status 200 and no result. *)
Definition sample_get (u : string) (ps : list (string * value))
  : Fetch.outcome Fetch.response :=
  match ps with
  | [_; (_, VStr name); _] =>
      let results :=
        if String.eqb name "Harvard University" then [catalog_record] else [] in
      Fetch.Returned
        {| Fetch.status_code := 200;
           Fetch.json := Fetch.Returned (dict [("results", VList results)]) |}
  | _ => Fetch.Failed (Fetch.Library "requests.exceptions.InvalidURL")
  end.

(** A catalog that refuses the key. *)
Definition refusing_get (u : string) (ps : list (string * value))
  : Fetch.outcome Fetch.response :=
  Fetch.Returned
    {| Fetch.status_code := 403;
       Fetch.json := Fetch.Returned (dict [("error", VStr "API_KEY_INVALID")]) |}.

Definition sample_now (school : string) : string := "2024-01-01T00:00:00".

(** ** Decimal numerals *)

(** The ten decimal digits, in order. *)
Definition decimal_digits : list ascii := list_ascii_of_string "0123456789".

(** The place of a character in a list, counted from [i]. *)
Fixpoint position (a : ascii) (l : list ascii) (i : Z) : option Z :=
  match l with
  | [] => None
  | c :: rest => if Ascii.eqb a c then Some i else position a rest (i + 1)
  end.

(** The value of a decimal digit: its place among the ten digits. *)
Definition digit_value (a : ascii) : option Z := position a decimal_digits 0.

(** The number a sequence of decimal digits denotes after [acc], and
    nothing when a character is no digit. *)
Fixpoint numeral_value (l : list ascii) (acc : Z) : option Z :=
  match l with
  | [] => Some acc
  | a :: rest =>
      match digit_value a with
      | Some d => numeral_value rest (10 * acc + d)
      | None => None
      end
  end.

(** [text] is the decimal numeral of [n]: at least one digit, digits only,
    and no zero in front unless the text is "0". *)
Definition numeral_of (n : Z) (text : string) : Prop :=
  match list_ascii_of_string text with
  | [] => False
  | a :: rest =>
      numeral_value (a :: rest) 0 = Some n ∧ (a = "0"%char → rest = [])
  end.

(** [text] is made of two decimal digits that denote [n]. *)
Definition two_digits_of (n : Z) (text : string) : Prop :=
  String.length text = 2%nat
  ∧ numeral_value (list_ascii_of_string text) 0 = Some n.

(** Digits in groups of three counted from the right: a first group of one
    to three characters, then groups of exactly three. *)
Definition groups_of_three (first : string) (rest : list string) : Prop :=
  (1 <= String.length first <= 3)%nat
  ∧ Forall (λ g, String.length g = 3%nat) rest.

(** * Properties *)

(** ** Computations *)

Lemma run_ret {A : Type} (a : A) σ : run (mret a) σ = Ok a.
Proof. reflexivity. Qed.

Lemma run_lift {A : Type} (x : res A) σ : run (lift x) σ = x.
Proof. reflexivity. Qed.

Lemma run_load σ : run load σ = Ok σ.
Proof. reflexivity. Qed.

Lemma run_bind {A B : Type} (m : M A) (k : A → M B) σ :
  readonly m → run (m ≫= k) σ = run m σ ≫= (λ a, run (k a) σ).
Proof.
  intros Hm. unfold run, mbind, M_bind, res_bind_inst, res_bind.
  specialize (Hm σ). destruct (m σ) as [[a|e] σ']; simpl in *; now subst.
Qed.

Lemma readonly_ret {A : Type} (a : A) : readonly (mret a : M A).
Proof. now intros σ. Qed.

Lemma readonly_lift {A : Type} (x : res A) : readonly (lift x).
Proof. now intros σ. Qed.

Lemma readonly_load : readonly load.
Proof. now intros σ. Qed.

Lemma readonly_bind {A B : Type} (m : M A) (k : A → M B) :
  readonly m → (∀ a, readonly (k a)) → readonly (m ≫= k).
Proof.
  intros Hm Hk σ. unfold mbind, M_bind. specialize (Hm σ).
  destruct (m σ) as [[a|e] σ']; simpl in *; subst; [apply Hk | reflexivity].
Qed.

Lemma readonly_py_get obj key dflt : readonly (py_get obj key dflt).
Proof. destruct obj; apply readonly_lift || apply readonly_ret. Qed.

Lemma readonly_get_chain keys : ∀ obj, readonly (get_chain obj keys).
Proof.
  induction keys as [|k keys IH]; intros obj; simpl.
  - apply readonly_ret.
  - apply readonly_bind; [apply readonly_py_get | intros o; apply IH].
Qed.

Lemma readonly_get_path obj keys last dflt :
  readonly (get_path obj keys last dflt).
Proof.
  apply readonly_bind; [apply readonly_get_chain | intros; apply readonly_py_get].
Qed.

Lemma readonly_call f m : readonly m → readonly (call f m).
Proof. intros Hm. apply readonly_bind; [exact Hm | intros; apply readonly_lift]. Qed.

Create HintDb readonly.
#[local] Hint Resolve readonly_ret readonly_lift readonly_load readonly_py_get
  readonly_get_chain readonly_get_path readonly_call : readonly.

(** Closes a goal [readonly m] for a computation written with the
    combinators above. *)
Ltac solve_readonly :=
  repeat first
    [ progress eauto with readonly
    | apply readonly_bind; [| intros ?]
    | match goal with |- readonly (if ?b then _ else _) => destruct b end ].

(** ** Dictionary displays *)

(** Induction on displays, with the hypothesis for every item of a nested
    display. *)
Lemma display_ind' (P : display → Prop) :
  (∀ m, P (Expr m)) →
  (∀ items, Forall (λ kd, P kd.2) items → P (Display items)) →
  ∀ d, P d.
Proof.
  intros HE HD. fix IH 1. intros [m|items]; [apply HE|].
  apply HD. induction items as [|[k d] rest IHrest]; constructor.
  - apply IH.
  - exact IHrest.
Qed.

Lemma readonly_display_items (eval : display → M report) items :
  Forall (λ kd, readonly (eval kd.2)) items →
  readonly (display_items eval items).
Proof.
  induction 1 as [|[k d] rest Hd _ IH]; simpl.
  - apply readonly_ret.
  - apply readonly_bind; [exact Hd | intros r].
    apply readonly_bind; [exact IH | intros l; apply readonly_ret].
Qed.

Lemma readonly_dict_display d :
  Forall readonly (display_exprs d) → readonly (dict_display d).
Proof.
  induction d as [m|items IH] using display_ind'; simpl; intros H.
  - now inversion H.
  - apply readonly_bind; [| intros; apply readonly_ret].
    apply readonly_display_items.
    induction IH as [|[k d] rest Hd _ IHrest]; constructor; simpl in *;
      apply Forall_app in H as [H1 H2]; auto.
Qed.

Lemma display_items_ok (eval : display → M report) items σ :
  Forall (λ kd, readonly (eval kd.2)) items →
  ∀ l, run (display_items eval items) σ = Ok l →
  Forall2 (λ kd kr, kd.1 = kr.1 ∧ run (eval kd.2) σ = Ok kr.2) items l.
Proof.
  induction 1 as [|[k d] rest Hd Hrest IH]; simpl; intros l Hl.
  - rewrite run_ret in Hl. injection Hl as <-. constructor.
  - rewrite run_bind in Hl by exact Hd.
    destruct (run (eval d) σ) as [r|e] eqn:Hr; [|discriminate]. simpl in Hl.
    rewrite run_bind in Hl by now apply readonly_display_items.
    destruct (run (display_items eval rest) σ) as [l'|e] eqn:Hl'; [|discriminate].
    simpl in Hl. rewrite run_ret in Hl. injection Hl as <-.
    constructor; [now split | now apply IH].
Qed.

(** Looking a key up in the items of a display and in the items of its
    report finds the same position. *)
Lemma list_find_items {A B : Type} (R : A → B → Prop) (k : string)
    (items : list (string * A)) (l : list (string * B)) :
  Forall2 (λ kd kr, kd.1 = kr.1 ∧ R kd.2 kr.2) items l →
  ∀ i kd, list_find (λ kd, bool_decide (kd.1 = k)) items = Some (i, kd) →
  ∃ kr, list_find (λ kr, bool_decide (kr.1 = k)) l = Some (i, kr)
        ∧ R kd.2 kr.2.
Proof.
  induction 1 as [|[k1 a] [k2 b] items l [Hk HR] _ IH]; intros i kd; simpl.
  - discriminate.
  - simpl in Hk. subst k2. case_bool_decide.
    + intros [= <- <-]. eexists. split; [reflexivity | exact HR].
    + destruct (list_find _ items) as [[j kd']|] eqn:Hfind; [|discriminate].
      simpl. intros [= <- <-].
      destruct (IH _ _ eq_refl) as (kr & -> & HR'). simpl. now exists kr.
Qed.

(** A display that returns gives a dictionary with the keys of the display,
    in the same order, each with the value of its expression. *)
Lemma dict_display_items items σ rep :
  Forall readonly (display_exprs (Display items)) →
  run (dict_display (Display items)) σ = Ok rep →
  ∃ l, rep = Node l
       ∧ Forall2 (λ kd kr, kd.1 = kr.1 ∧ run (dict_display kd.2) σ = Ok kr.2)
           items l.
Proof.
  simpl. intros Hro Hrun. apply Forall_flat_map in Hro.
  assert (Hitems : Forall (λ kd, readonly (dict_display kd.2)) items).
  { eapply Forall_impl; [exact Hro|]. intros kd. apply readonly_dict_display. }
  rewrite run_bind in Hrun by now apply readonly_display_items.
  destruct (run (display_items dict_display items) σ) as [l|e] eqn:Hl;
    [|discriminate].
  simpl in Hrun. rewrite run_ret in Hrun. injection Hrun as <-.
  exists l. split; [reflexivity|]. now apply display_items_ok.
Qed.

(** The entry of the report under a path is the value of the expression the
    display has under that path. *)
Lemma dict_display_at path : ∀ d σ rep d',
  Forall readonly (display_exprs d) →
  run (dict_display d) σ = Ok rep →
  display_at path d = Some d' →
  ∃ rep', report_at path rep = Some rep' ∧ run (dict_display d') σ = Ok rep'.
Proof.
  induction path as [|k path IH]; intros d σ rep d' Hro Hrun Hat.
  - injection Hat as <-. now exists rep.
  - destruct d as [m|items]; [discriminate|].
    destruct (dict_display_items items σ rep Hro Hrun) as (l & -> & Hl).
    simpl in Hat, Hro. apply Forall_flat_map in Hro.
    destruct (list_find _ items) as [[i kd]|] eqn:Hfind; [|discriminate].
    simpl in Hat.
    destruct (list_find_items (λ d r, run (dict_display d) σ = Ok r)
                k items l Hl i kd Hfind) as (kr & Hkr & Hr).
    simpl. rewrite Hkr. simpl.
    eapply IH; [| exact Hr | exact Hat].
    apply list_find_Some in Hfind as (Hin & _).
    rewrite Forall_forall in Hro. apply Hro.
    eapply list_elem_of_lookup_2, Hin.
Qed.

(** ** Lookups *)

#[local] Arguments py_get : simpl never.
#[local] Arguments get_path : simpl never.

Lemma run_py_get obj k dflt σ :
  run (py_get obj k dflt) σ =
  match obj with
  | VDict d => Ok (default dflt (d !! k))
  | _ => Raise AttributeError
  end.
Proof. now destruct obj. Qed.

Lemma get_chain_empty keys σ : run (get_chain (VDict ∅) keys) σ = Ok (VDict ∅).
Proof.
  induction keys as [|k keys IH]; simpl; [reflexivity|].
  rewrite run_bind by apply readonly_py_get.
  rewrite run_py_get, lookup_empty. exact IH.
Qed.

Lemma value_at_empty k path : value_at (k :: path) (VDict ∅) = None.
Proof. simpl. now rewrite lookup_empty. Qed.

(** A chain that returns has walked the path as far as it exists. *)
Lemma get_chain_ok keys : ∀ obj σ o last rest,
  run (get_chain obj keys) σ = Ok o →
  value_at (keys ++ last :: rest) obj = value_at (last :: rest) o.
Proof.
  induction keys as [|k keys IH]; intros obj σ o last rest; simpl.
  - rewrite run_ret. now intros [= ->].
  - rewrite run_bind by apply readonly_py_get. rewrite run_py_get.
    destruct obj as [| | | | | |d]; try discriminate. simpl.
    destruct (d !! k) as [o1|] eqn:Hk; simpl.
    + apply IH.
    + rewrite get_chain_empty. intros [= <-]. now rewrite lookup_empty.
Qed.

Lemma get_path_ok obj keys last dflt σ v :
  run (get_path obj keys last dflt) σ = Ok v →
  v = default dflt (value_at (keys ++ [last]) obj).
Proof.
  unfold get_path. rewrite run_bind by apply readonly_get_chain.
  destruct (run (get_chain obj keys) σ) as [o|e] eqn:Ho; [|discriminate].
  simpl. rewrite run_py_get. rewrite (get_chain_ok _ _ _ _ _ _ Ho).
  destruct o as [| | | | | |d]; try discriminate.
  intros [= <-]. simpl. now destruct (d !! last).
Qed.

Lemma get_chain_total keys : ∀ obj σ,
  mappings_along keys obj = true →
  ∃ d, run (get_chain obj keys) σ = Ok (VDict d).
Proof.
  induction keys as [|k keys IH]; intros obj σ;
    destruct obj as [| | | | | |d]; try discriminate; simpl.
  - intros _. now exists d.
  - rewrite run_bind by apply readonly_py_get. rewrite run_py_get. simpl.
    destruct (d !! k) as [o1|]; simpl.
    + apply IH.
    + intros _. exists ∅. apply get_chain_empty.
Qed.

(** Where every dictionary on the way is a dictionary, the lookup returns:
    the value found, or the default. *)
Lemma get_path_total obj keys last dflt σ :
  mappings_along keys obj = true →
  run (get_path obj keys last dflt) σ
  = Ok (default dflt (value_at (keys ++ [last]) obj)).
Proof.
  intros Hm. destruct (get_chain_total keys obj σ Hm) as [d Hd].
  unfold get_path. rewrite run_bind by apply readonly_get_chain.
  rewrite Hd. simpl. rewrite run_py_get.
  rewrite (get_chain_ok _ _ _ _ last [] Hd). simpl. now destruct (d !! last).
Qed.

(** The sections of a report are dictionaries with at least one field when
    the display gives each of them at least one item. *)
Lemma nested_displays_nonempty (items : list (string * display)) σ
    (l : list (string * report)) :
  Forall (λ kd, ∃ first rest, kd.2 = Display (first :: rest)
                ∧ Forall readonly (display_exprs kd.2)) items →
  Forall2 (λ kd kr, kd.1 = kr.1 ∧ run (dict_display kd.2) σ = Ok kr.2)
    items l →
  l.*1 = items.*1
  ∧ Forall (λ kr, ∃ fields, kr.2 = Node fields ∧ fields ≠ []) l.
Proof.
  intros Hitems H. induction H as [|kd kr items l [Hk Hr] _ IH]; [now split|].
  apply Forall_cons in Hitems as [(first & rest & Hd & Hro) Hitems].
  destruct (IH Hitems) as [IH1 IH2].
  split; [rewrite !fmap_cons; now f_equal|].
  constructor; [|exact IH2].
  rewrite Hd in Hr, Hro.
  destruct (dict_display_items _ _ _ Hro Hr) as (fields & -> & Hf).
  exists fields. split; [reflexivity|]. now inversion Hf.
Qed.

(** Reading a report by subscripts follows [report_at]. *)
Lemma report_at_getitem k path rep x :
  report_at (k :: path) rep = Some x →
  ∃ sub, Py.getitem rep k = Ok sub ∧ report_at path sub = Some x.
Proof.
  destruct rep as [v|items]; simpl; [discriminate|].
  destruct (list_find _ items) as [[i [k' sub]]|]; simpl; [|discriminate].
  intros H. now exists sub.
Qed.

Lemma mappings_along_empty keys : mappings_along keys (VDict ∅) = true.
Proof. destruct keys; simpl; [reflexivity | now rewrite lookup_empty]. Qed.

(** A display raises [AttributeError] only if one of its expressions does. *)
Lemma dict_display_no_attribute_error d σ :
  Forall (λ m, readonly m ∧ run m σ ≠ Raise AttributeError) (display_exprs d) →
  run (dict_display d) σ ≠ Raise AttributeError.
Proof.
  induction d as [m|items IH] using display_ind'; simpl; intros H.
  - inversion H; tauto.
  - assert (Hro : Forall (λ kd, readonly (dict_display kd.2)) items).
    { apply Forall_flat_map in H. eapply Forall_impl; [exact H|].
      intros kd Hkd. apply readonly_dict_display.
      eapply Forall_impl; [exact Hkd|]. now intros m [Hm _]. }
    rewrite run_bind by now apply readonly_display_items.
    assert (Hitems : run (display_items dict_display items) σ
                     ≠ Raise AttributeError).
    { clear -H IH Hro.
      induction IH as [|[k d] rest Hd _ IHrest]; simpl; [discriminate|].
      simpl in H. apply Forall_app in H as [H1 H2].
      apply Forall_cons in Hro as [Hd' Hrest].
      rewrite run_bind by exact Hd'.
      destruct (run (dict_display d) σ) as [x|e] eqn:Hx; simpl.
      - rewrite run_bind by now apply readonly_display_items.
        destruct (run (display_items dict_display rest) σ) as [l|e] eqn:Hl;
          simpl; [discriminate|].
        intros [= ->]. now apply IHrest.
      - intros [= ->]. now apply Hd. }
    destruct (run (display_items dict_display items) σ); simpl;
      [discriminate | congruence].
Qed.

Lemma float_of_int_error n e : Py.float_of_int n = Raise e → e = OverflowError.
Proof.
  unfold Py.float_of_int. destruct (Float.is_finite _); [discriminate|].
  now intros [= <-].
Qed.

Lemma format_f_error comma nd v e :
  Py.format_f comma nd v = Raise e → e ≠ AttributeError.
Proof.
  destruct v as [|b|n|f|s|l|d]; simpl; try (intros [= <-]; discriminate).
  - destruct (Py.float_of_int (Py.b2z b)) eqn:E; simpl; [discriminate|].
    intros [= <-]. apply float_of_int_error in E. now subst.
  - destruct (Py.float_of_int n) eqn:E; simpl; [discriminate|].
    intros [= <-]. apply float_of_int_error in E. now subst.
Qed.

Lemma mul_int_error v k e : Py.mul_int v k = Raise e → e ≠ AttributeError.
Proof.
  destruct v as [|b|n|f|s|l|d]; simpl; try (intros [= <-]; discriminate).
  destruct (Py.float_of_int k) eqn:E; simpl; [discriminate|].
  intros [= <-]. apply float_of_int_error in E. now subst.
Qed.

(** What is left of [run (x ← m; k x) σ = Ok y] for a read-only [m]. *)
Lemma run_bind_ok {A B : Type} (m : M A) (k : A → M B) σ y :
  readonly m → run (m ≫= k) σ = Ok y →
  ∃ a, run m σ = Ok a ∧ run (k a) σ = Ok y.
Proof.
  intros Hm. rewrite run_bind by exact Hm.
  destruct (run m σ) as [a|e]; [|discriminate]. simpl. now exists a.
Qed.

(** Splits a hypothesis [H : run (x ← m; k x) σ = Ok y] into the value [a]
    of [m], [Ha : run m σ = Ok a] and [H : run (k a) σ = Ok y]. *)
Ltac bind_ok H a Ha :=
  apply run_bind_ok in H as (a & Ha & H); [cbv beta in H | solve_readonly].

(** ** The aggregator *)

Section Aggregator.

Variable py_repr : value → string.

Lemma metrics_display_readonly latest school :
  Forall readonly (display_exprs (metrics_display py_repr latest school)).
Proof.
  unfold metrics_display, entry, text. simpl.
  repeat constructor; solve_readonly.
Qed.

Lemma get_school_metrics_readonly : readonly (get_school_metrics py_repr).
Proof.
  unfold get_school_metrics.
  apply readonly_bind; [apply readonly_load | intros school_data].
  apply readonly_bind; [apply readonly_py_get | intros latest].
  apply readonly_bind; [apply readonly_py_get | intros school].
  apply readonly_dict_display, metrics_display_readonly.
Qed.

(** A report comes from the display evaluated on the two dictionaries read
    first. *)
Lemma get_school_metrics_ok r rep :
  run (get_school_metrics py_repr) r = Ok rep →
  ∃ latest school,
    run (py_get r "latest" (VDict ∅)) r = Ok latest
    ∧ run (py_get r "school" (VDict ∅)) r = Ok school
    ∧ run (dict_display (metrics_display py_repr latest school)) r = Ok rep.
Proof.
  unfold get_school_metrics.
  rewrite run_bind by apply readonly_load. rewrite run_load. simpl.
  rewrite run_bind by apply readonly_py_get.
  destruct (run (py_get r "latest" _) r) as [latest|e] eqn:Hl; [|discriminate].
  simpl. rewrite run_bind by apply readonly_py_get.
  destruct (run (py_get r "school" _) r) as [school|e] eqn:Hs; [|discriminate].
  simpl. intros H. now exists latest, school.
Qed.

(** The entry of a report under a path whose expression in the display is
    [m]: it is the value of [m], computed on the two dictionaries read
    first. *)
Lemma report_field path (m : value → value → M report) r rep :
  run (get_school_metrics py_repr) r = Ok rep →
  (∀ latest school,
     display_at path (metrics_display py_repr latest school)
     = Some (Expr (m latest school))) →
  ∃ latest school x,
    run (py_get r "latest" (VDict ∅)) r = Ok latest
    ∧ run (py_get r "school" (VDict ∅)) r = Ok school
    ∧ report_at path rep = Some x
    ∧ run (m latest school) r = Ok x.
Proof.
  intros Hrun Hat.
  destruct (get_school_metrics_ok r rep Hrun) as (latest & school & Hl & Hs & Hd).
  destruct (dict_display_at path _ _ _ _
              (metrics_display_readonly latest school) Hd (Hat latest school))
    as (x & Hx & Hm).
  now exists latest, school, x.
Qed.

(** A key read from the record with [{}] as the default: the paths below it
    are the paths of the record through that key. *)
Lemma value_at_via r k σ o keys last :
  run (py_get r k (VDict ∅)) σ = Ok o →
  value_at (k :: keys ++ [last]) r = value_at (keys ++ [last]) o.
Proof.
  rewrite run_py_get. destruct r as [| | | | | |d]; try discriminate.
  intros [= <-]. simpl. destruct (d !! k); simpl; [reflexivity|].
  destruct keys; simpl; now rewrite lookup_empty.
Qed.

Lemma get_path_via r k σ o keys last dflt v :
  run (py_get r k (VDict ∅)) σ = Ok o →
  run (get_path o keys last dflt) σ = Ok v →
  v = default dflt (value_at (k :: keys ++ [last]) r).
Proof.
  intros Ho Hv. rewrite (value_at_via _ _ _ _ _ _ Ho).
  exact (get_path_ok _ _ _ _ _ _ Hv).
Qed.



(** C6. Whenever the aggregator returns a report, its "4-year rate" and
    "6-year rate" fields under "Student Success" / "Graduation" hold the
    same text: [format_percentage] of the one value read from
    [latest.completion.completion_rate_4yr_150nt]. *)
Theorem graduation_rates_equal r rep :
  run (get_school_metrics py_repr) r = Ok rep →
  ∃ rate,
    report_at ["Student Success"; "Graduation"; "4-year rate"] rep
    = Some (Leaf (VStr rate))
    ∧ report_at ["Student Success"; "Graduation"; "6-year rate"] rep
      = Some (Leaf (VStr rate))
    ∧ format_percentage
        (default VNone
           (value_at ["latest"; "completion"; "completion_rate_4yr_150nt"] r))
      = Ok rate.
Proof.
  intros Hrun.
  destruct (report_field ["Student Success"; "Graduation"; "4-year rate"] _
              r rep Hrun (λ latest school, eq_refl))
    as (latest & school & x4 & Hl & _ & Hx4 & Hm4).
  destruct (report_field ["Student Success"; "Graduation"; "6-year rate"] _
              r rep Hrun (λ latest school, eq_refl))
    as (latest' & school' & x6 & Hl' & _ & Hx6 & Hm6).
  rewrite Hl in Hl'. injection Hl' as <-.
  rewrite Hm4 in Hm6. injection Hm6 as <-.
  bind_ok Hm4 rate Hrate.
  rewrite run_ret in Hm4. injection Hm4 as <-.
  bind_ok Hrate v Hv.
  rewrite run_lift in Hrate.
  apply (get_path_via _ _ _ _ ["completion"] _ _ _ Hl) in Hv. subst v.
  now exists rate.
Qed.

(** C7. Whenever the aggregator returns a report, its "Student-Faculty
    Ratio" field is [str] of the value read from
    [latest.student.demographics.student_faculty_ratio] followed by ":1",
    with no guard for an absent value: when the path is missing the field
    is the text "None:1". *)
Theorem student_faculty_ratio r rep :
  run (get_school_metrics py_repr) r = Ok rep →
  let ratio :=
    value_at ["latest"; "student"; "demographics"; "student_faculty_ratio"] r in
  let field :=
    report_at ["Enrollment & Faculty"; "Faculty"; "Student-Faculty Ratio"] rep in
  field = Some (Leaf (VStr (py_str py_repr (default VNone ratio) +:+ ":1")))
  ∧ (ratio = None → field = Some (Leaf (VStr "None:1"))).
Proof.
  intros Hrun ratio field.
  destruct (report_field
              ["Enrollment & Faculty"; "Faculty"; "Student-Faculty Ratio"] _
              r rep Hrun (λ latest school, eq_refl))
    as (latest & school & x & Hl & _ & Hx & Hm).
  bind_ok Hm t Ht.
  rewrite run_ret in Hm. injection Hm as <-.
  bind_ok Ht v Hv.
  rewrite run_ret in Ht. injection Ht as <-.
  apply (get_path_via _ _ _ _ ["student"; "demographics"] _ _ _ Hl) in Hv.
  simpl in Hv. fold ratio in Hv. subst v.
  assert (Hfield : field
            = Some (Leaf (VStr (py_str py_repr (default VNone ratio) +:+ ":1"))))
    by exact Hx.
  split; [exact Hfield|]. intros Hnone. now rewrite Hfield, Hnone.
Qed.

(** C8. Running the aggregator leaves the caller's record as it was, and
    running it a second time on that record gives the same outcome. *)
Theorem get_school_metrics_repeatable r :
  let first := get_school_metrics py_repr r in
  let second := get_school_metrics py_repr first.2 in
  first.2 = r ∧ second.2 = r ∧ second.1 = first.1.
Proof.
  intros first second.
  assert (H1 : first.2 = r) by apply get_school_metrics_readonly.
  assert (H2 : second.2 = first.2) by apply get_school_metrics_readonly.
  subst second. rewrite H1 in *. auto.
Qed.

(** C9. Whenever the aggregator returns a report, the report is a
    dictionary whose keys are the six section names, in the order of the
    source, and every section is a dictionary with at least one field. *)
Theorem six_sections r rep :
  run (get_school_metrics py_repr) r = Ok rep →
  ∃ sections,
    rep = Node sections
    ∧ sections.*1 = section_names
    ∧ Forall (λ kr, ∃ fields, kr.2 = Node fields ∧ fields ≠ []) sections.
Proof.
  intros Hrun.
  destruct (get_school_metrics_ok r rep Hrun) as (latest & school & _ & _ & Hd).
  pose proof (metrics_display_readonly latest school) as Hro.
  unfold metrics_display in Hd, Hro.
  destruct (dict_display_items _ _ _ Hro Hd) as (sections & -> & Hs).
  exists sections. split; [reflexivity|].
  apply nested_displays_nonempty in Hs; [exact Hs|]. clear.
  repeat (apply Forall_cons; split;
          [eexists _, _; split; [reflexivity|] |]); [..|apply Forall_nil];
    unfold entry, text; simpl; repeat constructor; solve_readonly.
Qed.

(** C5. On a report of the aggregator, the total enrollment [main] derives
    is 35000 (shown as "35,000") when the record holds 21000 undergraduate
    and 14000 graduate students; it is [ValueError], the error [int()]
    raises for text that is no number, when the undergraduate enrollment is
    missing from the record, and more generally on every report whose
    undergraduate enrollment is the marker "N/A", whatever the graduate
    enrollment is. *)
Theorem total_enrollment_derivation r rep :
  run (get_school_metrics py_repr) r = Ok rep →
  let undergraduate :=
    value_at ["latest"; "student"; "enrollment"; "undergrad_12_month"] r in
  let graduate :=
    value_at ["latest"; "student"; "enrollment"; "grad_12_month"] r in
  (undergraduate = Some (VInt 21000) → graduate = Some (VInt 14000) →
   total_enrollment rep = Ok 35000
   ∧ total_enrollment_text rep = Ok "35,000")
  ∧ (undergraduate = None → total_enrollment rep = Raise ValueError)
  ∧ (∀ any : report,
       report_at ["Enrollment & Faculty"; "Student Body";
                  "Undergraduate Enrollment"] any
       = Some (Leaf (VStr "N/A")) →
       total_enrollment any = Raise ValueError).
Proof.
  intros Hrun undergraduate graduate.
  assert (Hna : ∀ any : report,
    report_at ["Enrollment & Faculty"; "Student Body";
               "Undergraduate Enrollment"] any
    = Some (Leaf (VStr "N/A")) →
    total_enrollment any = Raise ValueError).
  { intros any H.
    apply report_at_getitem in H as (s1 & H1 & H).
    apply report_at_getitem in H as (s2 & H2 & H).
    apply report_at_getitem in H as (s3 & H3 & H).
    injection H as ->. unfold total_enrollment.
    rewrite H1. simpl. rewrite H2. simpl. now rewrite H3. }
  destruct (report_field
              ["Enrollment & Faculty"; "Student Body"; "Undergraduate Enrollment"]
              _ r rep Hrun (λ latest school, eq_refl))
    as (latest & school & xu & Hl & _ & Hxu & Hmu).
  destruct (report_field
              ["Enrollment & Faculty"; "Student Body"; "Graduate Enrollment"]
              _ r rep Hrun (λ latest school, eq_refl))
    as (latest' & school' & xg & Hl' & _ & Hxg & Hmg).
  rewrite Hl in Hl'. injection Hl' as <-.
  bind_ok Hmu u Hu. rewrite run_ret in Hmu. injection Hmu as <-.
  bind_ok Hmg g Hg. rewrite run_ret in Hmg. injection Hmg as <-.
  apply (get_path_via _ _ _ _ ["student"; "enrollment"] _ _ _ Hl) in Hu, Hg.
  cbn [app] in Hu, Hg. fold undergraduate in Hu. fold graduate in Hg.
  subst u g.
  split; [|split; [|exact Hna]].
  - intros Hundergraduate Hgraduate.
    rewrite Hundergraduate in Hxu. rewrite Hgraduate in Hxg.
    cbn [default] in Hxu, Hxg.
    apply report_at_getitem in Hxu as (s1 & H1 & Hxu).
    apply report_at_getitem in Hxu as (s2 & H2 & Hxu).
    apply report_at_getitem in Hxu as (s3 & H3 & Hxu). injection Hxu as ->.
    apply report_at_getitem in Hxg as (s1' & H1' & Hxg).
    rewrite H1 in H1'. injection H1' as <-.
    apply report_at_getitem in Hxg as (s2' & H2' & Hxg).
    rewrite H2 in H2'. injection H2' as <-.
    apply report_at_getitem in Hxg as (s3' & H3' & Hxg). injection Hxg as ->.
    assert (Htotal : total_enrollment rep = Ok 35000).
    { unfold total_enrollment.
      rewrite H1. simpl. rewrite H2. simpl. rewrite H3. simpl. now rewrite H3'. }
    split; [exact Htotal|]. unfold total_enrollment_text. now rewrite Htotal.
  - intros Hundergraduate. apply Hna.
    now rewrite Hundergraduate in Hxu.
Qed.

Lemma format_currency_error v e :
  format_currency v = Raise e → e ≠ AttributeError.
Proof.
  unfold format_currency.
  destruct v; try discriminate; destruct (Py.eq_int _ 0); try discriminate;
    (destruct (Py.format_f true 2 _) eqn:E; simpl; [discriminate|];
     intros [= <-]; exact (format_f_error _ _ _ _ E)).
Qed.

Lemma format_percentage_error v e :
  format_percentage v = Raise e → e ≠ AttributeError.
Proof.
  unfold format_percentage.
  destruct v; try discriminate;
    (destruct (Py.mul_int _ 100) as [p|e'] eqn:Ep; simpl;
     [ destruct (Py.format_f false 1 p) eqn:E; simpl; [discriminate|];
       intros [= <-]; exact (format_f_error _ _ _ _ E)
     | intros [= <-]; exact (mul_int_error _ _ _ Ep) ]).
Qed.

(** Evaluates one expression of the display whose lookups return. *)
Ltac eval_expr :=
  repeat first
    [ rewrite run_bind by solve_readonly
    | rewrite get_path_total by (assumption || apply mappings_along_empty)
    | rewrite run_py_get
    | rewrite run_ret
    | rewrite run_lift
    | progress cbn [mbind res_bind_inst res_bind default from_option id]
    | match goal with
      | |- context [if ?b then _ else _] => destruct b
      end ].

(** Closes [f v ≫= k ≠ Raise AttributeError] for a formatter [f], from the
    lemma [Herr] on the exceptions of [f]. *)
Ltac formatter_case f Herr :=
  match goal with
  | |- (f ?v ≫= _) ≠ _ =>
      let E := fresh "E" in
      destruct (f v) eqn:E; cbn [mbind res_bind_inst res_bind];
      [ rewrite ?run_ret; discriminate
      | intros [= ->]; now apply Herr in E ]
  end.

(** C1, as amended. On a record in which every dictionary the lookups walk
    through is a dictionary (the record itself and, wherever a key of a
    lookup chain is present, the value under it), every lookup of the
    aggregator returns: the value found at the path, or the default of the
    lookup when the path is missing ([{}] on the way, then [None], "N/A" or
    "None"); and the aggregator never raises [AttributeError]. *)
Theorem lookups_total r :
  well_shaped r = true →
  (∀ keys last dflt, (keys, last, dflt) ∈ lookup_table →
     run (get_path r keys last dflt) r
     = Ok (default dflt (value_at (keys ++ [last]) r)))
  ∧ run (get_school_metrics py_repr) r ≠ Raise AttributeError.
Proof.
  intros Hshape.
  assert (Hall : Forall (λ p, mappings_along p.1.1 r = true) lookup_table).
  { apply Forall_forall. intros p Hp. unfold well_shaped in Hshape.
    rewrite forallb_forall in Hshape. apply Hshape.
    now apply list_elem_of_In. }
  split.
  - intros keys last dflt Hin. apply get_path_total.
    rewrite Forall_forall in Hall. exact (Hall _ Hin).
  - cbv beta zeta delta [lookup_table] in Hall.
    repeat match type of Hall with
           | Forall _ (_ :: _) =>
               let H := fresh "Hpath" in apply Forall_cons in Hall as [H Hall]
           end.
    clear Hall Hshape. cbn [fst] in *.
    destruct r as [| | | | | |d]; try discriminate.
    unfold get_school_metrics.
    rewrite run_bind by apply readonly_load. rewrite run_load.
    cbn [mbind res_bind_inst res_bind].
    rewrite run_bind by apply readonly_py_get. rewrite run_py_get.
    cbn [mbind res_bind_inst res_bind].
    rewrite run_bind by apply readonly_py_get. rewrite run_py_get.
    cbn [mbind res_bind_inst res_bind].
    cbn [mappings_along] in *.
    destruct (d !! "latest") as [latest|]; destruct (d !! "school") as [school|];
      cbn [default from_option id];
      try (destruct school; try discriminate);
      apply dict_display_no_attribute_error;
      unfold metrics_display, entry, text, call; cbn [display_exprs flat_map app snd];
      repeat (apply Forall_cons; split; [split; [solve_readonly|] |]);
      try (apply Forall_nil; exact I); eval_expr; try discriminate;
      first [ formatter_case format_percentage format_percentage_error
            | formatter_case format_currency format_currency_error ].
Qed.

(** C2, as amended. On the empty record [{}] the aggregator raises nothing,
    leaves the record as it is and returns [empty_report]: a report in which
    every leaf is the text "N/A" except eight, namely the four fields read
    without a default (Name, Carnegie Classification, Accreditor, Average
    Age at Entry), which are [None]; Location, "N/A, N/A"; Type, "Private";
    Religious Affiliation, "None"; and Student-Faculty Ratio, "None:1". *)
Theorem empty_record_report :
  get_school_metrics py_repr empty_record = (Ok empty_report, empty_record)
  ∧ List.filter (λ pv, negb (is_sentinel pv.2)) (leaves empty_report)
    = [ (["Institution Overview"; "Name"], VNone);
        (["Institution Overview"; "Location"], VStr "N/A, N/A");
        (["Institution Overview"; "Type"], VStr "Private");
        (["Institution Overview"; "Carnegie Classification"], VNone);
        (["Institution Overview"; "Accreditor"], VNone);
        (["Institution Overview"; "Religious Affiliation"], VStr "None");
        (["Enrollment & Faculty"; "Faculty"; "Student-Faculty Ratio"],
         VStr "None:1");
        (["Demographics"; "Student Background"; "Average Age at Entry"],
         VNone) ].
Proof. split; vm_compute; reflexivity. Qed.

End Aggregator.

(** ** The formatters *)

Lemma round_half_even_nearest num den :
  0 <= num → 0 < den →
  let n := Float.round_half_even num den in
  0 <= n ∧ Z.abs (2 * num - 2 * n * den) <= den.
Proof.
  intros Hnum Hden. unfold Float.round_half_even.
  pose proof (Z.div_mod num den ltac:(lia)) as Hdiv.
  pose proof (Z.mod_pos_bound num den Hden) as Hmod.
  pose proof (Z.div_pos num den Hnum Hden) as Hq.
  set (q := num / den) in *. set (rm := num mod den) in *.
  destruct (Z.compare_spec (2 * rm) den) as [Heq|Hlt|Hgt];
    [destruct (Z.even q)|..]; simpl; split; nia.
Qed.

(** The digits printed for a finite float are those of a nearest multiple
    of [10^-nd]. *)
Lemma scaled_nearest nd m e :
  let n := Float.scaled nd m e in
  0 <= n ∧ nearest_to n (10 ^ Z.of_nat nd) m e.
Proof.
  unfold Float.scaled, nearest_to.
  assert (0 < 10 ^ Z.of_nat nd) by (apply Z.pow_pos_nonneg; lia).
  destruct (0 <=? e) eqn:He; simpl.
  - apply Z.leb_le in He.
    assert (0 < 2 ^ e) by (apply Z.pow_pos_nonneg; lia). split; nia.
  - apply Z.leb_gt in He.
    assert (0 < 2 ^ (- e)) by (apply Z.pow_pos_nonneg; lia).
    destruct (round_half_even_nearest (Z.pos m * 10 ^ Z.of_nat nd) (2 ^ (- e)))
      as [Hn Hnear]; [nia | lia |].
    split; [exact Hn|].
    replace (2 * (10 ^ Z.of_nat nd * Z.pos m))
      with (2 * (Z.pos m * 10 ^ Z.of_nat nd)) by ring.
    exact Hnear.
Qed.

(** A remainder below [10^nd] takes exactly [nd] characters, for the one and
    two decimals the formatters ask for. *)
Lemma zero_pad_length (nd : nat) (bound : nat) (r : Z) :
  forallb (λ k, Nat.eqb (String.length (Text.zero_pad nd (Text.digits (Z.of_nat k)))) nd)
    (seq 0 bound) = true →
  0 <= r < Z.of_nat bound →
  String.length (Text.zero_pad nd (Text.digits r)) = nd.
Proof.
  intros Hall Hr. rewrite forallb_forall in Hall.
  specialize (Hall (Z.to_nat r)). rewrite Z2Nat.id in Hall by lia.
  apply Nat.eqb_eq, Hall, in_seq. lia.
Qed.

Lemma finite_float_nonzero s m e :
  Py.eq_int (VFloat (S754_finite s m e)) 0 = false.
Proof.
  simpl. destruct (0 <=? e) eqn:He; apply Z.eqb_neq.
  - apply Z.leb_le in He.
    assert (0 < 2 ^ e) by (apply Z.pow_pos_nonneg; lia). destruct s; nia.
  - destruct s; lia.
Qed.

Lemma float_of_100 : Py.float_of_int 100 = Ok (Float.of_Z 100).
Proof. vm_compute. reflexivity. Qed.

(** C4. [format_percentage] returns "N/A" for [None]; for a float it
    multiplies the argument by 100 and returns the product rounded to a
    nearest tenth, printed with exactly one decimal and followed by "%"; an
    integer argument is multiplied as an integer and printed as the float
    the product converts to.  In particular [format_percentage(0.153)] is
    "15.3%", [format_percentage(None)] is "N/A" and [format_percentage(1.0)]
    is "100.0%". *)
Theorem format_percentage_spec :
  format_percentage VNone = Ok "N/A"
  ∧ (∀ x, format_percentage (VFloat x)
          = Ok (Text.float_f false 1 (Float.mul x (Float.of_Z 100)) +:+ "%"))
  ∧ (∀ n f, Py.float_of_int (n * 100) = Ok f →
       format_percentage (VInt n) = Ok (Text.float_f false 1 f +:+ "%"))
  ∧ (∀ s m e, ∃ tenths frac,
       0 <= tenths
       ∧ nearest_to tenths 10 m e
       ∧ frac = Text.zero_pad 1 (Text.digits (tenths mod 10))
       ∧ String.length frac = 1%nat
       ∧ Text.float_f false 1 (S754_finite s m e)
         = Text.minus s +:+ Text.digits (tenths / 10) +:+ "." +:+ frac)
  ∧ (∀ s, Text.float_f false 1 (S754_zero s) = Text.minus s +:+ "0.0")
  ∧ format_percentage (VFloat (Float.of_ratio 153 1000)) = Ok "15.3%"
  ∧ format_percentage (VFloat (Float.of_Z 1)) = Ok "100.0%".
Proof.
  split; [reflexivity|]. split.
  { intros x. unfold format_percentage, Py.mul_int. now rewrite float_of_100. }
  split.
  { intros n f Hf. unfold format_percentage. simpl. now rewrite Hf. }
  split.
  { intros s m e. destruct (scaled_nearest 1 m e) as [Hpos Hnear].
    exists (Float.scaled 1 m e), (Text.zero_pad 1 (Text.digits (Float.scaled 1 m e mod 10))).
    split; [exact Hpos|]. split; [exact Hnear|]. split; [reflexivity|]. split.
    - apply (zero_pad_length 1 10); [vm_compute; reflexivity|].
      apply (Z.mod_pos_bound _ 10). lia.
    - reflexivity. }
  split; [now intros []|].
  split; vm_compute; reflexivity.
Qed.

(** Further values of the formatters: grouping, signs, integers and
    booleans, an argument above 1, rounding of a tie to the even digit, and
    the exceptions for text and containers. *)
Lemma formatter_examples :
  format_currency (VInt 1234567) = Ok "$1,234,567.00"
  ∧ format_currency (VInt (-5)) = Ok "$-5.00"
  ∧ format_currency (VBool true) = Ok "$1.00"
  ∧ format_currency (VFloat (Float.of_ratio 5 1000)) = Ok "$0.01"
  ∧ format_currency (VStr "12") = Raise ValueError
  ∧ format_currency (VDict ∅) = Raise TypeError
  ∧ format_percentage (VInt 2) = Ok "200.0%"
  ∧ format_percentage (VFloat (Float.of_ratio 25 10000)) = Ok "0.2%"
  ∧ format_percentage (VFloat (S754_zero false)) = Ok "0.0%"
  ∧ format_percentage (VStr "12") = Raise ValueError
  ∧ format_percentage (VList []) = Raise TypeError.
Proof. repeat split; vm_compute; reflexivity. Qed.

(** The values that equal 1: the integer, the boolean [True] and the float
    1.0. *)
Lemma eq_int_one v :
  Py.eq_int v 1 = true
  ↔ v = VInt 1 ∨ v = VBool true ∨ ∃ f, v = VFloat f ∧ Float.eq_Z f 1 = true.
Proof.
  split.
  - destruct v as [|[]|n|f|s|l|d]; simpl; try discriminate; intros H.
    + auto.
    + left. f_equal. now apply Z.eqb_eq.
    + right. right. now exists f.
  - intros [->|[->|(f & -> & H)]]; auto.
Qed.

(** The float literals of the examples are the doubles Python reads. *)
Lemma literals_nearest :
  is_nearest_double (Float.of_ratio 123456 10) 123456 10 = true
  ∧ is_nearest_double (Float.of_ratio 153 1000) 153 1000 = true.
Proof. split; vm_compute; reflexivity. Qed.

(** ** Concrete records *)

Lemma sample_record_report :
  run (get_school_metrics unused_repr) sample_record = Ok sample_report.
Proof. vm_compute. reflexivity. Qed.

(** C1, the claim as stated fails: a record whose ["latest"] entry is
    [null] is a string-keyed mapping, and the lookup of the table that goes
    through it raises [AttributeError], as does the aggregator. *)
Lemma null_latest_lookup_raises :
  (["latest"; "student"; "enrollment"], "undergrad_12_month", VStr "N/A")
    ∈ lookup_table
  ∧ run (get_path null_latest_record ["latest"; "student"; "enrollment"]
           "undergrad_12_month" (VStr "N/A")) null_latest_record
    = Raise AttributeError
  ∧ (∀ py_repr, run (get_school_metrics py_repr) null_latest_record
                = Raise AttributeError).
Proof.
  split; [apply list_elem_of_In; simpl; tauto|].
  split; [vm_compute; reflexivity|]. intros py_repr. vm_compute. reflexivity.
Qed.

Lemma lookups_total_witness :
  well_shaped sample_record = true
  ∧ run (get_school_metrics unused_repr) sample_record ≠ Raise AttributeError.
Proof.
  split; [vm_compute; reflexivity|].
  apply (lookups_total unused_repr sample_record). vm_compute. reflexivity.
Defined.

(** C2, the claim as stated fails: the report for [{}] has leaves that are
    not "N/A", the first of them the institution's name, which is [None]. *)
Lemma empty_record_leaf_not_sentinel :
  (∀ py_repr, run (get_school_metrics py_repr) empty_record = Ok empty_report)
  ∧ report_at ["Institution Overview"; "Name"] empty_report = Some (Leaf VNone)
  ∧ forallb (λ pv, is_sentinel pv.2) (leaves empty_report) = false.
Proof.
  split; [intros py_repr; vm_compute; reflexivity|].
  split; vm_compute; reflexivity.
Qed.

Lemma total_enrollment_derivation_witness :
  run (get_school_metrics unused_repr) sample_record = Ok sample_report
  ∧ total_enrollment sample_report = Ok 35000
  ∧ total_enrollment_text sample_report = Ok "35,000"
  ∧ run (get_school_metrics unused_repr) empty_record = Ok empty_report
  ∧ total_enrollment empty_report = Raise ValueError.
Proof.
  split; [exact sample_record_report|].
  destruct (total_enrollment_derivation unused_repr sample_record sample_report
              sample_record_report) as (Hsum & _ & _).
  destruct Hsum as [Htotal Htext]; [vm_compute; reflexivity..|].
  split; [exact Htotal|]. split; [exact Htext|].
  assert (Hempty : run (get_school_metrics unused_repr) empty_record
                   = Ok empty_report) by (vm_compute; reflexivity).
  split; [exact Hempty|].
  destruct (total_enrollment_derivation unused_repr empty_record empty_report
              Hempty) as (_ & Habsent & _).
  apply Habsent. vm_compute. reflexivity.
Defined.

Lemma graduation_rates_equal_witness :
  run (get_school_metrics unused_repr) sample_record = Ok sample_report
  ∧ ∃ rate,
      report_at ["Student Success"; "Graduation"; "4-year rate"] sample_report
      = Some (Leaf (VStr rate))
      ∧ report_at ["Student Success"; "Graduation"; "6-year rate"] sample_report
        = Some (Leaf (VStr rate))
      ∧ format_percentage
          (default VNone
             (value_at ["latest"; "completion"; "completion_rate_4yr_150nt"]
                sample_record))
        = Ok rate.
Proof.
  split; [exact sample_record_report|].
  exact (graduation_rates_equal unused_repr sample_record sample_report
           sample_record_report).
Defined.

Lemma student_faculty_ratio_witness :
  run (get_school_metrics unused_repr) empty_record = Ok empty_report
  ∧ report_at ["Enrollment & Faculty"; "Faculty"; "Student-Faculty Ratio"]
      empty_report
    = Some (Leaf (VStr "None:1"))
  ∧ run (get_school_metrics unused_repr) sample_record = Ok sample_report
  ∧ report_at ["Enrollment & Faculty"; "Faculty"; "Student-Faculty Ratio"]
      sample_report
    = Some (Leaf (VStr "17:1")).
Proof.
  assert (Hempty : run (get_school_metrics unused_repr) empty_record
                   = Ok empty_report) by (vm_compute; reflexivity).
  split; [exact Hempty|]. split.
  - apply (student_faculty_ratio unused_repr empty_record empty_report Hempty).
    vm_compute. reflexivity.
  - split; [exact sample_record_report|].
    exact (proj1 (student_faculty_ratio unused_repr sample_record sample_report
                    sample_record_report)).
Defined.

Lemma six_sections_witness :
  run (get_school_metrics unused_repr) sample_record = Ok sample_report
  ∧ ∃ sections,
      sample_report = Node sections
      ∧ sections.*1 = section_names
      ∧ Forall (λ kr, ∃ fields, kr.2 = Node fields ∧ fields ≠ []) sections.
Proof.
  split; [exact sample_record_report|].
  exact (six_sections unused_repr sample_record sample_report
           sample_record_report).
Defined.


(** ** The aggregator as a table *)

Lemma get_path_fails keys : ∀ obj last dflt σ,
  mappings_along keys obj = false →
  run (get_path obj keys last dflt) σ = Raise AttributeError.
Proof.
  induction keys as [|k keys IH]; intros obj last dflt σ Hm;
    unfold get_path; cbn [get_chain].
  - rewrite run_bind by apply readonly_ret. rewrite run_ret.
    cbn [mbind res_bind_inst res_bind]. rewrite run_py_get.
    now destruct obj; try discriminate.
  - rewrite run_bind by solve_readonly.
    rewrite run_bind by apply readonly_py_get. rewrite run_py_get.
    destruct obj as [| | | | | |d]; try reflexivity.
    cbn [mbind res_bind_inst res_bind]. cbn [mappings_along] in Hm.
    destruct (d !! k) as [o|]; [|discriminate]. cbn [default from_option id].
    specialize (IH o last dflt σ Hm). unfold get_path in IH.
    now rewrite run_bind in IH by apply readonly_get_chain.
Qed.

(** A chain of lookups is the lookup from the object it starts on. *)
Lemma run_get_path obj keys last dflt σ :
  run (get_path obj keys last dflt) σ = lookup_or obj keys last dflt.
Proof.
  unfold lookup_or. destruct (mappings_along keys obj) eqn:Hm.
  - now apply get_path_total.
  - now apply get_path_fails.
Qed.

Lemma run_py_get_lookup obj last dflt σ :
  run (py_get obj last dflt) σ = lookup_or obj [] last dflt.
Proof.
  rewrite run_py_get. unfold lookup_or.
  destruct obj as [| | | | | |d]; try reflexivity. simpl.
  now destruct (d !! last).
Qed.

(** A lookup that starts on what the record holds under [k], or on [{}], is
    the lookup from the record through [k]. *)
Lemma lookup_or_via d k keys last dflt :
  lookup_or (default (VDict ∅) (d !! k)) keys last dflt
  = lookup_or (VDict d) (k :: keys) last dflt.
Proof.
  unfold lookup_or. simpl. destruct (d !! k) as [o|]; simpl; [reflexivity|].
  rewrite mappings_along_empty.
  destruct keys; simpl; now rewrite lookup_empty.
Qed.

Section TableRefinement.

Variable py_repr : value → string.

Lemma layout_items_run r items : ∀ fields,
  (fix each (items : list (string * display))
       (fields : list (string * layout)) : Prop :=
     match items, fields with
     | [], [] => True
     | (k, d') :: items', (k', l') :: fields' =>
         k = k'
         ∧ (run (dict_display d') r = layout_report py_repr r l'
            ∧ readonly (dict_display d'))
         ∧ each items' fields'
     | _, _ => False
     end) items fields →
  run (display_items dict_display items) r
  = layout_items (layout_report py_repr r) fields
  ∧ readonly (display_items dict_display items).
Proof.
  induction items as [|[k d] items IH]; intros [|[k' l] fields]; simpl;
    try contradiction.
  - intros _. split; [reflexivity | apply readonly_ret].
  - intros (<- & [Hrun Hro] & Hrest). destruct (IH _ Hrest) as [IHrun IHro].
    split.
    + rewrite run_bind by exact Hro. rewrite Hrun.
      destruct (layout_report py_repr r l) as [x|e]; simpl; [|reflexivity].
      rewrite run_bind by exact IHro. rewrite IHrun.
      now destruct (layout_items _ fields).
    + apply readonly_bind; [exact Hro | intros x].
      apply readonly_bind; [exact IHro | intros xs; apply readonly_ret].
Qed.

(** A display that matches a layout computes the report of the layout. *)
Lemma matches_run r d : ∀ l,
  matches py_repr r d l →
  run (dict_display d) r = layout_report py_repr r l
  ∧ readonly (dict_display d).
Proof.
  induction d as [m|items IH] using display_ind'; intros [src|fields]; simpl;
    try contradiction.
  - tauto.
  - intros H.
    assert (Hitems :
      run (display_items dict_display items) r
      = layout_items (layout_report py_repr r) fields
      ∧ readonly (display_items dict_display items)).
    { apply layout_items_run. revert fields H.
      induction IH as [|[k d] items Hd _ IHitems]; intros [|[k' l] fields];
        simpl; try tauto.
      intros (Hk & Hm & Hrest). split; [exact Hk|]. split; [now apply Hd|].
      now apply IHitems. }
    destruct Hitems as [Hrun Hro]. split.
    + rewrite run_bind by exact Hro. rewrite Hrun.
      now destruct (layout_items _ fields).
    + apply readonly_bind; [exact Hro | intros; apply readonly_ret].
Qed.

(** Evaluates an expression of the display down to lookups from the record. *)
Ltac to_lookups :=
  unfold entry, text, call;
  repeat first
    [ rewrite run_bind by solve_readonly
    | rewrite run_get_path
    | rewrite run_py_get_lookup
    | rewrite lookup_or_via
    | rewrite run_ret
    | rewrite run_lift ].

Lemma metrics_display_matches d :
  matches py_repr (VDict d)
    (metrics_display py_repr (default (VDict ∅) (d !! "latest"))
       (default (VDict ∅) (d !! "school")))
    metrics_layout.
Proof.
  unfold metrics_display, metrics_layout, entry, text. simpl.
  repeat split; try solve_readonly.
  all: unfold field_value; to_lookups.
  all: repeat first
    [ reflexivity
    | progress cbn [mbind res_bind_inst res_bind]
    | progress to_lookups
    | match goal with
      | E : lookup_or ?r ?k ?l ?dflt = _ |- context [lookup_or ?r ?k ?l ?dflt] =>
          rewrite E
      | |- context [lookup_or ?r ?k ?l ?dflt] =>
          destruct (lookup_or r k l dflt) eqn:?
      | |- context [format_percentage ?v] => destruct (format_percentage v)
      | |- context [format_currency ?v] => destruct (format_currency v)
      | |- context [if ?b then _ else _] => destruct b
      end ].
Qed.

End TableRefinement.

(** ** Reports of a layout *)

Lemma layout_ind' (P : layout → Prop) :
  (∀ src, P (Field src)) →
  (∀ items, Forall (λ kl, P kl.2) items → P (Group items)) →
  ∀ l, P l.
Proof.
  intros HF HG. fix IH 1. intros [src|items]; [apply HF|].
  apply HG. induction items as [|[k l] rest IHrest]; constructor.
  - apply IH.
  - exact IHrest.
Qed.

Section LayoutReports.

Variable py_repr : value → string.
Variable r : value.

Lemma holds_field_ok fields lvs :
  Forall2 (holds_field py_repr r) fields lvs → Forall (field_ok py_repr r) fields.
Proof.
  induction 1 as [|ps pv fields lvs [_ Hv] _ IH]; constructor; [|exact IH].
  now exists pv.2.
Qed.

Lemma outcome_of_under k fields out :
  outcome_of py_repr r fields out →
  outcome_of py_repr r (map (λ ps, (k :: ps.1, ps.2)) fields)
    (match out with
     | Ok lvs => Ok (map (λ pv, (k :: pv.1, pv.2)) lvs)
     | Raise e => Raise e
     end).
Proof.
  destruct out as [lvs|e]; simpl.
  - induction 1 as [|ps pv fields lvs [Hp Hv] _ IH]; simpl; constructor;
      [|exact IH].
    split; simpl; [now f_equal | exact Hv].
  - intros (before & ps & after & -> & Hbefore & Hps).
    exists (map (λ ps, (k :: ps.1, ps.2)) before), (k :: ps.1, ps.2),
      (map (λ ps, (k :: ps.1, ps.2)) after).
    split; [now rewrite map_app|]. split; [|exact Hps].
    induction Hbefore as [|ps' before' [v Hv] _ IH]; constructor; [|exact IH].
    now exists v.
Qed.

Lemma outcome_of_app fields1 fields2 out1 out2 :
  outcome_of py_repr r fields1 out1 →
  outcome_of py_repr r fields2 out2 →
  outcome_of py_repr r (fields1 ++ fields2)
    (match out1 with
     | Ok lvs1 =>
         match out2 with
         | Ok lvs2 => Ok (lvs1 ++ lvs2)
         | Raise e => Raise e
         end
     | Raise e => Raise e
     end).
Proof.
  destruct out1 as [lvs1|e1]; simpl.
  - intros H1. destruct out2 as [lvs2|e2]; simpl.
    + intros H2. now apply Forall2_app.
    + intros (before & ps & after & -> & Hbefore & Hps).
      exists (fields1 ++ before), ps, after.
      split; [now rewrite <- app_assoc|]. split; [|exact Hps].
      apply Forall_app. split; [|exact Hbefore].
      exact (holds_field_ok _ _ H1).
  - intros (before & ps & after & -> & Hbefore & Hps) _.
    exists before, ps, (after ++ fields2).
    split; [now rewrite <- app_assoc|]. now split.
Qed.

Lemma layout_report_outcome l :
  outcome_of py_repr r (layout_fields l)
    (match layout_report py_repr r l with
     | Ok rep => Ok (leaves rep)
     | Raise e => Raise e
     end).
Proof.
  induction l as [src|items IH] using layout_ind'; simpl.
  - destruct (field_value py_repr src r) as [v|e] eqn:Hv; simpl.
    + constructor; [now split | constructor].
    + exists [], ([], src), []. now repeat split.
  - assert (Hitems :
      outcome_of py_repr r
        (flat_map (λ kl, map (λ ps, (kl.1 :: ps.1, ps.2)) (layout_fields kl.2))
           items)
        (match layout_items (layout_report py_repr r) items with
         | Ok xs =>
             Ok (flat_map (λ kv, map (λ pv, (kv.1 :: pv.1, pv.2)) (leaves kv.2))
                   xs)
         | Raise e => Raise e
         end)).
    { induction IH as [|[k l] rest Hl _ IHrest]; simpl; [constructor|].
      apply (outcome_of_under k) in Hl.
      pose proof (outcome_of_app _ _ _ _ Hl IHrest) as H. simpl in H.
      destruct (layout_report py_repr r l) as [x|e]; simpl in *; [|exact H].
      now destruct (layout_items (layout_report py_repr r) rest). }
    now destruct (layout_items (layout_report py_repr r) items).
Qed.

End LayoutReports.

Section TableProperties.

Variable py_repr : value → string.

(** A record that is no dictionary fails on the first field as well. *)
Lemma table_report_layout r :
  table_report py_repr r = layout_report py_repr r metrics_layout.
Proof.
  unfold table_report. destruct r; try reflexivity.
Qed.

Lemma metrics_layout_run r :
  run (get_school_metrics py_repr) r = layout_report py_repr r metrics_layout.
Proof.
  rewrite <- table_report_layout. unfold get_school_metrics, table_report.
  rewrite run_bind by apply readonly_load. rewrite run_load.
  cbn [mbind res_bind_inst res_bind].
  rewrite run_bind by apply readonly_py_get. rewrite run_py_get.
  destruct r as [| | | | | |d]; try reflexivity.
  cbn [mbind res_bind_inst res_bind].
  rewrite run_bind by apply readonly_py_get. rewrite run_py_get.
  cbn [mbind res_bind_inst res_bind].
  apply matches_run, metrics_display_matches.
Qed.

(** X1. The aggregator is the table: on every record, its outcome (the report
    or the exception) is that of reading the 41 fields of [metrics_layout]
    in order, once the record is known to be a dictionary. *)
Theorem get_school_metrics_table r :
  run (get_school_metrics py_repr) r = table_report py_repr r.
Proof.
  rewrite metrics_layout_run. unfold table_report.
  destruct r; reflexivity.
Qed.

(** X2. Every report of the aggregator has the 41 fields of the table, under
    the same sections and groups and in the same order, each holding the
    value the table gives for the record. *)
Theorem report_fields r rep :
  run (get_school_metrics py_repr) r = Ok rep →
  Forall2 (holds_field py_repr r) (layout_fields metrics_layout) (leaves rep).
Proof.
  rewrite metrics_layout_run. intros Hrep.
  pose proof (layout_report_outcome py_repr r metrics_layout) as H.
  now rewrite Hrep in H.
Qed.

(** X3. The aggregator returns a report exactly when every field of the table
    has a value: its lookups meet dictionaries only and its formatter
    accepts what was found. *)
Theorem returns_iff_fields_ok r :
  (∃ rep, run (get_school_metrics py_repr) r = Ok rep)
  ↔ Forall (field_ok py_repr r) (layout_fields metrics_layout).
Proof.
  rewrite metrics_layout_run.
  pose proof (layout_report_outcome py_repr r metrics_layout) as H.
  destruct (layout_report py_repr r metrics_layout) as [rep|e].
  - split; [intros _ | now exists rep]. exact (holds_field_ok _ _ _ _ H).
  - split; [intros [rep Hrep]; discriminate|]. intros Hall.
    destruct H as (before & ps & after & Hfields & _ & Hps).
    rewrite Hfields in Hall. apply Forall_app in Hall as [_ Hall].
    apply Forall_cons in Hall as [[v Hv] _]. congruence.
Qed.

(** X4. When the aggregator raises, the exception is that of the first field
    of the table, in source order, that has no value. *)
Theorem raises_first_failure r e :
  run (get_school_metrics py_repr) r = Raise e →
  ∃ before ps after,
    layout_fields metrics_layout = before ++ ps :: after
    ∧ Forall (field_ok py_repr r) before
    ∧ field_value py_repr ps.2 r = Raise e.
Proof.
  rewrite metrics_layout_run. intros He.
  pose proof (layout_report_outcome py_repr r metrics_layout) as H.
  now rewrite He in H.
Qed.

End TableProperties.

(** ** What the aggregator reads *)
Section Locality.

Variable py_repr : value → string.

Lemma field_value_ext r1 r2 src :
  Forall (λ lk, lookup_or r1 lk.1.1 lk.1.2 lk.2 = lookup_or r2 lk.1.1 lk.1.2 lk.2)
    (source_lookups src) →
  field_value py_repr src r1 = field_value py_repr src r2.
Proof.
  destruct src; cbn [source_lookups field_value]; intros H;
    repeat (apply Forall_cons in H as [?Heq H]); cbn [fst snd] in *;
    repeat match goal with
           | Heq : lookup_or _ _ _ _ = _ |- _ => rewrite Heq; clear Heq
           end; reflexivity.
Qed.

Lemma layout_report_ext r1 r2 l :
  Forall (λ ps, field_value py_repr ps.2 r1 = field_value py_repr ps.2 r2)
    (layout_fields l) →
  layout_report py_repr r1 l = layout_report py_repr r2 l.
Proof.
  induction l as [src|items IH] using layout_ind'; simpl; intros H.
  - apply Forall_cons in H as [H _]. simpl in H. now rewrite H.
  - assert (Hitems : layout_items (layout_report py_repr r1) items
                     = layout_items (layout_report py_repr r2) items).
    { induction IH as [|[k l] rest Hl _ IHrest]; simpl; [reflexivity|].
      simpl in H, Hl. apply Forall_app in H as [H1 H2].
      rewrite Hl, IHrest; [reflexivity | exact H2 |].
      clear -H1. induction (layout_fields l) as [|ps fields IHf]; [constructor|].
      simpl in H1. apply Forall_cons in H1 as [Hps H1].
      constructor; [exact Hps | now apply IHf]. }
    now rewrite Hitems.
Qed.

(** X5. The outcome of the aggregator depends on the lookups of the table only:
    two records on which these lookups agree give the same report, or the
    same exception. *)
Theorem report_depends_on_lookups r1 r2 :
  same_lookups r1 r2 →
  run (get_school_metrics py_repr) r1 = run (get_school_metrics py_repr) r2.
Proof.
  intros H. rewrite !metrics_layout_run. apply layout_report_ext.
  eapply Forall_impl; [exact H|]. intros ps. apply field_value_ext.
Qed.

(** X6. A key of the record other than "latest" and "school" is never read:
    adding it, or changing what it holds, changes neither the report nor the
    exception. *)
Theorem other_keys_ignored d k v :
  k ≠ "latest" → k ≠ "school" →
  run (get_school_metrics py_repr) (VDict (<[k:=v]> d))
  = run (get_school_metrics py_repr) (VDict d).
Proof.
  intros Hlatest Hschool. rewrite !metrics_layout_run. apply layout_report_ext.
  unfold metrics_layout. cbn [layout_fields flat_map map app fst snd].
  repeat constructor; apply field_value_ext; cbn [source_lookups];
    repeat constructor; unfold lookup_or; cbn [fst snd app mappings_along value_at];
    rewrite lookup_insert_ne by congruence; reflexivity.
Qed.

End Locality.

(** ** The formatters: sentinel and exceptions *)

Lemma append_percent_not_sentinel s : s +:+ "%" ≠ "N/A".
Proof.
  destruct s as [|a [|b [|c s]]]; simpl; try discriminate.
  destruct s; discriminate.
Qed.

Lemma float_of_small_int :
  Py.float_of_int 0 = Ok (S754_zero false)
  ∧ Py.float_of_int 1 = Ok (Float.of_Z 1)
  ∧ Py.float_of_int 100 = Ok (Float.of_Z 100).
Proof. repeat split; vm_compute; reflexivity. Qed.

(** The values equal to 0: the integer, [False] and the float zeros. *)
Lemma eq_int_zero v :
  Py.eq_int v 0 = true
  ↔ v = VInt 0 ∨ v = VBool false ∨ ∃ s, v = VFloat (S754_zero s).
Proof.
  split.
  - intros H. destruct v as [|[]|n|f|t|l|d]; try discriminate H.
    + auto.
    + left. f_equal. now apply Z.eqb_eq.
    + destruct f as [s|s| |s m e]; try discriminate H.
      * right. right. now exists s.
      * rewrite finite_float_nonzero in H. discriminate H.
  - intros [->|[->|[s ->]]]; reflexivity.
Qed.

(** X7. [format_currency] returns the sentinel "N/A" exactly for [None], for
    the integer 0, for [False] and for a float zero of either sign. *)
Theorem format_currency_sentinel_iff v :
  format_currency v = Ok "N/A"
  ↔ v = VNone ∨ v = VInt 0 ∨ v = VBool false ∨ ∃ s, v = VFloat (S754_zero s).
Proof.
  rewrite <- eq_int_zero. split.
  - unfold format_currency. intros H.
    destruct (Py.eq_int v 0) eqn:Hzero; [now right|].
    destruct v; [now left|..];
      destruct (Py.format_f true 2 _); simpl in H; discriminate.
  - intros [->|Hzero]; [reflexivity|].
    unfold format_currency. rewrite Hzero. now destruct v.
Qed.

(** X8. [format_percentage] returns the sentinel "N/A" for [None] only: a share
    of zero is not turned into the sentinel. *)
Theorem format_percentage_sentinel_iff v :
  format_percentage v = Ok "N/A" ↔ v = VNone.
Proof.
  split; [|now intros ->].
  unfold format_percentage. intros H.
  destruct v; [reflexivity|..];
    destruct (Py.mul_int _ 100) as [p|]; simpl in H; try discriminate;
    destruct (Py.format_f false 1 p) as [?t|]; simpl in H; try discriminate;
    injection H as H; now apply append_percent_not_sentinel in H.
Qed.

(** X9. [format_currency] raises in three cases only: [ValueError] on text,
    [TypeError] on a list or a dictionary, and [OverflowError] on an
    integer too large for a float.  It returns on [None], on every float
    and on booleans. *)
Theorem format_currency_raises_iff v e :
  format_currency v = Raise e ↔
  match v with
  | VStr _ => e = ValueError
  | VList _ | VDict _ => e = TypeError
  | VInt n => Float.is_finite (Float.of_Z n) = false ∧ e = OverflowError
  | VNone | VBool _ | VFloat _ => False
  end.
Proof.
  unfold format_currency. destruct v as [|[]|n|f|s|l|d]; simpl.
  - split; [discriminate | contradiction].
  - split; [discriminate | contradiction].
  - split; [discriminate | contradiction].
  - destruct (Z.eqb_spec n 0) as [->|Hn].
    + split; [discriminate | now intros [? _]].
    + unfold Py.float_of_int.
      destruct (Float.is_finite (Float.of_Z n)); simpl.
      * split; [discriminate | now intros [? _]].
      * split; [now intros [= <-] | now intros [_ ->]].
  - destruct (Float.eq_Z f 0); split; (discriminate || contradiction).
  - split; [now intros [= <-] | now intros ->].
  - split; [now intros [= <-] | now intros ->].
  - split; [now intros [= <-] | now intros ->].
Qed.

(** X10. [format_percentage] raises in three cases only: [ValueError] on text,
    [TypeError] on a list or a dictionary, and [OverflowError] on an
    integer whose hundredfold is too large for a float.  It returns on
    [None], on every float and on booleans. *)
Theorem format_percentage_raises_iff v e :
  format_percentage v = Raise e ↔
  match v with
  | VStr _ => e = ValueError
  | VList _ | VDict _ => e = TypeError
  | VInt n => Float.is_finite (Float.of_Z (n * 100)) = false ∧ e = OverflowError
  | VNone | VBool _ | VFloat _ => False
  end.
Proof.
  unfold format_percentage, Py.mul_int.
  destruct float_of_small_int as (H0 & _ & H100).
  destruct v as [|[]|n|f|s|l|d]; cbn [mbind res_bind_inst res_bind Py.format_f Py.b2z].
  - split; [discriminate | contradiction].
  - change (1 * 100) with 100. rewrite H100. split; [discriminate | contradiction].
  - change (0 * 100) with 0. rewrite H0. split; [discriminate | contradiction].
  - unfold Py.float_of_int.
    destruct (Float.is_finite (Float.of_Z (n * 100))); simpl.
    + split; [discriminate | now intros [? _]].
    + split; [now intros [= <-] | now intros [_ ->]].
  - rewrite H100. split; [discriminate | contradiction].
  - split; [now intros [= <-] | now intros ->].
  - split; [now intros [= <-] | now intros ->].
  - split; [now intros [= <-] | now intros ->].
Qed.

(** ** The demographic chart *)

Lemma slices_cons k v items :
  slices ((k, v) :: items)
  = match slice_of v with
    | Some p => (k, p) :: slices items
    | None => slices items
    end.
Proof. unfold slices. simpl. now destruct (slice_of v). Qed.

Lemma demographic_series_slices items : ∀ labels values,
  forallb (λ kv, number_or_none kv.2) items = true →
  demographic_series items labels values
  = Ok (labels ++ (slices items).*1, values ++ (slices items).*2).
Proof.
  destruct float_of_small_int as (_ & _ & H100).
  induction items as [|[k v] items IH]; intros labels values Hnum.
  - simpl. now rewrite !app_nil_r.
  - simpl in Hnum. apply andb_true_iff in Hnum as [Hv Hnum].
    rewrite slices_cons. cbn [demographic_series].
    destruct v as [|b|n|x|s|l|d]; try discriminate;
      cbn [py_gt_int slice_of mbind res_bind_inst res_bind Py.mul_int].
    + now apply IH.
    + destruct (Py.b2z b >? 0); rewrite IH by exact Hnum;
        rewrite ?fmap_cons; cbn [fst snd]; now rewrite <- ?app_assoc.
    + destruct (n >? 0); rewrite IH by exact Hnum;
        rewrite ?fmap_cons; cbn [fst snd]; now rewrite <- ?app_assoc.
    + destruct (float_gt_Z x 0); [rewrite H100|];
        cbn [mbind res_bind_inst res_bind]; rewrite IH by exact Hnum;
        rewrite ?fmap_cons; cbn [fst snd]; now rewrite <- ?app_assoc.
Qed.

(** X11. On a dictionary whose values are numbers or [None],
    [create_demographic_chart] raises nothing.  It keeps the categories
    whose value is a number above 0, in the order of the dictionary, each
    with a hundred times its value; it returns no chart when none is kept
    and otherwise the pie chart of the kept names and values. *)
Theorem create_demographic_chart_slices items :
  forallb (λ kv, number_or_none kv.2) items = true →
  create_demographic_chart items
  = Ok (match slices items with
        | [] => None
        | kept => Some {| pie_values := kept.*2;
                          pie_names := kept.*1;
                          pie_title := "Student Demographics" |}
        end).
Proof.
  intros Hnum. unfold create_demographic_chart.
  rewrite (demographic_series_slices items [] [] Hnum). simpl.
  now destruct (slices items).
Qed.

Lemma demographic_series_outcome items : ∀ labels values,
  match demographic_series items labels values with
  | Ok _ => forallb (λ kv, number_or_none kv.2) items = true
  | Raise e => e = TypeError ∧ forallb (λ kv, number_or_none kv.2) items = false
  end.
Proof.
  destruct float_of_small_int as (_ & _ & H100).
  induction items as [|[k v] items IH]; intros labels values;
    cbn [demographic_series forallb fst snd]; [reflexivity|].
  destruct v as [|b|n|x|s|l|d];
    cbn [py_gt_int mbind res_bind_inst res_bind Py.mul_int number_or_none andb];
    try (now split).
  - apply IH.
  - destruct (Py.b2z b >? 0); apply IH.
  - destruct (n >? 0); apply IH.
  - destruct (float_gt_Z x 0); [rewrite H100|];
      cbn [mbind res_bind_inst res_bind]; apply IH.
Qed.

(** X12. [create_demographic_chart] raises exactly when a value of the
    dictionary is text, a list or a dictionary, and what it raises then is
    [TypeError], from comparing that value with 0. *)
Theorem create_demographic_chart_raises_iff items e :
  create_demographic_chart items = Raise e
  ↔ e = TypeError ∧ forallb (λ kv, number_or_none kv.2) items = false.
Proof.
  unfold create_demographic_chart.
  pose proof (demographic_series_outcome items [] []) as H.
  destruct (demographic_series items [] []) as [series|e'];
    cbn [mbind res_bind_inst res_bind].
  - split.
    + now destruct series.2.
    + intros [_ Hnum]. congruence.
  - destruct H as [-> Hnum]. split.
    + now intros [= <-].
    + now intros [-> _].
Qed.

(** ** The page *)

Lemma emit_bind {B : Type} (c : St.call) (k : unit → UI B) log :
  (emit c ≫= k) log = k tt (log ++ [c]).
Proof. reflexivity. Qed.

Lemma eval_bind {A B : Type} (x : res A) (k : A → UI B) log :
  (eval x ≫= k) log
  = match x with
    | Ok a => k a log
    | Raise e => (Raise e, log)
    end.
Proof. now destruct x. Qed.

Lemma res_bind_ok {A B : Type} (x : res A) (k : A → res B) b :
  x ≫= k = Ok b → ∃ a, x = Ok a ∧ k a = Ok b.
Proof. destruct x as [a|e]; [|discriminate]. intros H. now exists a. Qed.

Lemma layout_items_ok (build : layout → res report) items : ∀ xs,
  layout_items build items = Ok xs →
  Forall2 (λ kl kx, kl.1 = kx.1 ∧ build kl.2 = Ok kx.2) items xs.
Proof.
  induction items as [|[k l] rest IH]; simpl; intros xs.
  - intros [= <-]. constructor.
  - destruct (build l) as [x|e] eqn:Hx; [|discriminate]. simpl.
    destruct (layout_items build rest) as [xs'|e]; [|discriminate]. simpl.
    intros [= <-]. constructor; [now split | now apply IH].
Qed.

Lemma layout_report_at py_repr r path : ∀ l rep l',
  layout_report py_repr r l = Ok rep →
  layout_at path l = Some l' →
  ∃ rep', report_at path rep = Some rep'
          ∧ layout_report py_repr r l' = Ok rep'.
Proof.
  induction path as [|k path IH]; intros l rep l' Hrep Hat.
  - injection Hat as <-. now exists rep.
  - destruct l as [src|items]; [discriminate|]. simpl in Hrep, Hat.
    destruct (layout_items _ items) as [xs|e] eqn:Hxs; [|discriminate].
    injection Hrep as <-. apply layout_items_ok in Hxs.
    destruct (list_find _ items) as [[i kl]|] eqn:Hfind; [|discriminate].
    simpl in Hat.
    destruct (list_find_items (λ l x, layout_report py_repr r l = Ok x)
                k items xs Hxs i kl Hfind) as (kx & Hkx & Hx).
    simpl. rewrite Hkx. simpl. eapply IH; [exact Hx | exact Hat].
Qed.

(** The entry of a report under the path of a field is the value the table
    gives for the record. *)
Lemma report_at_field py_repr r rep path src :
  run (get_school_metrics py_repr) r = Ok rep →
  layout_at path metrics_layout = Some (Field src) →
  ∃ v, field_value py_repr src r = Ok v ∧ report_at path rep = Some (Leaf v).
Proof.
  rewrite metrics_layout_run. intros Hrep Hat.
  destruct (layout_report_at _ _ _ _ _ _ Hrep Hat) as (x & Hx & Hv).
  simpl in Hv. destruct (field_value py_repr src r) as [v|e]; [|discriminate].
  injection Hv as <-. now exists v.
Qed.

(** A lookup that finds something else than its default found it in the
    record. *)
Lemma lookup_or_found r keys last dflt v :
  lookup_or r keys last dflt = Ok v → v ≠ dflt →
  value_at (keys ++ [last]) r = Some v.
Proof.
  unfold lookup_or. destruct (mappings_along keys r); [|discriminate].
  intros [= <-]. now destruct (value_at (keys ++ [last]) r).
Qed.

Section PageProperties.

Variable py_repr : value → string.
Variable float_commas : spec_float → string.
Variable strtod : bool → Z → Z → spec_float.
Variable report_repr : report → string.

(** X13. The loop over the institution's overview writes one line for every
    item but "Name", in order, and raises nothing. *)
Theorem write_profile_lines items log :
  write_profile py_repr report_repr items log
  = (Ok tt, log ++ profile_lines py_repr report_repr items).
Proof.
  unfold profile_lines. revert log.
  induction items as [|[key value] items IH]; intros log; simpl.
  - now rewrite app_nil_r.
  - destruct (String.eqb key "Name"); simpl.
    + apply IH.
    + unfold mbind, UI_bind, emit. rewrite IH. now rewrite <- app_assoc.
Qed.

Lemma metric_each_run items : ∀ log,
  metric_each items log
  = (Ok tt, log ++ map (λ kv, St.metric kv.1 kv.2) items).
Proof.
  induction items as [|[category amount] items IH]; intros log; simpl.
  - now rewrite app_nil_r.
  - unfold mbind, UI_bind, emit. rewrite IH. now rewrite <- app_assoc.
Qed.

Lemma loop_bind {B : Type} (m : UI unit) (k : unit → UI B) log calls :
  (∀ log, m log = (Ok tt, log ++ calls)) →
  (m ≫= k) log = k tt (log ++ calls).
Proof. intros Hm. unfold mbind, UI_bind. now rewrite Hm. Qed.

(** X14. A school that [fetch_school_data] did not return makes the page raise
    [KeyError] as soon as it is selected, after the side bar's title, the
    select box and the divider. *)
Theorem main_unknown_school (schools : gmap string value) selected :
  schools !! selected = None →
  main py_repr float_commas strtod report_repr (VDict schools) selected []
  = (Raise KeyError,
     [ St.set_page_config "College Metrics Explorer" "wide";
       St.title (Leaf (VStr "College Explorer"));
       St.selectbox "Select a School" SAMPLE_SCHOOLS;
       St.divider ]).
Proof.
  intros Hnone. unfold main. rewrite !emit_bind, eval_bind.
  unfold py_subscript. now rewrite Hnone.
Qed.

Lemma format_currency_of_zero v :
  Py.eq_int v 0 = true → format_currency v = Ok "N/A".
Proof. intros Hv. unfold format_currency. rewrite Hv. now destruct v. Qed.

(** An entry of the report read by three subscripts is the field the table
    has under these three names. *)
Lemma entry_of_field r rep section group name src x1 x2 :
  run (get_school_metrics py_repr) r = Ok rep →
  layout_at [section; group; name] metrics_layout = Some (Field src) →
  Py.getitem rep section = Ok x1 →
  Py.getitem x1 group = Ok x2 →
  ∃ v, field_value py_repr src r = Ok v ∧ Py.getitem x2 name = Ok (Leaf v).
Proof.
  intros Hrep Hat H1 H2.
  destruct (report_at_field _ _ _ _ _ Hrep Hat) as (v & Hv & Hx).
  exists v. split; [exact Hv|].
  apply report_at_getitem in Hx as (y1 & Hy1 & Hx).
  rewrite H1 in Hy1. injection Hy1 as <-.
  apply report_at_getitem in Hx as (y2 & Hy2 & Hx).
  rewrite H2 in Hy2. injection Hy2 as <-.
  apply report_at_getitem in Hx as (y3 & Hy3 & Hx).
  now injection Hx as ->.
Qed.

(** The sidebar's lookups are lookups from the record. *)
Lemma sidebar_lookup r latest keys last v :
  run (py_get r "latest" (VDict ∅)) r = Ok latest →
  run (get_path latest keys last VNone) r = Ok v →
  lookup_or r ("latest" :: keys) last VNone = Ok v.
Proof.
  rewrite run_py_get, run_get_path.
  destruct r as [| | | | | |d]; try discriminate.
  intros [= <-]. now rewrite lookup_or_via.
Qed.

Lemma size_present r v s :
  lookup_or r ["latest"; "student"] "size" VNone = Ok v →
  format_commas float_commas v = Ok s →
  present r ["latest"; "student"; "size"].
Proof.
  intros Hv Hs. exists v.
  assert (Hnone : v ≠ VNone) by (intros ->; discriminate).
  split; [|exact Hnone]. exact (lookup_or_found _ _ _ _ _ Hv Hnone).
Qed.

Lemma enrollment_present r keys last v n :
  field_value py_repr (Raw keys last (VStr "N/A")) r = Ok v →
  Py.int v = Ok n →
  present r (keys ++ [last]).
Proof.
  simpl. intros Hv Hn. exists v.
  split; [|intros ->; discriminate].
  apply (lookup_or_found _ _ _ _ _ Hv). intros ->. discriminate.
Qed.

Lemma share_present r keys last v x :
  field_value py_repr (Percentage keys last) r = Ok v →
  percent_number strtod (Leaf v) = Ok x →
  present r (keys ++ [last]).
Proof.
  simpl. destruct (lookup_or r keys last VNone) as [w|] eqn:Hw; [|discriminate].
  simpl. destruct (format_percentage w) as [s|] eqn:Hs; [|discriminate].
  simpl. intros [= <-] Hx. exists w.
  assert (Hnone : w ≠ VNone).
  { intros ->. injection Hs as <-. vm_compute in Hx. discriminate. }
  split; [|exact Hnone]. exact (lookup_or_found _ _ _ _ _ Hw Hnone).
Qed.

Lemma earnings_present r keys last v x :
  field_value py_repr (Currency keys last) r = Ok v →
  dollar_number strtod (Leaf v) = Ok x →
  present_nonzero r (keys ++ [last]).
Proof.
  simpl. destruct (lookup_or r keys last VNone) as [w|] eqn:Hw; [|discriminate].
  simpl. destruct (format_currency w) as [s|] eqn:Hs; [|discriminate].
  simpl. intros [= <-] Hx. exists w.
  assert (Hzero : Py.eq_int w 0 = false).
  { destruct (Py.eq_int w 0) eqn:Hz; [|reflexivity].
    rewrite (format_currency_of_zero _ Hz) in Hs. injection Hs as <-.
    vm_compute in Hx. discriminate. }
  assert (Hnone : w ≠ VNone).
  { intros ->. injection Hs as <-. vm_compute in Hx. discriminate. }
  split; [exact (lookup_or_found _ _ _ _ _ Hw Hnone) | now split].
Qed.

(** Takes one step of the page in [H : page log = (Ok tt, log')]: a call
    that is made, or a value that has to be there. *)
Ltac page_step H :=
  first
    [ rewrite emit_bind in H
    | rewrite (loop_bind _ _ _ _ (write_profile_lines _)) in H
    | rewrite (loop_bind _ _ _ _ (metric_each_run _)) in H
    | rewrite eval_bind in H;
      lazymatch type of H with
      | match ?x with _ => _ end = _ =>
          let E := fresh "E" in destruct x eqn:E; [|discriminate H]
      | _ => idtac
      end ].

(** X15. The page is rendered to the end only for a school whose record holds,
    none of them [null]: the size, the undergraduate and the graduate
    enrollment, the shares of men and of women, and the median earnings 6, 8
    and 10 years after entry, these three not 0 either. *)
Theorem main_returns_only_if schools selected log :
  main py_repr float_commas strtod report_repr schools selected [] = (Ok tt, log) →
  ∃ cached r,
    py_subscript schools selected = Ok cached
    ∧ py_subscript cached "raw_data" = Ok r
    ∧ Forall (present r) required_paths
    ∧ Forall (present_nonzero r) earnings_paths.
Proof.
  intros H. unfold main in H.
  repeat page_step H. clear H.
  exists a, a0. split; [reflexivity|]. split; [exact E0|].
  pose proof (sidebar_lookup _ _ _ _ _ E1 E4) as Hsize.
  apply res_bind_ok in E19 as (u & Hu & Hui).
  apply res_bind_ok in E20 as (g & Hg & Hgi).
  destruct (entry_of_field _ _ "Enrollment & Faculty" "Student Body"
              "Undergraduate Enrollment" _ _ _
              E10 eq_refl E16 E17) as (vu & Hvu & Hu').
  destruct (entry_of_field _ _ "Enrollment & Faculty" "Student Body"
              "Graduate Enrollment" _ _ _
              E10 eq_refl E16 E17) as (vg & Hvg & Hg').
  rewrite Hu in Hu'. injection Hu' as ->.
  rewrite Hg in Hg'. injection Hg' as ->.
  apply res_bind_ok in E23 as (gender & Hgender & Hmen).
  apply res_bind_ok in Hmen as (men & Hmen & Hmenx).
  rewrite Hgender in E24. cbn [mbind res_bind_inst res_bind] in E24.
  apply res_bind_ok in E24 as (women & Hwomen & Hwomenx).
  destruct (entry_of_field _ _ "Demographics" "Gender"
              "Men" _ _ _ E10 eq_refl E22 Hgender)
    as (vm & Hvm & Hmen').
  destruct (entry_of_field _ _ "Demographics" "Gender"
              "Women" _ _ _ E10 eq_refl E22 Hgender)
    as (vw & Hvw & Hwomen').
  rewrite Hmen in Hmen'. injection Hmen' as ->.
  rewrite Hwomen in Hwomen'. injection Hwomen' as ->.
  apply res_bind_ok in E41 as (outcomes & Houtcomes & Hearnings).
  apply res_bind_ok in E42 as (t6 & Ht6 & Hx6).
  apply res_bind_ok in E43 as (t8 & Ht8 & Hx8).
  apply res_bind_ok in E44 as (t10 & Ht10 & Hx10).
  destruct (entry_of_field _ _ "Career Outcomes" "Median Earnings"
              "6 years after entry" _ _ _
              E10 eq_refl Houtcomes Hearnings) as (v6 & Hv6 & Ht6').
  destruct (entry_of_field _ _ "Career Outcomes" "Median Earnings"
              "8 years after entry" _ _ _
              E10 eq_refl Houtcomes Hearnings) as (v8 & Hv8 & Ht8').
  destruct (entry_of_field _ _ "Career Outcomes" "Median Earnings"
              "10 years after entry" _ _ _
              E10 eq_refl Houtcomes Hearnings) as (v10 & Hv10 & Ht10').
  rewrite Ht6 in Ht6'. injection Ht6' as ->.
  rewrite Ht8 in Ht8'. injection Ht8' as ->.
  rewrite Ht10 in Ht10'. injection Ht10' as ->.
  split.
  - repeat constructor.
    + exact (size_present _ _ _ Hsize E5).
    + exact (enrollment_present _ _ _ _ _ Hvu Hui).
    + exact (enrollment_present _ _ _ _ _ Hvg Hgi).
    + exact (share_present _ _ _ _ _ Hvm Hmenx).
    + exact (share_present _ _ _ _ _ Hvw Hwomenx).
  - repeat constructor.
    + exact (earnings_present _ _ _ _ _ Hv6 Hx6).
    + exact (earnings_present _ _ _ _ _ Hv8 Hx8).
    + exact (earnings_present _ _ _ _ _ Hv10 Hx10).
Qed.

End PageProperties.

(** ** Text read back as numbers *)

Lemma chars_app s1 s2 :
  list_ascii_of_string (s1 +:+ s2)
  = list_ascii_of_string s1 ++ list_ascii_of_string s2.
Proof. induction s1 as [|a s1 IH]; simpl; [reflexivity | now rewrite IH]. Qed.

(** What a character that is a decimal digit is not. *)
Lemma digit_facts a :
  Text.is_digit a = true →
  Text.is_space a = false
  ∧ Ascii.eqb a "_" = false ∧ Ascii.eqb a "%" = false
  ∧ Ascii.eqb a "$" = false ∧ Ascii.eqb a "," = false
  ∧ Ascii.eqb a "+" = false ∧ Ascii.eqb a "-" = false
  ∧ Ascii.eqb a "." = false
  ∧ Str.lower a = a
  ∧ Ascii.eqb a "i" = false ∧ Ascii.eqb a "n" = false
  ∧ 0 <= Z.of_nat (nat_of_ascii a) - 48 <= 9.
Proof.
  destruct a as [[] [] [] [] [] [] [] []]; try discriminate; intros _;
    vm_compute; repeat split; congruence.
Qed.

Lemma pretty_N_char_digit x :
  (x < 10)%N →
  Text.is_digit (pretty_N_char x) = true
  ∧ Z.of_nat (nat_of_ascii (pretty_N_char x)) - 48 = Z.of_N x.
Proof.
  intros Hx.
  assert (x = 0 ∨ x = 1 ∨ x = 2 ∨ x = 3 ∨ x = 4 ∨ x = 5 ∨ x = 6 ∨ x = 7
          ∨ x = 8 ∨ x = 9)%N as Hcases by lia.
  repeat destruct Hcases as [->|Hcases]; try subst x; now vm_compute.
Qed.

Lemma digits_value_app l1 : ∀ l2 acc,
  Str.digits_value (l1 ++ l2) acc = Str.digits_value l2 (Str.digits_value l1 acc).
Proof. induction l1 as [|a l1 IH]; intros l2 acc; simpl; [reflexivity | apply IH]. Qed.

(** The digits [pretty] puts in front of an accumulator. *)
Lemma pretty_N_go_chars x : ∀ s,
  ∃ ds,
    list_ascii_of_string (pretty_N_go x s) = ds ++ list_ascii_of_string s
    ∧ Forall (λ a, Text.is_digit a = true) ds
    ∧ ((0 < x)%N → ds ≠ [])
    ∧ ∀ acc, Str.digits_value ds acc
             = acc * 10 ^ Z.of_nat (length ds) + Z.of_N x.
Proof.
  induction (N.lt_wf_0 x) as [x _ IH]; intros s.
  assert (x = 0 ∨ 0 < x)%N as [->|Hx] by lia.
  - exists []. rewrite pretty_N_go_0. repeat split; [constructor | lia |].
    intros acc. simpl. lia.
  - rewrite pretty_N_go_step by exact Hx.
    destruct (IH (x `div` 10)%N (N.div_lt x 10 Hx eq_refl)
                (String (pretty_N_char (x `mod` 10)) s))
      as (ds & Hds & Hdigits & _ & Hvalue).
    destruct (pretty_N_char_digit (x `mod` 10)%N) as [Hc Hcv];
      [now apply N.mod_lt|].
    exists (ds ++ [pretty_N_char (x `mod` 10)]). repeat split.
    + rewrite Hds. simpl. now rewrite <- app_assoc.
    + apply Forall_app. split; [exact Hdigits | now repeat constructor].
    + intros _. now destruct ds.
    + intros acc. rewrite digits_value_app, Hvalue. simpl. rewrite Hcv.
      rewrite length_app, Nat2Z.inj_add, Z.pow_add_r by lia. simpl length.
      change (10 ^ Z.of_nat 1) with 10.
      pose proof (N.div_mod x 10 ltac:(lia)) as Hdm.
      rewrite N2Z.inj_div, N2Z.inj_mod. rewrite N2Z.inj_div, N2Z.inj_mod in *.
      change (Z.of_N 10) with 10 in *.
      pose proof (Z.div_mod (Z.of_N x) 10 ltac:(lia)). lia.
Qed.

(** The decimal text of a natural number: digits only, at least one, and
    they read back as the number. *)
Lemma digits_chars k :
  0 <= k →
  let ds := list_ascii_of_string (Text.digits k) in
  Forall (λ a, Text.is_digit a = true) ds
  ∧ ds ≠ []
  ∧ ∀ acc, Str.digits_value ds acc = acc * 10 ^ Z.of_nat (length ds) + k.
Proof.
  intros Hk. unfold Text.digits, pretty, pretty_N.
  destruct (decide (Z.to_N k = 0%N)) as [Hz|Hnz].
  - assert (k = 0) as -> by lia. cbv zeta.
    change (list_ascii_of_string "0") with ["0"%char]. repeat split.
    + now repeat constructor.
    + discriminate.
    + intros acc. change (10 * acc + 0 = acc * 10 + 0). lia.
  - destruct (pretty_N_go_chars (Z.to_N k) "") as (ds & Hds & Hdigits & Hne & Hv).
    rewrite Hds. simpl. rewrite app_nil_r. repeat split.
    + exact Hdigits.
    + apply Hne. lia.
    + intros acc. rewrite Hv. rewrite Z2N.id by lia. reflexivity.
Qed.

Lemma digits_value_acc l : ∀ acc,
  Str.digits_value l acc
  = acc * 10 ^ Z.of_nat (length l) + Str.digits_value l 0.
Proof.
  induction l as [|a l IH]; intros acc; simpl Str.digits_value.
  - simpl. lia.
  - rewrite IH. rewrite (IH (10 * 0 + _)).
    change (length (a :: l)) with (S (length l)).
    rewrite Nat2Z.inj_succ, Z.pow_succ_r by lia. ring.
Qed.

(** The decimals printed after the point: [nd] digits that read back as
    the remainder, for the one and two decimals of the formatters. *)
Lemma decimals_chars (nd bound : nat) (r : Z) :
  forallb (λ k,
    let l := list_ascii_of_string (Text.zero_pad nd (Text.digits (Z.of_nat k))) in
    forallb Text.is_digit l && Nat.eqb (length l) nd
    && (Str.digits_value l 0 =? Z.of_nat k)) (seq 0 bound) = true →
  0 <= r < Z.of_nat bound →
  let l := list_ascii_of_string (Text.zero_pad nd (Text.digits r)) in
  Forall (λ a, Text.is_digit a = true) l
  ∧ length l = nd
  ∧ Str.digits_value l 0 = r.
Proof.
  intros Hall Hr. rewrite forallb_forall in Hall.
  cbv zeta in *.
  assert (Hin : In (Z.to_nat r) (seq 0 bound)) by (apply in_seq; lia).
  apply Hall in Hin. clear Hall. rewrite Z2Nat.id in Hin by lia.
  apply andb_true_iff in Hin as [Hin H3].
  apply andb_true_iff in Hin as [H1 H2].
  repeat split.
  - apply Forall_forall. intros a Ha. rewrite forallb_forall in H1.
    now apply H1, list_elem_of_In.
  - now apply Nat.eqb_eq.
  - now apply Z.eqb_eq.
Qed.

Lemma span_digits_all ds :
  Forall (λ a, Text.is_digit a = true) ds → Str.span_digits ds = (ds, []).
Proof.
  induction 1 as [|a ds Ha _ IH]; simpl; [reflexivity|]. now rewrite Ha, IH.
Qed.

Lemma span_digits_point ds rest :
  Forall (λ a, Text.is_digit a = true) ds →
  Str.span_digits (ds ++ "."%char :: rest) = (ds, "."%char :: rest).
Proof.
  induction 1 as [|a ds Ha _ IH]; simpl; [reflexivity|]. now rewrite Ha, IH.
Qed.

Lemma drop_spaces_plain l :
  Forall (λ a, Text.is_space a = false) l → Text.drop_spaces l = l.
Proof. destruct 1 as [|a l Ha _]; simpl; [reflexivity | now rewrite Ha]. Qed.

Lemma strip_plain l :
  Forall (λ a, Text.is_space a = false) l → Text.strip l = l.
Proof.
  intros Hl. unfold Text.strip. rewrite (drop_spaces_plain l Hl).
  rewrite drop_spaces_plain; [apply rev_involutive|].
  now apply List.Forall_rev.
Qed.

Lemma drop_underscores_plain l : ∀ prev,
  Forall (λ a, Ascii.eqb a "_" = false) l →
  match prev with Some p => Ascii.eqb p "_" = false | None => True end →
  Str.drop_underscores prev l = Some l.
Proof.
  induction l as [|a l IH]; intros prev Hl Hprev; simpl.
  - destruct prev as [p|]; [now rewrite Hprev | reflexivity].
  - apply Forall_cons in Hl as [Ha Hl]. rewrite Ha.
    destruct prev as [p|]; [rewrite Hprev; simpl|]; now rewrite IH.
Qed.

Lemma drop_char_plain c l :
  Forall (λ a, Ascii.eqb a c = false) l → Str.drop_char c l = l.
Proof. destruct 1 as [|a l Ha _]; simpl; [reflexivity | now rewrite Ha]. Qed.

Lemma filter_plain (f : ascii → bool) l :
  Forall (λ a, f a = true) l → List.filter f l = l.
Proof.
  induction 1 as [|a l Ha _ IH]; simpl; [reflexivity | now rewrite Ha, IH].
Qed.

Lemma plain_decimal_chars (P : ascii → Prop) neg ip fp :
  P "-"%char → P "."%char → (∀ a, Text.is_digit a = true → P a) →
  Forall (λ a, Text.is_digit a = true) ip →
  Forall (λ a, Text.is_digit a = true) fp →
  Forall P (plain_decimal neg ip fp).
Proof.
  intros Hminus Hpoint Hdigit Hip Hfp. unfold plain_decimal.
  apply Forall_app. split; [destruct neg; now repeat constructor|].
  apply Forall_app. split; [eapply Forall_impl; [exact Hip | exact Hdigit]|].
  constructor; [exact Hpoint|]. eapply Forall_impl; [exact Hfp | exact Hdigit].
Qed.

Section ReadBack.

Variable strtod : bool → Z → Z → spec_float.

(** [float()] of a plain decimal text: the interpreter's conversion of its
    sign, its digits and the number of decimals. *)
Lemma float_of_plain_decimal s neg ip fp :
  list_ascii_of_string s = plain_decimal neg ip fp →
  Forall (λ a, Text.is_digit a = true) ip → ip ≠ [] →
  Forall (λ a, Text.is_digit a = true) fp →
  float_of_string strtod s
  = Ok (strtod neg (Str.digits_value (ip ++ fp) 0) (- Z.of_nat (length fp))).
Proof.
  intros Hs Hip Hne Hfp. unfold float_of_string. rewrite Hs.
  rewrite strip_plain
    by (apply plain_decimal_chars; try reflexivity; auto; intros a Ha;
        now apply digit_facts in Ha).
  rewrite (drop_underscores_plain _ None)
    by (try apply plain_decimal_chars; try reflexivity; auto; intros a Ha;
        now apply digit_facts in Ha).
  destruct ip as [|d ip]; [contradiction|].
  apply Forall_cons in Hip as [Hd Hip].
  pose proof (digit_facts d Hd)
    as (_ & _ & _ & _ & _ & Hplus & Hminus & _ & Hlower & Hi & Hn & _).
  assert (Hsign : Str.split_sign (plain_decimal neg (d :: ip) fp)
                  = (neg, (d :: ip) ++ "."%char :: fp)).
  { unfold plain_decimal. destruct neg; simpl; [reflexivity|].
    destruct d as [[] [] [] [] [] [] [] []]; try discriminate; reflexivity. }
  rewrite Hsign.
  assert (Hname : ∀ name,
    (name = "inf" ∨ name = "infinity" ∨ name = "nan")%string →
    String.eqb
      (string_of_list_ascii (map Str.lower ((d :: ip) ++ "."%char :: fp)))
      name = false).
  { intros name Hcases. simpl. rewrite Hlower.
    destruct Hcases as [-> | [-> | ->]]; simpl; now rewrite ?Hi, ?Hn. }
  rewrite !Hname by auto. simpl orb. cbv iota.
  unfold Str.decimal.
  rewrite span_digits_point by now constructor.
  rewrite span_digits_all by exact Hfp.
  simpl. reflexivity.
Qed.

End ReadBack.

Lemma format_f_number comma nd v :
  Py.format_f comma nd v = x ← number_float v; Ok (Text.float_f comma nd x).
Proof. destruct v; reflexivity. Qed.

(** Thousands separators are all that grouping adds. *)
Lemma group_from_right_filter (f : ascii → bool) :
  f ","%char = false →
  ∀ n l acc, (length l <= n)%nat → Forall (λ a, f a = true) l →
  List.filter f (list_ascii_of_string (Text.group_from_right l acc))
  = rev l ++ List.filter f (list_ascii_of_string acc).
Proof.
  intros Hcomma. induction n as [|n IH]; intros l acc Hlen Hl.
  - destruct l; [reflexivity | simpl in Hlen; lia].
  - destruct l as [|a [|b [|c [|d rest]]]].
    + reflexivity.
    + apply Forall_cons in Hl as [Ha _]. simpl. now rewrite Ha.
    + apply Forall_cons in Hl as [Ha Hl]. apply Forall_cons in Hl as [Hb _].
      simpl. now rewrite Ha, Hb.
    + apply Forall_cons in Hl as [Ha Hl]. apply Forall_cons in Hl as [Hb Hl].
      apply Forall_cons in Hl as [Hc _].
      simpl. now rewrite Ha, Hb, Hc.
    + apply Forall_cons in Hl as [Ha Hl]. apply Forall_cons in Hl as [Hb Hl].
      apply Forall_cons in Hl as [Hc Hl].
      change (Text.group_from_right (a :: b :: c :: d :: rest) acc)
        with (Text.group_from_right (d :: rest)
                (String "," (String c (String b (String a acc))))).
      rewrite IH by (simpl in *; auto; lia).
      cbn [list_ascii_of_string List.filter]. rewrite Hcomma, Ha, Hb, Hc.
      cbn [rev]. rewrite <- !app_assoc. reflexivity.
Qed.

Lemma with_commas_filter (f : ascii → bool) s :
  f ","%char = false →
  Forall (λ a, f a = true) (list_ascii_of_string s) →
  List.filter f (list_ascii_of_string (Text.with_commas s))
  = list_ascii_of_string s.
Proof.
  intros Hcomma Hs. unfold Text.with_commas.
  rewrite (group_from_right_filter f Hcomma _ _ _ (le_n _))
    by now apply List.Forall_rev.
  rewrite rev_involutive. apply app_nil_r.
Qed.

(** The text of [n / 10^nd]: a plain decimal whose digits read as [n]; with
    the separators, the same apart from commas in the integer part. *)
Lemma fixed_plain_decimal nd n s :
  (nd = 1 ∨ nd = 2)%nat → 0 <= n →
  ∃ ip fp,
    list_ascii_of_string (Text.minus s +:+ Text.fixed false nd n)
    = plain_decimal s ip fp
    ∧ list_ascii_of_string (Text.minus s +:+ Text.fixed true nd n)
      = (if s then ["-"%char] else [])
        ++ list_ascii_of_string (Text.with_commas (string_of_list_ascii ip))
        ++ "."%char :: fp
    ∧ Forall (λ a, Text.is_digit a = true) ip ∧ ip ≠ []
    ∧ Forall (λ a, Text.is_digit a = true) fp
    ∧ length fp = nd
    ∧ Str.digits_value (ip ++ fp) 0 = n.
Proof.
  intros Hnd Hn.
  set (unit := 10 ^ Z.of_nat nd).
  assert (Hunit : 0 < unit) by (apply Z.pow_pos_nonneg; lia).
  pose proof (Z.div_pos n unit Hn Hunit) as Hq.
  pose proof (Z.mod_pos_bound n unit Hunit) as Hr.
  pose proof (Z.div_mod n unit ltac:(lia)) as Hdiv.
  destruct (digits_chars (n / unit) Hq) as (Hip & Hne & Hval).
  assert (Hfp : let l := list_ascii_of_string
                           (Text.zero_pad nd (Text.digits (n mod unit))) in
                Forall (λ a, Text.is_digit a = true) l ∧ length l = nd
                ∧ Str.digits_value l 0 = n mod unit).
  { destruct Hnd as [-> | ->].
    - apply (decimals_chars 1 10); [vm_compute; reflexivity | exact Hr].
    - apply (decimals_chars 2 100); [vm_compute; reflexivity | exact Hr]. }
  cbv zeta in Hfp. destruct Hfp as (Hfp & Hlen & Hfval).
  exists (list_ascii_of_string (Text.digits (n / unit))),
    (list_ascii_of_string (Text.zero_pad nd (Text.digits (n mod unit)))).
  assert (Hfixed : ∀ comma, Text.fixed comma nd n
    = (if comma then Text.with_commas (Text.digits (n / unit))
       else Text.digits (n / unit))
      +:+ "." +:+ Text.zero_pad nd (Text.digits (n mod unit))).
  { intros comma. destruct Hnd as [-> | ->]; reflexivity. }
  assert (Hminus : list_ascii_of_string (Text.minus s)
                   = if s then ["-"%char] else []) by now destruct s.
  repeat split; try assumption.
  - rewrite Hfixed, !chars_app, Hminus. reflexivity.
  - rewrite Hfixed, !chars_app, Hminus, string_of_list_ascii_of_string.
    reflexivity.
  - rewrite digits_value_app, Hval, digits_value_acc, Hlen, Hfval.
    fold unit. lia.
Qed.

Lemma rstrip_appended c s :
  Forall (λ a, Ascii.eqb a c = false) (list_ascii_of_string s) →
  Str.rstrip c (s +:+ String c "") = s.
Proof.
  intros Hs. unfold Str.rstrip. rewrite chars_app, rev_app_distr.
  cbn [list_ascii_of_string rev app Str.drop_char]. rewrite Ascii.eqb_refl.
  rewrite drop_char_plain by now apply List.Forall_rev.
  rewrite rev_involutive. apply string_of_list_ascii_of_string.
Qed.

Lemma filter_comm {A : Type} (f g : A → bool) l :
  List.filter f (List.filter g l) = List.filter g (List.filter f l).
Proof.
  induction l as [|a l IH]; [reflexivity|]. simpl.
  destruct (f a) eqn:Hf, (g a) eqn:Hg; simpl; rewrite ?Hf, ?Hg, IH; reflexivity.
Qed.

Section RoundTrips.

Variable strtod : bool → Z → Z → spec_float.

Lemma float_of_fixed nd n s :
  (nd = 1 ∨ nd = 2)%nat → 0 <= n →
  float_of_string strtod (Text.minus s +:+ Text.fixed false nd n)
  = Ok (strtod s n (- Z.of_nat nd)).
Proof.
  intros Hnd Hn.
  destruct (fixed_plain_decimal nd n s Hnd Hn)
    as (ip & fp & Hchars & _ & Hip & Hne & Hfp & Hlen & Hval).
  rewrite (float_of_plain_decimal strtod _ s ip fp Hchars Hip Hne Hfp).
  now rewrite Hval, Hlen.
Qed.

(** [float()] of the text [format] gives a float with one or two decimals. *)
Lemma float_of_float_f nd x :
  (nd = 1 ∨ nd = 2)%nat →
  float_of_string strtod (Text.float_f false nd x) = Ok (read_back strtod nd x).
Proof.
  intros Hnd. destruct x as [s|s| |s m e]; cbn [Text.float_f read_back].
  - apply float_of_fixed; [exact Hnd | lia].
  - destruct s; reflexivity.
  - reflexivity.
  - apply float_of_fixed; [exact Hnd | apply scaled_nearest].
Qed.

Lemma float_f_without c nd x :
  (nd = 1 ∨ nd = 2)%nat →
  (∀ a, Text.is_digit a = true → Ascii.eqb a c = false) →
  Ascii.eqb "-" c = false → Ascii.eqb "." c = false →
  Ascii.eqb "i" c = false → Ascii.eqb "n" c = false →
  Ascii.eqb "f" c = false → Ascii.eqb "a" c = false →
  Forall (λ a, Ascii.eqb a c = false)
    (list_ascii_of_string (Text.float_f false nd x)).
Proof.
  intros Hnd Hdigit Hminus Hpoint Hi Hn Hf Ha.
  assert (Hfixed : ∀ s n, 0 <= n →
    Forall (λ a, Ascii.eqb a c = false)
      (list_ascii_of_string (Text.minus s +:+ Text.fixed false nd n))).
  { intros s n Hpos.
    destruct (fixed_plain_decimal nd n s Hnd Hpos)
      as (ip & fp & -> & _ & Hip & _ & Hfp & _).
    now apply plain_decimal_chars. }
  destruct x as [s|s| |s m e]; cbn [Text.float_f].
  - apply Hfixed. lia.
  - destruct s; cbn; repeat constructor; assumption.
  - cbn. repeat constructor; assumption.
  - apply Hfixed, scaled_nearest.
Qed.

(** Without the dollar sign and the commas, the text with separators is the
    text without them. *)
Lemma remove_separators x :
  Str.remove "," (Str.remove "$" ("$" +:+ Text.float_f true 2 x))
  = Text.float_f false 2 x.
Proof.
  unfold Str.remove. rewrite list_ascii_of_string_of_list_ascii.
  rewrite filter_comm, chars_app.
  assert (Hfixed : ∀ s n, 0 <= n →
    List.filter (λ a, negb (Ascii.eqb a "$"))
      (List.filter (λ a, negb (Ascii.eqb a ","))
         (list_ascii_of_string "$"
          ++ list_ascii_of_string (Text.minus s +:+ Text.fixed true 2 n)))
    = list_ascii_of_string (Text.minus s +:+ Text.fixed false 2 n)).
  { intros s n Hpos.
    destruct (fixed_plain_decimal 2 n s (or_intror eq_refl) Hpos)
      as (ip & fp & -> & -> & Hip & _ & Hfp & _).
    assert (Hkeep : ∀ c,
      (∀ a, Text.is_digit a = true → Ascii.eqb a c = false) →
      ∀ l, Forall (λ a, Text.is_digit a = true) l →
      Forall (λ a, negb (Ascii.eqb a c) = true) l).
    { intros c Hd l Hl. eapply Forall_impl; [exact Hl|].
      intros a Ha. cbv beta. now rewrite (Hd a Ha). }
    assert (Hdollar : ∀ a, Text.is_digit a = true → Ascii.eqb a "$" = false)
      by (intros a Ha; now apply digit_facts in Ha).
    assert (Hcomma : ∀ a, Text.is_digit a = true → Ascii.eqb a "," = false)
      by (intros a Ha; now apply digit_facts in Ha).
    assert (Hsign : ∀ c, Ascii.eqb "-" c = false →
      List.filter (λ a, negb (Ascii.eqb a c)) (if s then ["-"%char] else [])
      = if s then ["-"%char] else []).
    { intros c Hc. destruct s; cbn [List.filter]; [now rewrite Hc | reflexivity]. }
    rewrite !List.filter_app. rewrite (Hsign ","%char eq_refl).
    rewrite with_commas_filter;
      [|reflexivity
       |rewrite list_ascii_of_string_of_list_ascii; now apply Hkeep].
    rewrite list_ascii_of_string_of_list_ascii.
    cbn [list_ascii_of_string List.filter].
    change (negb (Ascii.eqb "$" ",")) with true.
    change (negb (Ascii.eqb "." ",")) with true. cbv iota.
    rewrite (filter_plain _ fp (Hkeep ","%char Hcomma fp Hfp)).
    rewrite ?List.filter_app. rewrite (Hsign "$"%char eq_refl).
    cbn [List.filter].
    change (negb (Ascii.eqb "$" "$")) with false.
    change (negb (Ascii.eqb "." "$")) with true. cbv iota.
    rewrite (filter_plain _ fp (Hkeep "$"%char Hdollar fp Hfp)).
    rewrite (filter_plain _ ip (Hkeep "$"%char Hdollar ip Hip)).
    reflexivity. }
  destruct x as [s|s| |s m e]; cbn [Text.float_f].
  - rewrite Hfixed by lia. apply string_of_list_ascii_of_string.
  - destruct s; reflexivity.
  - reflexivity.
  - rewrite Hfixed by apply scaled_nearest. apply string_of_list_ascii_of_string.
Qed.

End RoundTrips.

Section ChartNumbers.

Variable strtod : bool → Z → Z → spec_float.

(** X16. The number the gender chart reads from a share formatted by
    [format_percentage]: the product formatted, read back from its one
    decimal; the sentinel is no number. *)
Theorem percent_number_reads_back decimal text :
  format_percentage decimal = Ok text →
  percent_number strtod (Leaf (VStr text))
  = match decimal with
    | VNone => Raise ValueError
    | _ =>
        p ← Py.mul_int decimal 100;
        x ← number_float p;
        Ok (read_back strtod 1 x)
    end.
Proof.
  intros Htext.
  assert (Hsome : ∀ p s,
    Py.mul_int decimal 100 = Ok p → Py.format_f false 1 p = Ok s →
    text = s +:+ "%" →
    percent_number strtod (Leaf (VStr text))
    = (p ← Py.mul_int decimal 100; x ← number_float p;
       Ok (read_back strtod 1 x))).
  { intros p s Hp Hs ->. rewrite Hp. cbn [mbind res_bind_inst res_bind].
    rewrite format_f_number in Hs.
    destruct (number_float p) as [x|e]; [|discriminate].
    cbn [mbind res_bind_inst res_bind] in Hs |- *.
    injection Hs as <-.
    unfold percent_number. cbn [entry_text mbind res_bind_inst res_bind].
    rewrite rstrip_appended.
    - apply float_of_float_f. now left.
    - apply float_f_without; try reflexivity; [now left|].
      intros a Ha. now apply digit_facts in Ha. }
  destruct (Py.mul_int decimal 100) as [p|e] eqn:Hp;
    destruct decimal; try discriminate; try (injection Htext as <-; reflexivity);
    unfold format_percentage in Htext; rewrite Hp in Htext;
    cbn [mbind res_bind_inst res_bind] in Htext;
    (destruct (Py.format_f false 1 p) as [s|e] eqn:Hs; [|discriminate]);
    cbn [mbind res_bind_inst res_bind] in Htext;
    injection Htext as <-; rewrite (Hsome p s eq_refl Hs eq_refl);
    reflexivity.
Qed.

(** X17. The number the earnings chart reads from an amount formatted by
    [format_currency]: the amount, read back from its two decimals; the
    sentinel is no number. *)
Theorem dollar_number_reads_back amount text :
  format_currency amount = Ok text →
  dollar_number strtod (Leaf (VStr text))
  = match amount with
    | VNone => Raise ValueError
    | _ =>
        if Py.eq_int amount 0 then Raise ValueError
        else x ← number_float amount; Ok (read_back strtod 2 x)
    end.
Proof.
  intros Htext.
  assert (Hsentinel : dollar_number strtod (Leaf (VStr "N/A")) = Raise ValueError)
    by reflexivity.
  assert (Hsome : ∀ s,
    Py.format_f true 2 amount = Ok s → text = "$" +:+ s →
    dollar_number strtod (Leaf (VStr text))
    = (x ← number_float amount; Ok (read_back strtod 2 x))).
  { intros s Hs ->. rewrite format_f_number in Hs.
    destruct (number_float amount) as [x|e]; [|discriminate].
    cbn [mbind res_bind_inst res_bind] in Hs |- *.
    injection Hs as <-.
    unfold dollar_number. cbn [entry_text mbind res_bind_inst res_bind].
    rewrite remove_separators. apply float_of_float_f. now right. }
  destruct amount; try (injection Htext as <-; exact Hsentinel);
    unfold format_currency in Htext;
    (destruct (Py.eq_int _ 0) eqn:Hzero;
      [injection Htext as <-; exact Hsentinel|]);
    (destruct (Py.format_f true 2 _) as [t|e] eqn:Ht in Htext; [|discriminate]);
    cbn [mbind res_bind_inst res_bind] in Htext;
    injection Htext as <-; now apply (Hsome t).
Qed.

End ChartNumbers.

(** ** The collaborator: [fetch_school_data] *)

Section Fetched.

Variable secret : Fetch.outcome value.
Variable requests_get :
  string → list (string * value) → Fetch.outcome Fetch.response.
Variable now_isoformat : string → string.


Lemma collect_one_some key school entry :
  Fetch.collect_one requests_get now_isoformat key school
      = Fetch.Returned (Some entry)
  ↔ ∃ first id, Fetch.found requests_get key school first
      ∧ py_subscript first "id" = Ok id
      ∧ entry = Fetch.entry_of now_isoformat school first id.
Proof.
  unfold Fetch.collect_one, Fetch.found. split.
  - intros H.
    destruct (requests_get Fetch.url (Fetch.params key school))
        as [resp|r] eqn:Hget;
      [|discriminate].
    cbn [mbind Fetch.outcome_bind] in H.
    destruct (Fetch.status_code resp =? 200) eqn:Hstatus; [|discriminate].
    apply Z.eqb_eq in Hstatus.
    destruct (Fetch.json resp) as [data|r] eqn:Hjson; [|discriminate].
    cbn [mbind Fetch.outcome_bind] in H.
    destruct (py_subscript data "results") as [results|e] eqn:Hresults;
      [|discriminate].
    cbn [Fetch.of_res mbind Fetch.outcome_bind] in H.
    destruct (Py.truthy results) eqn:Htruthy; [|discriminate].
    destruct (Fetch.first_item results) as [first|r] eqn:Hfirst
        ; [|discriminate].
    cbn [mbind Fetch.outcome_bind] in H.
    destruct (py_subscript first "id") as [id|e] eqn:Hid; [|discriminate].
    cbn [Fetch.of_res mbind Fetch.outcome_bind mret Fetch.outcome_ret] in H.
    injection H as <-.
    exists first, id. split; [|split; [exact Hid | reflexivity]].
    exists resp, data, results. repeat split; assumption.
  - intros (first & id & (resp & data & results & Hget & Hstatus & Hjson
                          & Hresults & Htruthy & Hfirst) & Hid & ->).
    rewrite Hget. cbn [mbind Fetch.outcome_bind].
    rewrite Hstatus, Z.eqb_refl, Hjson. cbn [mbind Fetch.outcome_bind].
    rewrite Hresults. cbn [Fetch.of_res mbind Fetch.outcome_bind].
    rewrite Htruthy, Hfirst. cbn [mbind Fetch.outcome_bind].
    rewrite Hid. reflexivity.
Qed.

Lemma collect_one_none key school :
  Fetch.collect_one requests_get now_isoformat key school
      = Fetch.Returned None ↔ Fetch.not_found requests_get key school.
Proof.
  unfold Fetch.collect_one, Fetch.not_found. split.
  - intros H.
    destruct (requests_get Fetch.url (Fetch.params key school))
        as [resp|r] eqn:Hget;
      [|discriminate].
    cbn [mbind Fetch.outcome_bind] in H. exists resp. split; [reflexivity|].
    destruct (Fetch.status_code resp =? 200) eqn:Hstatus;
      [|left; now apply Z.eqb_neq].
    right.
    destruct (Fetch.json resp) as [data|r] eqn:Hjson; [|discriminate].
    cbn [mbind Fetch.outcome_bind] in H.
    destruct (py_subscript data "results") as [results|e] eqn:Hresults;
      [|discriminate].
    cbn [Fetch.of_res mbind Fetch.outcome_bind] in H.
    destruct (Py.truthy results) eqn:Htruthy; [|now exists data, results].
    destruct (Fetch.first_item results) as [first|r]; [|discriminate].
    cbn [mbind Fetch.outcome_bind] in H.
    destruct (py_subscript first "id"); discriminate.
  - intros (resp & Hget & Hcases). rewrite Hget. cbn [mbind Fetch.outcome_bind].
    destruct Hcases
        as [Hstatus | (data & results & Hjson & Hresults & Htruthy)].
    + apply Z.eqb_neq in Hstatus. now rewrite Hstatus.
    + destruct (Fetch.status_code resp =? 200); [|reflexivity].
      rewrite Hjson. cbn [mbind Fetch.outcome_bind].
      rewrite Hresults. cbn [Fetch.of_res mbind Fetch.outcome_bind].
      now rewrite Htruthy.
Qed.

(** The loop: the dictionary it returns, the lines it prints. *)
Lemma collect_returned key schools : ∀ d0 p0 d p,
  Fetch.collect requests_get now_isoformat key schools d0 p0
      = (Fetch.Returned d, p) →
  p = p0 ++ map Fetch.progress schools
  ∧ Forall (λ school,
      ∃ o, Fetch.collect_one requests_get now_isoformat key school
           = Fetch.Returned o) schools
  ∧ ∀ school entry,
      d !! school = Some entry
      ↔ (school ∈ schools
          ∧ Fetch.collect_one requests_get now_isoformat key school
              = Fetch.Returned (Some entry))
        ∨ (¬ (school ∈ schools
              ∧ ∃ e, Fetch.collect_one requests_get now_isoformat key school
                  = Fetch.Returned (Some e))
           ∧ d0 !! school = Some entry).
Proof.
  induction schools as [|s schools IH]; intros d0 p0 d p H
      ; cbn [Fetch.collect] in H.
  - injection H as <- <-. split; [now rewrite app_nil_r|]. split
      ; [constructor|].
    intros school entry. split.
    + intros Hd. right. split; [|exact Hd]. intros [Hin _]. inversion Hin.
    + intros [[Hin _]|[_ Hd]]; [inversion Hin | exact Hd].
  - destruct (Fetch.collect_one requests_get now_isoformat key s)
      as [[e|]|r] eqn:Hone; [| |discriminate].
    + apply IH in H as (-> & Hall & Hkeys).
      split; [now rewrite <- app_assoc|].
      split; [constructor; [now exists (Some e) | exact Hall]|].
      intros school entry. rewrite Hkeys. clear Hkeys IH.
      destruct (decide (school = s)) as [->|Hne].
      * rewrite lookup_insert_eq. split.
        -- intros [[Hin Hsome]|[Hnot Heq]].
           ++ left. split; [now right | exact Hsome].
           ++ injection Heq as <-. left. split; [now left | exact Hone].
        -- intros [[_ Hsome]|[Hnot _]].
           ++ rewrite Hone in Hsome. injection Hsome as <-.
              destruct (decide (s ∈ schools)) as [Hin|Hout].
              ** left. split; [exact Hin | exact Hone].
              ** right. split; [|reflexivity]. now intros [Hin _].
           ++ exfalso. apply Hnot. split; [now left | now exists e].
      * rewrite lookup_insert_ne by congruence.
        rewrite !elem_of_cons. split.
        -- intros [[Hin Hsome]|[Hnot Hd]]; [left; auto|].
           right. split; [|exact Hd]. intros [[Heq|Hin] Hsome]; [congruence|].
           apply Hnot. auto.
        -- intros [[[Heq|Hin] Hsome]|[Hnot Hd]]; [congruence | left; auto |].
           right. split; [|exact Hd]. intros [Hin Hsome]. apply Hnot. auto.
    + apply IH in H as (-> & Hall & Hkeys).
      split; [now rewrite <- app_assoc|].
      split; [constructor; [now exists None | exact Hall]|].
      intros school entry. rewrite Hkeys. clear Hkeys IH.
      rewrite !elem_of_cons. split.
      * intros [[Hin Hsome]|[Hnot Hd]]; [left; auto|].
        right. split; [|exact Hd]. intros [[->|Hin] [e He]]; [congruence|].
        apply Hnot. eauto.
      * intros [[[->|Hin] Hsome]|[Hnot Hd]]; [congruence | left; auto |].
        right. split; [|exact Hd]. intros [Hin Hsome]. apply Hnot. auto.
Qed.

Lemma collect_failed key schools : ∀ d0 p0 r p,
  Fetch.collect requests_get now_isoformat key schools d0 p0
      = (Fetch.Failed r, p) →
  ∃ before school after,
    schools = before ++ school :: after
    ∧ Forall (λ s, ∃ o, Fetch.collect_one requests_get now_isoformat key s
        = Fetch.Returned o) before
    ∧ Fetch.collect_one requests_get now_isoformat key school = Fetch.Failed r
    ∧ p = p0 ++ map Fetch.progress (before ++ [school]).
Proof.
  induction schools as [|s schools IH]; intros d0 p0 r p H
      ; cbn [Fetch.collect] in H.
  - discriminate.
  - destruct (Fetch.collect_one requests_get now_isoformat key s)
      as [o|r'] eqn:Hone.
    + assert (Hrest : ∃ d1,
        Fetch.collect requests_get now_isoformat key schools d1
          (p0 ++ [Fetch.progress s])
                            = (Fetch.Failed r, p))
        by (destruct o; eauto).
      destruct Hrest as (d1 & Hrest).
      apply IH in Hrest as (before & school & after & -> & Hall & Hfail & ->).
      exists (s :: before), school, after.
      split; [reflexivity|]. split; [constructor; eauto|].
      split; [exact Hfail|]. now rewrite <- app_assoc.
    + injection H as <- <-. exists [], s, schools.
      split; [reflexivity|]. split; [constructor|]. split; [exact Hone|].
      reflexivity.
Qed.

Lemma collect_total key schools : ∀ d0 p0,
  Forall (λ s, ∃ o, Fetch.collect_one requests_get now_isoformat key s
      = Fetch.Returned o) schools →
  ∃ d, Fetch.collect requests_get now_isoformat key schools d0 p0
      = (Fetch.Returned d, p0 ++ map Fetch.progress schools).
Proof.
  induction schools as [|s schools IH]; intros d0 p0 Hall; cbn [Fetch.collect].
  - exists d0. now rewrite app_nil_r.
  - apply Forall_cons in Hall as [[o Hone] Hall]. rewrite Hone.
    destruct o as [e|].
    + destruct (IH (<[s:=e]> d0) (p0 ++ [Fetch.progress s]) Hall) as [d Hd].
      exists d. now rewrite Hd, <- app_assoc.
    + destruct (IH d0 (p0 ++ [Fetch.progress s]) Hall) as [d Hd].
      exists d. now rewrite Hd, <- app_assoc.
Qed.


Lemma fetch_returned schools_data printed :
  (Fetch.fetch_school_data secret requests_get now_isoformat)
      = (Fetch.Returned schools_data, printed) →
  ∃ key d, secret = Fetch.Returned key ∧ schools_data = VDict d
    ∧ Fetch.collect requests_get now_isoformat key SAMPLE_SCHOOLS ∅ []
        = (Fetch.Returned d, printed).
Proof.
  unfold Fetch.fetch_school_data. intros H.
  destruct secret as [key|r]; [|discriminate].
  destruct (Fetch.collect requests_get now_isoformat key SAMPLE_SCHOOLS ∅ [])
    as [[d|r] p] eqn:Hc; [|discriminate].
  injection H as <- <-. exists key, d. split; [reflexivity|]. split
      ; [reflexivity|].
  exact Hc.
Qed.

(** X18. The mapping [Fetch.fetch_school_data] returns holds exactly the schools of
    the sample the catalog answered with status 200 and a result, each with
    the entry of lines 55-60 built on the first result. *)
Theorem fetch_school_data_entries schools_data printed :
  (Fetch.fetch_school_data secret requests_get now_isoformat)
      = (Fetch.Returned schools_data, printed) →
  ∃ key d, secret = Fetch.Returned key ∧ schools_data = VDict d
    ∧ ∀ school entry,
        d !! school = Some entry
        ↔ school ∈ SAMPLE_SCHOOLS
          ∧ ∃ first id, Fetch.found requests_get key school first
              ∧ py_subscript first "id" = Ok id
              ∧ entry = Fetch.entry_of now_isoformat school first id.
Proof.
  intros H. apply fetch_returned in H as (key & d & Hkey & -> & Hc).
  exists key, d. split; [exact Hkey|]. split; [reflexivity|].
  apply collect_returned in Hc as (_ & _ & Hkeys).
  intros school entry. rewrite Hkeys, lookup_empty, <- collect_one_some.
  split; [intros [H|[_ H]]; [exact H | discriminate] | intros H; now left].
Qed.

(** X19. When it returns, [Fetch.fetch_school_data] has printed one line for every
    school of the sample, in order. *)
Theorem fetch_school_data_prints schools_data printed :
  (Fetch.fetch_school_data secret requests_get now_isoformat)
      = (Fetch.Returned schools_data, printed) →
  printed = map Fetch.progress SAMPLE_SCHOOLS.
Proof.
  intros H. apply fetch_returned in H as (key & d & _ & _ & Hc).
  now apply collect_returned in Hc as (-> & _).
Qed.

(** X20. [Fetch.fetch_school_data] raises exactly when the secret is missing or the
    step of some school raises, all schools before it having been answered;
    it has then printed the lines up to that school and returns no
    mapping at all. *)
Theorem fetch_school_data_raises_iff r printed :
  (Fetch.fetch_school_data secret requests_get now_isoformat)
      = (Fetch.Failed r, printed)
  ↔ (secret = Fetch.Failed r ∧ printed = [])
    ∨ ∃ key before school after,
        secret = Fetch.Returned key
        ∧ SAMPLE_SCHOOLS = before ++ school :: after
        ∧ Forall (λ s, (∃ first id, Fetch.found requests_get key s first
                                    ∧ py_subscript first "id" = Ok id)
                       ∨ Fetch.not_found requests_get key s) before
        ∧ Fetch.collect_one requests_get now_isoformat key school
            = Fetch.Failed r
        ∧ printed = map Fetch.progress (before ++ [school]).
Proof.
  assert (Hanswered : ∀ key s,
    (∃ o, Fetch.collect_one requests_get now_isoformat key s = Fetch.Returned o)
    ↔ (∃ first id, Fetch.found requests_get key s first
        ∧ py_subscript first "id" = Ok id)
      ∨ Fetch.not_found requests_get key s).
  { intros key s. split.
    - intros [[e|] Ho].
      + left. apply collect_one_some in Ho as (first & id & ? & ? & _). eauto.
      + right. now apply collect_one_none.
    - intros [(first & id & Hf & Hid)|Hn].
      + exists (Some (Fetch.entry_of now_isoformat s first id)).
        apply collect_one_some. eauto.
      + exists None. now apply collect_one_none. }
  unfold Fetch.fetch_school_data. split.
  - intros H. destruct secret as [key|r0].
    + right.
      destruct (Fetch.collect requests_get now_isoformat key SAMPLE_SCHOOLS ∅ [])
        as [[d|r0] p] eqn:Hc;
        [discriminate|].
      injection H as <- <-.
      apply collect_failed in Hc
          as (before & school & after & Hs & Hall & Hf & ->).
      exists key, before, school, after. split; [reflexivity|].
      split; [exact Hs|]. split; [|split; [exact Hf | reflexivity]].
      eapply Forall_impl; [exact Hall|]. intros s. apply Hanswered.
    + injection H as <- <-. now left.
  - intros [[-> ->]|(key & before & school & after & -> & Hs & Hall & Hf & ->)];
      [reflexivity|].
    rewrite Hs.
    assert (Hgen : ∀ d0 p0,
      Fetch.collect requests_get now_isoformat key (before ++ school :: after) d0 p0
      = (Fetch.Failed r, p0 ++ map Fetch.progress (before ++ [school]))).
    { clear Hs. induction before as [|s before IH]; intros d0 p0;
        cbn [app Fetch.collect].
      - now rewrite Hf.
      - apply Forall_cons in Hall as [Hs Hall].
        apply Hanswered in Hs as [o Ho]. rewrite Ho.
        destruct o; rewrite (IH Hall); cbn [map]; now rewrite <- app_assoc. }
    now rewrite Hgen.
Qed.

(** X21. When the secret is there and the catalog answers every request of the
    sample, but none with status 200 and a result, [Fetch.fetch_school_data]
    returns the empty mapping. *)
Theorem fetch_school_data_nothing_found key :
  secret = Fetch.Returned key →
  Forall (Fetch.not_found requests_get key) SAMPLE_SCHOOLS →
  (Fetch.fetch_school_data secret requests_get now_isoformat).1
      = Fetch.Returned (VDict ∅).
Proof.
  intros Hkey Hall. unfold Fetch.fetch_school_data. rewrite Hkey.
  assert (Hgen : ∀
      schools d0 p0, Forall (Fetch.not_found requests_get key) schools →
    (Fetch.collect requests_get now_isoformat key schools d0 p0).1
        = Fetch.Returned d0).
  { induction schools as [|s schools IH]; intros d0 p0 Hs; cbn [Fetch.collect].
    - reflexivity.
    - apply Forall_cons in Hs as [Hs Hrest].
      apply collect_one_none in Hs. rewrite Hs. now apply IH. }
  specialize (Hgen SAMPLE_SCHOOLS ∅ [] Hall).
  destruct (Fetch.collect requests_get now_isoformat key SAMPLE_SCHOOLS ∅ [])
    as [[d|r] p]; simpl in Hgen |- *;
    congruence.
Qed.

End Fetched.

(** ** The page after the fetch *)

Section PageAfterFetch.

Variable secret : Fetch.outcome value.
Variable requests_get :
  string → list (string * value) → Fetch.outcome Fetch.response.
Variable now_isoformat : string → string.
Variable py_repr : value → string.
Variable float_commas : spec_float → string.
Variable strtod : bool → Z → Z → spec_float.
Variable report_repr : report → string.

(** X22. A school the catalog had no result for is not in the mapping, and the
    page raises [KeyError] as soon as it is selected. *)
Theorem main_school_not_found key schools_data printed selected :
  secret = Fetch.Returned key →
  Fetch.fetch_school_data secret requests_get now_isoformat
  = (Fetch.Returned schools_data, printed) →
  Fetch.not_found requests_get key selected →
  main py_repr float_commas strtod report_repr schools_data selected []
  = (Raise KeyError,
     [ St.set_page_config "College Metrics Explorer" "wide";
       St.title (Leaf (VStr "College Explorer"));
       St.selectbox "Select a School" SAMPLE_SCHOOLS;
       St.divider ]).
Proof.
  intros Hkey H Hnot.
  apply fetch_returned in H as (key' & d & Hkey' & -> & Hc).
  rewrite Hkey in Hkey'. injection Hkey' as <-.
  apply collect_returned in Hc as (_ & _ & Hkeys).
  assert (Hnone : d !! selected = None).
  { destruct (d !! selected) as [entry|] eqn:Hd; [|reflexivity].
    apply Hkeys in Hd as [[_ Hsome]|[_ Hd]].
    - apply (collect_one_none requests_get now_isoformat) in Hnot.
      congruence.
    - rewrite lookup_empty in Hd. discriminate. }
  unfold main. rewrite !emit_bind, eval_bind.
  unfold py_subscript. rewrite Hnone. reflexivity.
Qed.

(** X23. The record the page works on, [schools_data[selected_school]['raw_data']],
    is the first result the catalog gave for the selected school. *)
Theorem main_record_is_first_result key schools_data printed selected first :
  secret = Fetch.Returned key →
  Fetch.fetch_school_data secret requests_get now_isoformat
  = (Fetch.Returned schools_data, printed) →
  selected ∈ SAMPLE_SCHOOLS →
  Fetch.found requests_get key selected first →
  (cached ← py_subscript schools_data selected; py_subscript cached "raw_data")
  = Ok first.
Proof.
  intros Hkey H Hin Hfound.
  apply fetch_returned in H as (key' & d & Hkey' & -> & Hc).
  rewrite Hkey in Hkey'. injection Hkey' as <-.
  apply collect_returned in Hc as (_ & Hall & Hkeys).
  rewrite Forall_forall in Hall. destruct (Hall selected Hin) as [o Ho].
  destruct o as [entry|].
  - pose proof Ho as Hentry.
    apply collect_one_some in Hentry
      as (first' & id & Hfound' & _ & ->).
    assert (first' = first) as ->.
    { destruct Hfound as (r1 & d1 & s1 & Hg1 & _ & Hj1 & Hr1 & _ & Hf1).
      destruct Hfound' as (r2 & d2 & s2 & Hg2 & _ & Hj2 & Hr2 & _ & Hf2).
      congruence. }
    assert (Hd : d !! selected
        = Some (Fetch.entry_of now_isoformat selected first id))
      by (apply Hkeys; left; split; [exact Hin | exact Ho]).
    cbn [py_subscript]. rewrite Hd. reflexivity.
  - exfalso. apply collect_one_none in Ho.
    destruct Ho as (r2 & Hg2 & Hcases).
    destruct Hfound as (r1 & d1 & s1 & Hg1 & Hstatus & Hj1 & Hr1 & Ht1 & _).
    assert (r2 = r1) as -> by congruence.
    destruct Hcases as [Hne | (d2 & s2 & Hj2 & Hr2 & Ht2)]; [contradiction|].
    congruence.
Qed.

End PageAfterFetch.

(** ** The text of an amount *)

Lemma digit_value_digit a :
  Text.is_digit a = true →
  digit_value a = Some (Z.of_nat (nat_of_ascii a) - 48).
Proof.
  destruct a as [[] [] [] [] [] [] [] []]; try discriminate; intros _;
    reflexivity.
Qed.

Lemma numeral_value_digits l : ∀ acc,
  Forall (λ a, Text.is_digit a = true) l →
  numeral_value l acc = Some (Str.digits_value l acc).
Proof.
  induction l as [|a l IH]; intros acc Hl; [reflexivity|].
  apply Forall_cons in Hl as [Ha Hl]. cbn [numeral_value Str.digits_value].
  rewrite (digit_value_digit a Ha). now apply IH.
Qed.

(** [pretty] puts no zero in front of a positive number. *)
Lemma pretty_N_go_head x : ∀ s,
  (0 < x)%N →
  ∃ c rest,
    list_ascii_of_string (pretty_N_go x s) = c :: rest ∧ c ≠ "0"%char.
Proof.
  induction (N.lt_wf_0 x) as [x _ IH]; intros s Hx.
  rewrite pretty_N_go_step by exact Hx.
  destruct (N.eq_0_gt_0_cases (x `div` 10)) as [Hq|Hq].
  - assert (Hlt : (x < 10)%N) by (apply N.div_small_iff in Hq; lia).
    rewrite Hq, pretty_N_go_0. cbn [list_ascii_of_string].
    eexists _, _. split; [reflexivity|].
    rewrite N.mod_small by exact Hlt.
    assert (x = 1 ∨ x = 2 ∨ x = 3 ∨ x = 4 ∨ x = 5 ∨ x = 6 ∨ x = 7
            ∨ x = 8 ∨ x = 9)%N as Hcases by lia.
    repeat destruct Hcases as [->|Hcases]; try subst x; discriminate.
  - apply IH; [|exact Hq]. now apply N.div_lt.
Qed.

(** The decimal text of a natural number is its numeral. *)
Lemma digits_numeral k : 0 <= k → numeral_of k (Text.digits k).
Proof.
  intros Hk. unfold numeral_of.
  destruct (digits_chars k Hk) as (Hdigits & Hne & Hvalue).
  destruct (list_ascii_of_string (Text.digits k)) as [|a rest] eqn:Hchars;
    [contradiction|].
  split.
  - rewrite numeral_value_digits by exact Hdigits. rewrite Hvalue. f_equal; lia.
  - intros ->. unfold Text.digits, pretty, pretty_N in Hchars.
    destruct (decide (Z.to_N k = 0%N)) as [Hz|Hnz].
    + change (list_ascii_of_string "0") with ["0"%char] in Hchars. congruence.
    + destruct (pretty_N_go_head (Z.to_N k) "" ltac:(lia))
        as (c & tl & Hc & Hnot).
      rewrite Hc in Hchars. congruence.
Qed.

(** The two decimals printed for a remainder below 100. *)
Lemma decimals_two_digits r :
  0 <= r < 100 → two_digits_of r (Text.zero_pad 2 (Text.digits r)).
Proof.
  intros Hr.
  destruct (decimals_chars 2 100 r) as (Hdigits & Hlen & Hvalue);
    [vm_compute; reflexivity | exact Hr |].
  split.
  - apply (zero_pad_length 2 100); [vm_compute; reflexivity | exact Hr].
  - rewrite numeral_value_digits by exact Hdigits. now rewrite Hvalue.
Qed.

(** ** Thousands separators *)

Lemma text_app_nil s : s +:+ "" = s.
Proof.
  induction s as [|a s IH]; [reflexivity|].
  change (String a (s +:+ "") = String a s). now rewrite IH.
Qed.

Lemma text_app_assoc s t u : (s +:+ t) +:+ u = s +:+ (t +:+ u).
Proof.
  induction s as [|a s IH]; [reflexivity|].
  change (String a ((s +:+ t) +:+ u) = String a (s +:+ (t +:+ u))).
  now rewrite IH.
Qed.

Lemma concat_cons x xs :
  String.concat "" (x :: xs) = x +:+ String.concat "" xs.
Proof.
  destruct xs as [|y ys]; [symmetry; apply text_app_nil | reflexivity].
Qed.

(** Joining groups with a separator puts the separator in front of every
    group but the first. *)
Lemma concat_groups sep gs : ∀ g,
  String.concat sep (g :: gs)
  = g +:+ String.concat "" (map (λ x, sep +:+ x) gs).
Proof.
  induction gs as [|h gs IH]; intros g.
  - symmetry. apply text_app_nil.
  - change (String.concat sep (g :: h :: gs))
      with (g +:+ sep +:+ String.concat sep (h :: gs)).
    rewrite IH. cbn [map]. rewrite concat_cons, text_app_assoc. reflexivity.
Qed.

Lemma text_of_chars_app l1 l2 :
  string_of_list_ascii (l1 ++ l2)
  = string_of_list_ascii l1 +:+ string_of_list_ascii l2.
Proof.
  induction l1 as [|a l1 IH]; [reflexivity|].
  change (String a (string_of_list_ascii (l1 ++ l2))
          = String a (string_of_list_ascii l1 +:+ string_of_list_ascii l2)).
  now rewrite IH.
Qed.

Lemma concat_snoc xs g :
  String.concat "" (xs ++ [g]) = String.concat "" xs +:+ g.
Proof.
  induction xs as [|x xs IH]; [reflexivity|].
  cbn [app]. rewrite !concat_cons, IH. symmetry. apply text_app_assoc.
Qed.

(** Grouping from the right makes a first group of one to three digits and
    groups of three after it, each behind a comma; [gs] are the groups
    made so far. *)
Lemma group_from_right_groups : ∀ n l gs,
  (length l <= n)%nat → l ≠ [] →
  ∃ first rest,
    groups_of_three first rest
    ∧ String.concat "" (first :: rest) = string_of_list_ascii (rev l)
    ∧ Text.group_from_right l
        (String.concat "" (map (λ g, "," +:+ g) gs))
      = first +:+ String.concat "" (map (λ g, "," +:+ g) (rest ++ gs)).
Proof.
  induction n as [|n IH]; intros l gs Hlen Hne.
  { destruct l; [contradiction | simpl in Hlen; lia]. }
  destruct l as [|a [|b [|c [|d tl]]]]; [contradiction|..].
  - exists (String a ""), []. repeat split; try (simpl; lia); constructor.
  - exists (String b (String a "")), [].
    repeat split; try (simpl; lia); constructor.
  - exists (String c (String b (String a ""))), [].
    repeat split; try (simpl; lia); constructor.
  - set (g := String c (String b (String a ""))).
    destruct (IH (d :: tl) (g :: gs)) as (first & rest & [Hfirst Hrest] & Hcat & Hrun);
      [simpl in *; lia | discriminate |].
    exists first, (rest ++ [g]). split; [|split].
    + split; [exact Hfirst|]. apply Forall_app. split; [exact Hrest|].
      now repeat constructor.
    + change (first :: rest ++ [g]) with ((first :: rest) ++ [g]).
      rewrite concat_snoc, Hcat.
      change (rev (a :: b :: c :: d :: tl))
        with (((rev (d :: tl) ++ [c]) ++ [b]) ++ [a]).
      rewrite <- !app_assoc. cbn [app]. rewrite text_of_chars_app. reflexivity.
    + rewrite <- app_assoc. cbn [app]. rewrite <- Hrun.
      cbn [map]. rewrite concat_cons. reflexivity.
Qed.

(** The text with separators: the digits, cut into a first group of one to
    three and groups of three, joined by commas. *)
Lemma with_commas_groups d :
  list_ascii_of_string d ≠ [] →
  ∃ first rest,
    groups_of_three first rest
    ∧ String.concat "" (first :: rest) = d
    ∧ Text.with_commas d = String.concat "," (first :: rest).
Proof.
  intros Hne. unfold Text.with_commas.
  destruct (group_from_right_groups _ (rev (list_ascii_of_string d)) []
              (le_n _)) as (first & rest & Hshape & Hcat & Hrun).
  { intros Hrev. apply Hne. apply (f_equal (@rev ascii)) in Hrev.
    now rewrite rev_involutive in Hrev. }
  exists first, rest. split; [exact Hshape|]. split.
  - rewrite Hcat, rev_involutive. apply string_of_list_ascii_of_string.
  - rewrite concat_groups. rewrite app_nil_r in Hrun. exact Hrun.
Qed.

(** The float of an integer has the sign of the integer. *)
Lemma float_of_int_sign n s m e :
  Py.float_of_int n = Ok (S754_finite s m e) → s = (n <? 0).
Proof.
  unfold Py.float_of_int, Float.of_Z, binary_normalize.
  destruct n as [|p|p]; [discriminate|..];
    unfold binary_round, binary_round_aux;
    repeat match goal with
           | |- context [let '(_, _) := ?x in _] => destruct x
           | |- context [match ?x with _ => _ end] => destruct x
           end; cbn; intros H; try discriminate H; now injection H.
Qed.

(** C3, as amended. [format_currency] returns "N/A" for [None] and for an
    amount equal to 0: the integer 0, a float zero of either sign and
    [False].  For every other finite float it returns a dollar sign, a
    minus sign when the amount is negative, the amount rounded to a nearest
    cent with the digits of its integer part in groups of three separated
    by commas, a point and exactly two decimals; an integer that converts
    to a float is printed as that float, with the sign of the integer.  An
    infinite amount gives "$inf" or "$-inf" and a nan "$nan", without
    decimals.  In particular [format_currency(0)] and
    [format_currency(None)] are "N/A" and [format_currency(12345.6)] is
    "$12,345.60". *)
Theorem format_currency_spec :
  format_currency VNone = Ok "N/A"
  ∧ format_currency (VInt 0) = Ok "N/A"
  ∧ format_currency (VBool false) = Ok "N/A"
  ∧ (∀ s, format_currency (VFloat (S754_zero s)) = Ok "N/A")
  ∧ (∀ s m e, ∃ cents first rest frac,
       0 <= cents
       ∧ nearest_to cents 100 m e
       ∧ numeral_of (cents / 100) (String.concat "" (first :: rest))
       ∧ groups_of_three first rest
       ∧ two_digits_of (cents mod 100) frac
       ∧ format_currency (VFloat (S754_finite s m e))
         = Ok ("$" +:+ (if s then "-" else "")
               +:+ String.concat "," (first :: rest) +:+ "." +:+ frac))
  ∧ (∀ n s m e, Py.float_of_int n = Ok (S754_finite s m e) →
       s = (n <? 0)
       ∧ format_currency (VInt n) = format_currency (VFloat (S754_finite s m e)))
  ∧ (∀ s, format_currency (VFloat (S754_infinity s))
          = Ok (if s then "$-inf" else "$inf"))
  ∧ format_currency (VFloat S754_nan) = Ok "$nan"
  ∧ format_currency (VFloat (Float.of_ratio 123456 10)) = Ok "$12,345.60"
  ∧ format_currency (VFloat (SFopp (Float.of_ratio 123456 10)))
    = Ok "$-12,345.60"
  ∧ format_currency (VInt 1234567) = Ok "$1,234,567.00"
  ∧ format_currency (VInt (-5)) = Ok "$-5.00"
  ∧ format_currency (VBool true) = Ok "$1.00".
Proof.
  split; [reflexivity|]. split; [reflexivity|]. split; [reflexivity|].
  split; [intros s; reflexivity|]. split.
  { intros s m e. destruct (scaled_nearest 2 m e) as [Hpos Hnear].
    set (cents := Float.scaled 2 m e) in *.
    assert (Hq : 0 <= cents / 100) by (apply Z.div_pos; lia).
    assert (Hr : 0 <= cents mod 100 < 100) by (apply Z.mod_pos_bound; lia).
    pose proof (digits_numeral (cents / 100) Hq) as Hnum.
    destruct (with_commas_groups (Text.digits (cents / 100)))
      as (first & rest & Hshape & Hcat & Hcommas).
    { now destruct (digits_chars (cents / 100) Hq) as (_ & Hne & _). }
    exists cents, first, rest, (Text.zero_pad 2 (Text.digits (cents mod 100))).
    split; [exact Hpos|]. split; [exact Hnear|].
    split; [now rewrite Hcat|]. split; [exact Hshape|].
    split; [now apply decimals_two_digits|].
    rewrite <- Hcommas. unfold format_currency.
    rewrite finite_float_nonzero. now destruct s. }
  split.
  { intros n s m e Hf. split; [now apply (float_of_int_sign n s m e)|].
    unfold format_currency. rewrite finite_float_nonzero. simpl.
    destruct (Z.eqb_spec n 0) as [->|_]; [discriminate Hf|]. now rewrite Hf. }
  split; [intros []; reflexivity|].
  repeat split; vm_compute; reflexivity.
Qed.

(** C3, the claim as stated fails: a nan and an infinity are neither [None]
    nor equal to 0, and what [format_currency] returns for them has no
    decimal point, hence no two decimals. *)
Lemma format_currency_nan_no_decimals :
  format_currency (VFloat S754_nan) = Ok "$nan"
  ∧ String.index 0 "." "$nan" = None
  ∧ format_currency (VFloat (S754_infinity false)) = Ok "$inf"
  ∧ String.index 0 "." "$inf" = None.
Proof. repeat split; reflexivity. Qed.

(** ** The properties at work on concrete records *)

Lemma report_fields_witness :
  run (get_school_metrics unused_repr) sample_record = Ok sample_report
  ∧ Forall2 (holds_field unused_repr sample_record)
      (layout_fields metrics_layout) (leaves sample_report).
Proof.
  split; [exact sample_record_report|].
  exact (report_fields unused_repr sample_record sample_report
           sample_record_report).
Defined.

Lemma raises_first_failure_witness :
  run (get_school_metrics unused_repr) null_latest_record = Raise AttributeError
  ∧ ∃ before ps after,
      layout_fields metrics_layout = before ++ ps :: after
      ∧ Forall (field_ok unused_repr null_latest_record) before
      ∧ field_value unused_repr ps.2 null_latest_record = Raise AttributeError.
Proof.
  assert (H : run (get_school_metrics unused_repr) null_latest_record
              = Raise AttributeError) by (vm_compute; reflexivity).
  split; [exact H|].
  exact (raises_first_failure unused_repr null_latest_record AttributeError H).
Defined.

Lemma report_depends_on_lookups_witness :
  same_lookups empty_record (dict [("latest", dict [("programs", VList [])])])
  ∧ run (get_school_metrics unused_repr) empty_record
    = run (get_school_metrics unused_repr)
        (dict [("latest", dict [("programs", VList [])])]).
Proof.
  assert (H : same_lookups empty_record
                (dict [("latest", dict [("programs", VList [])])])).
  { unfold same_lookups. repeat (constructor; [repeat constructor|]).
    constructor. }
  split; [exact H|].
  exact (report_depends_on_lookups unused_repr _ _ H).
Defined.

Lemma other_keys_ignored_witness :
  "id"%string ≠ "latest"%string ∧ "id"%string ≠ "school"%string
  ∧ run (get_school_metrics unused_repr) (VDict (<["id" := VInt 166027]> ∅))
    = run (get_school_metrics unused_repr) (VDict ∅).
Proof.
  assert (H1 : "id"%string ≠ "latest"%string) by discriminate.
  assert (H2 : "id"%string ≠ "school"%string) by discriminate.
  split; [exact H1|]. split; [exact H2|].
  exact (other_keys_ignored unused_repr ∅ "id" (VInt 166027) H1 H2).
Defined.

Lemma create_demographic_chart_slices_witness :
  let items := [("white", VFloat (Float.of_ratio 4 10));
                ("unknown", VNone);
                ("two_or_more", VInt 0);
                ("asian", VFloat (Float.of_ratio 25 100))] in
  forallb (λ kv, number_or_none kv.2) items = true
  ∧ create_demographic_chart items
    = Ok (match slices items with
          | [] => None
          | kept => Some {| pie_values := kept.*2;
                            pie_names := kept.*1;
                            pie_title := "Student Demographics" |}
          end).
Proof.
  split; [reflexivity|].
  apply create_demographic_chart_slices. reflexivity.
Defined.

Lemma main_unknown_school_witness :
  ∃ schools,
    page_schools = VDict schools
    ∧ schools !! "Yale University" = None
    ∧ main unused_repr unused_float_commas ratio_strtod unused_report_repr
        (VDict schools) "Yale University" []
      = (Raise KeyError,
         [ St.set_page_config "College Metrics Explorer" "wide";
           St.title (Leaf (VStr "College Explorer"));
           St.selectbox "Select a School" SAMPLE_SCHOOLS;
           St.divider ]).
Proof.
  eexists. split; [reflexivity|].
  assert (H : (list_to_map
                 [("Harvard University",
                   dict [("id", VInt 166027);
                         ("school_name", VStr "Harvard University");
                         ("collected_at", VStr "2024-01-01T00:00:00");
                         ("raw_data", page_record)])] : gmap string value)
              !! "Yale University" = None) by (vm_compute; reflexivity).
  split; [exact H|].
  exact (main_unknown_school unused_repr unused_float_commas ratio_strtod
           unused_report_repr _ "Yale University" H).
Defined.

Lemma main_returns_only_if_witness :
  ∃ log,
    main unused_repr unused_float_commas ratio_strtod unused_report_repr
      page_schools "Harvard University" [] = (Ok tt, log)
    ∧ ∃ cached r,
        py_subscript page_schools "Harvard University" = Ok cached
        ∧ py_subscript cached "raw_data" = Ok r
        ∧ Forall (present r) required_paths
        ∧ Forall (present_nonzero r) earnings_paths.
Proof.
  eexists. 
  assert (H : main unused_repr unused_float_commas ratio_strtod
                unused_report_repr page_schools "Harvard University" []
              = (Ok tt, _)) by (vm_compute; reflexivity).
  split; [exact H|].
  exact (main_returns_only_if unused_repr unused_float_commas ratio_strtod
           unused_report_repr page_schools "Harvard University" _ H).
Defined.

Lemma percent_number_reads_back_witness :
  format_percentage (VFloat (Float.of_ratio 153 1000)) = Ok "15.3%"
  ∧ percent_number ratio_strtod (Leaf (VStr "15.3%"))
    = Ok (ratio_strtod false 153 (-1)).
Proof.
  assert (H : format_percentage (VFloat (Float.of_ratio 153 1000)) = Ok "15.3%")
    by (vm_compute; reflexivity).
  split; [exact H|].
  exact (percent_number_reads_back ratio_strtod _ _ H).
Defined.

Lemma dollar_number_reads_back_witness :
  format_currency (VFloat (Float.of_ratio 123456 10)) = Ok "$12,345.60"
  ∧ dollar_number ratio_strtod (Leaf (VStr "$12,345.60"))
    = Ok (ratio_strtod false 1234560 (-2)).
Proof.
  assert (H : format_currency (VFloat (Float.of_ratio 123456 10))
              = Ok "$12,345.60") by (vm_compute; reflexivity).
  split; [exact H|].
  exact (dollar_number_reads_back ratio_strtod _ _ H).
Defined.

Lemma fetch_school_data_entries_witness :
  ∃ schools_data printed,
    Fetch.fetch_school_data sample_secret sample_get sample_now
    = (Fetch.Returned schools_data, printed)
    ∧ ∃ key d, sample_secret = Fetch.Returned key ∧ schools_data = VDict d
        ∧ ∀ school entry,
            d !! school = Some entry
            ↔ school ∈ SAMPLE_SCHOOLS
              ∧ ∃ first id, Fetch.found sample_get key school first
                  ∧ py_subscript first "id" = Ok id
                  ∧ entry = Fetch.entry_of sample_now school first id.
Proof.
  eexists _, _.
  assert (H : Fetch.fetch_school_data sample_secret sample_get sample_now
              = (Fetch.Returned _, _)) by (vm_compute; reflexivity).
  split; [exact H|].
  exact (fetch_school_data_entries sample_secret sample_get sample_now _ _ H).
Defined.

Lemma fetch_school_data_prints_witness :
  ∃ schools_data printed,
    Fetch.fetch_school_data sample_secret sample_get sample_now
    = (Fetch.Returned schools_data, printed)
    ∧ printed = map Fetch.progress SAMPLE_SCHOOLS.
Proof.
  eexists _, _.
  assert (H : Fetch.fetch_school_data sample_secret sample_get sample_now
              = (Fetch.Returned _, _)) by (vm_compute; reflexivity).
  split; [exact H|].
  exact (fetch_school_data_prints sample_secret sample_get sample_now _ _ H).
Defined.

Lemma fetch_school_data_nothing_found_witness :
  sample_secret = Fetch.Returned (VStr "DEMO_KEY")
  ∧ Forall (Fetch.not_found refusing_get (VStr "DEMO_KEY")) SAMPLE_SCHOOLS
  ∧ (Fetch.fetch_school_data sample_secret refusing_get sample_now).1
    = Fetch.Returned (VDict ∅).
Proof.
  assert (H : Forall (Fetch.not_found refusing_get (VStr "DEMO_KEY"))
                SAMPLE_SCHOOLS).
  { apply Forall_forall. intros school _. eexists. split; [reflexivity|].
    left. discriminate. }
  split; [reflexivity|]. split; [exact H|].
  exact (fetch_school_data_nothing_found sample_secret refusing_get sample_now
           (VStr "DEMO_KEY") eq_refl H).
Defined.

Lemma main_school_not_found_witness :
  ∃ schools_data printed,
    sample_secret = Fetch.Returned (VStr "DEMO_KEY")
    ∧ Fetch.fetch_school_data sample_secret sample_get sample_now
      = (Fetch.Returned schools_data, printed)
    ∧ Fetch.not_found sample_get (VStr "DEMO_KEY") "Yale University"
    ∧ main unused_repr unused_float_commas ratio_strtod unused_report_repr
        schools_data "Yale University" []
      = (Raise KeyError,
         [ St.set_page_config "College Metrics Explorer" "wide";
           St.title (Leaf (VStr "College Explorer"));
           St.selectbox "Select a School" SAMPLE_SCHOOLS;
           St.divider ]).
Proof.
  eexists _, _.
  assert (H : Fetch.fetch_school_data sample_secret sample_get sample_now
              = (Fetch.Returned _, _)) by (vm_compute; reflexivity).
  assert (Hnot : Fetch.not_found sample_get (VStr "DEMO_KEY") "Yale University").
  { eexists. split; [reflexivity|]. right. eexists _, _.
    split; [reflexivity|]. split; reflexivity. }
  split; [reflexivity|]. split; [exact H|]. split; [exact Hnot|].
  exact (main_school_not_found sample_secret sample_get sample_now unused_repr
           unused_float_commas ratio_strtod unused_report_repr
           (VStr "DEMO_KEY") _ _ "Yale University" eq_refl H Hnot).
Defined.

Lemma main_record_is_first_result_witness :
  ∃ schools_data printed,
    sample_secret = Fetch.Returned (VStr "DEMO_KEY")
    ∧ Fetch.fetch_school_data sample_secret sample_get sample_now
      = (Fetch.Returned schools_data, printed)
    ∧ "Harvard University" ∈ SAMPLE_SCHOOLS
    ∧ Fetch.found sample_get (VStr "DEMO_KEY") "Harvard University"
        catalog_record
    ∧ (cached ← py_subscript schools_data "Harvard University";
       py_subscript cached "raw_data")
      = Ok catalog_record.
Proof.
  eexists _, _.
  assert (H : Fetch.fetch_school_data sample_secret sample_get sample_now
              = (Fetch.Returned _, _)) by (vm_compute; reflexivity).
  assert (Hin : "Harvard University" ∈ SAMPLE_SCHOOLS) by constructor.
  assert (Hfound : Fetch.found sample_get (VStr "DEMO_KEY")
                     "Harvard University" catalog_record).
  { eexists _, _, _. split; [reflexivity|]. split; [reflexivity|].
    split; [reflexivity|]. split; [reflexivity|]. split; reflexivity. }
  split; [reflexivity|]. split; [exact H|]. split; [exact Hin|].
  split; [exact Hfound|].
  exact (main_record_is_first_result sample_secret sample_get sample_now
           (VStr "DEMO_KEY") _ _ "Harvard University" catalog_record
           eq_refl H Hin Hfound).
Defined.
